(** * shiv bootstrap: a shallow embedding of [shiv/bootstrap/__init__.py]

    Part I holds what the module takes from Python itself: results and
    exceptions, [str] and [pathlib.PurePosixPath]. Part II is the module,
    function by function. Part III names what the specification speaks of.
    Part IV holds the facts, component by component: the cache path
    resolver, the platform cache, the export of the search path, the
    integrity verifier, the search path extender, the entry dispatcher and
    the extractor. *)

From Stdlib Require Import ZArith Lia.
From Stdlib Require Import Strings.String Strings.Ascii.
From stdpp Require Import base option list sorting gmap strings.

Local Open Scope string_scope.
Local Open Scope list_scope.

(** * Part I: Python as the module uses it *)

(** ** Exceptions and results *)

(** What a call into packaged code hands back, as far as [sys.exit] tells
    values apart. *)
Inductive PyVal : Type :=
| PyNone
| PyInt (n : Z)
| PyObject (repr : string).

(** The exceptions the module can see, by Python class. *)
Inductive Exn : Type :=
| RuntimeError (msg : string)
| ValueError (msg : string)
| ImportError (msg : string)
| OSError (msg : string)
| IsADirectoryError (msg : string)
| FileNotFoundError (msg : string)
| RecursionError
| SystemExit (status : PyVal)
| OtherException (cls msg : string).

(** A call either returns a value or raises. *)
Inductive Result (A : Type) : Type :=
| Ok (a : A)
| Raise (e : Exn).
Arguments Ok {A} a.
Arguments Raise {A} e.

Definition rbind {A B} (r : Result A) (k : A -> Result B) : Result B :=
  match r with
  | Ok a => k a
  | Raise e => Raise e
  end.

Declare Scope result_scope.
Delimit Scope result_scope with result.
Notation "x <- c1 ;;; c2" := (rbind c1 (fun x => c2))
  (at level 100, c1 at next level, right associativity) : result_scope.

(** ** Strings, as [str] behaves *)

Module Str.

(** [s.startswith(p)] *)
Definition startswith (p s : string) : bool := String.prefix p s.

(** [s.endswith(suf)] *)
Fixpoint endswith (suf s : string) : bool :=
  String.eqb s suf ||
  match s with
  | EmptyString => false
  | String _ s' => endswith suf s'
  end.

(** [s[1:]] *)
Definition tail (s : string) : string :=
  match s with
  | EmptyString => EmptyString
  | String _ s' => s'
  end.

(** [s.split(sep)] for a one-character separator: never the empty list. *)
Fixpoint split (sep : ascii) (s : string) : list string :=
  match s with
  | EmptyString => [EmptyString]
  | String c s' =>
      if Ascii.eqb c sep then EmptyString :: split sep s'
      else match split sep s' with
           | h :: t => String c h :: t
           | [] => [String c EmptyString]
           end
  end.

(** [sep.join(l)] *)
Definition join (sep : string) (l : list string) : string := String.concat sep l.

(** [s.rfind(c)], [None] standing for -1. *)
Fixpoint rfind (c : ascii) (s : string) : option nat :=
  match s with
  | EmptyString => None
  | String a s' =>
      match rfind c s' with
      | Some i => Some (S i)
      | None => if Ascii.eqb a c then Some 0 else None
      end
  end.

(** ASCII white space, as [str.strip] sees it. *)
Definition is_space (c : ascii) : bool :=
  let n := nat_of_ascii c in
  (Nat.leb 9 n && Nat.leb n 13) || (Nat.leb 28 n && Nat.leb n 32).

Fixpoint lstrip (s : string) : string :=
  match s with
  | EmptyString => EmptyString
  | String c s' => if is_space c then lstrip s' else s
  end.

Fixpoint rstrip (s : string) : string :=
  match s with
  | EmptyString => EmptyString
  | String c s' =>
      let r := rstrip s' in
      if is_space c && String.eqb r EmptyString then EmptyString else String c r
  end.

(** [s.strip()] *)
Definition strip (s : string) : string := rstrip (lstrip s).

(** Truthiness of a string. *)
Definition truthy (s : string) : bool := negb (String.eqb s EmptyString).

(** [a or b] on strings. *)
Definition or_else (a b : string) : string := if truthy a then a else b.

End Str.

(** ** Paths, as [pathlib.PurePosixPath] behaves *)

(** A parsed path: its root ([""], ["/"] or ["//"]) and its components. *)
Record Path : Type := mkPath { p_root : string; p_parts : list string }.

#[global] Instance Path_eq_dec : EqDecision Path.
Proof. solve_decision. Defined.

Module PathLib.

(** The root of a path string: exactly two leading slashes are kept,
    any other number of leading slashes is one. *)
Definition splitroot (s : string) : string :=
  match s with
  | String "/" (String "/" (String "/" _)) => "/"
  | String "/" (String "/" _) => "//"
  | String "/" _ => "/"
  | _ => ""
  end.

(** A component is kept unless it is empty or a single dot. *)
Definition keep_part (x : string) : bool :=
  negb (String.eqb x "") && negb (String.eqb x ".").

(** [Path(s)] *)
Definition parse (s : string) : Path :=
  mkPath (splitroot s) (List.filter keep_part (Str.split "/" s)).

(** [str(p)] *)
Definition to_str (p : Path) : string :=
  match p_root p, p_parts p with
  | "", [] => "."
  | r, ps => r +:+ Str.join "/" ps
  end.

(** [p / s] and [Path(p, s)] *)
Definition joinpath (p : Path) (s : string) : Path :=
  let q := parse s in
  if Str.truthy (p_root q) then q
  else mkPath (p_root p) (p_parts p ++ p_parts q).

(** [p.name] *)
Definition name (p : Path) : string := List.last (p_parts p) "".

(** [p.parent] *)
Definition parent (p : Path) : Path :=
  mkPath (p_root p) (List.removelast (p_parts p)).

(** [p.suffix]: from the last dot of the name, unless that dot starts or
    ends the name. *)
Definition suffix (p : Path) : string :=
  let n := name p in
  match Str.rfind "." n with
  | Some i =>
      if Nat.ltb 0 i && Nat.ltb i (String.length n - 1)
      then String.substring i (String.length n - i) n
      else ""
  | None => ""
  end.

(** [p.stem] *)
Definition stem (p : Path) : string :=
  let n := name p in
  match Str.rfind "." n with
  | Some i =>
      if Nat.ltb 0 i && Nat.ltb i (String.length n - 1)
      then String.substring 0 i n
      else n
  | None => n
  end.

(** [p.is_relative_to(other)]: same root, and [other]'s components lead
    [p]'s. *)
Definition is_relative_to (p other : Path) : bool :=
  bool_decide (p_root p = p_root other) &&
  bool_decide (p_parts other `prefix_of` p_parts p).

(** The invariant of parsed paths. *)
Definition wf_part (x : string) : bool :=
  keep_part x && bool_decide (Str.split "/" x = [x]).

Definition wf (p : Path) : bool :=
  bool_decide (p_root p ∈ [""; "/"; "//"]) && forallb wf_part (p_parts p).

End PathLib.

Notation "p // s" := (PathLib.joinpath p s) (at level 40, left associativity).

(** * Part II: the module *)

(** ** Configuration, effects and state *)

(** Modelled from the spec: the configuration object
    ([shiv.bootstrap.environment.Environment]), a record that is read and
    never written; these are the fields [bootstrap] reads. *)
Record Environment : Type := mkEnvironment {
  env_root : option string;
  env_platform_root : bool;
  env_build_id : string;
  env_force_extract : bool;
  env_compile_pyc : bool;
  env_compile_workers : Z;
  env_no_modify : bool;
  env_hashes : gmap string string;
  env_extend_pythonpath : bool;
  env_preamble : option string;
  env_interpreter : bool;
  env_entry_point : option string;
  env_script : option string;
}.

(** Modelled from the spec: the names of the environment variables that
    say which module, entry point or console script an invocation uses
    ([Environment.MODULE], [Environment.ENTRY_POINT],
    [Environment.CONSOLE_SCRIPT]). *)
Record RoutingNames : Type := mkRoutingNames {
  name_MODULE : string;
  name_ENTRY_POINT : string;
  name_CONSOLE_SCRIPT : string;
}.

(** An object found by an import: a module, or an attribute of one. *)
Inductive PyObj : Type :=
| Module (name : string)
| Attr (owner : PyObj) (name : string).

(** What the dispatcher does to the world outside, in order. *)
Inductive Event : Type :=
| RunPath (path : string) (init_globals : bool)  (* [runpy.run_path(path, run_name="__main__")] *)
| SubprocessRun (program : string)               (* [subprocess.run([program])] *)
| ImportModule (name : string)                   (* [import_module(name)] *)
| DunderImport (name from : string)              (* [__import__(name, None, None, [from])] *)
| Call (callee : PyObj)                          (* [callee()] *)
| ExecuteInterpreter.                            (* [execute_interpreter()] *)

(** How the code that is not the module's own behaves. *)
Record Externals : Type := mkExternals {
  x_run_path : string -> Result PyVal;
  x_subprocess_run : string -> Result Z;        (* the return code, or the failure to launch *)
  x_import_module : string -> Result unit;
  x_dunder_import : string -> string -> Result unit;
  x_getattr : PyObj -> string -> option PyObj;  (* [None] for [AttributeError] *)
  x_call : PyObj -> Result PyVal;
}.

(** The state [bootstrap] threads through its last part. *)
Record World : Type := mkWorld {
  w_environ : gmap string string;
  w_trace : list Event;
}.

(** Computations over a state [S] that may raise; the state survives the
    exception. *)
Definition ST (S A : Type) : Type := S -> Result A * S.

Definition mret {S A} (a : A) : ST S A := fun w => (Ok a, w).
Definition mraise {S A} (e : Exn) : ST S A := fun w => (Raise e, w).
Definition mbind {S A B} (m : ST S A) (k : A -> ST S B) : ST S B :=
  fun w => match m w with
           | (Ok a, w') => k a w'
           | (Raise e, w') => (Raise e, w')
           end.
(** [try: m] with the outcome in hand. *)
Definition mtry {S A} (m : ST S A) : ST S (Result A) :=
  fun w => let '(r, w') := m w in (Ok r, w').
Definition mlift {S A} (r : Result A) : ST S A := fun w => (r, w).

Definition M (A : Type) : Type := ST World A.

Definition emit (e : Event) : M unit :=
  fun w => (Ok tt, mkWorld (w_environ w) (w_trace w ++ [e])).
(** [with suppress(KeyError): del os.environ[key]] *)
Definition del_environ (key : string) : M unit :=
  fun w => (Ok tt, mkWorld (delete key (w_environ w)) (w_trace w)).

Declare Scope m_scope.
Delimit Scope m_scope with M.
Notation "x <~ c1 ;; c2" := (mbind c1 (fun x => c2))
  (at level 100, c1 at next level, right associativity) : m_scope.
Notation "c1 ;;; c2" := (mbind c1 (fun _ => c2))
  (at level 100, right associativity) : m_scope.

(** ** [run] and [import_string] *)

Section Entry.

Variable names : RoutingNames.
Variable X : Externals.

(** [run(module)] (lines 22 to 39): scrub the routing variables, call,
    exit with what the call returns. *)
Definition run (module : M PyVal) : M unit :=
  (del_environ (name_MODULE names) ;;;
   del_environ (name_ENTRY_POINT names) ;;;
   del_environ (name_CONSOLE_SCRIPT names) ;;;
   v <~ module ;;
   mraise (SystemExit v))%M.

(** [import_module(name)] and [__import__(name, None, None, [from])],
    seen from the caller. *)
Definition import_module (name : string) : M unit :=
  (emit (ImportModule name) ;;; mlift (x_import_module X name))%M.
Definition dunder_import (name from : string) : M unit :=
  (emit (DunderImport name from) ;;; mlift (x_dunder_import X name from))%M.

(** [getattr(module, obj_name)], the [AttributeError] already turned into
    the [ImportError] of line 88. *)
Definition getattr_or_import_error (module : PyObj) (obj_name : string) : M PyObj :=
  match x_getattr X module obj_name with
  | Some o => mret o
  | None => mraise (ImportError ("no attribute " +:+ obj_name))
  end.

(** [import_string] on a name with its colons already turned into dots,
    given by its dotted components, last component first: the recursion
    of line 82 is on the components that remain. *)
Fixpoint import_string_parts (rev_parts : list string) : M PyObj :=
  let import_name := Str.join "." (rev rev_parts) in
  (r <~ mtry (import_module import_name) ;;
   match r with
   | Ok _ => mret (Module import_name)
   | Raise (ImportError msg) =>
       match rev_parts with
       | obj_name :: ((_ :: _) as rest) =>
           let module_name := Str.join "." (rev rest) in
           r' <~ mtry (dunder_import module_name obj_name) ;;
           module <~ match r' with
                     | Ok _ => mret (Module module_name)
                     | Raise (ImportError _) => import_string_parts rest
                     | Raise e => mraise e
                     end ;;
           getattr_or_import_error module obj_name
       | _ => mraise (ImportError msg)
       end
   | Raise e => mraise e
   end)%M.

(** [s.replace(":", ".")] *)
Fixpoint colons_to_dots (s : string) : string :=
  match s with
  | EmptyString => EmptyString
  | String c s' => String (if Ascii.eqb c ":" then "."%char else c) (colons_to_dots s')
  end.

(** [import_string] (lines 52 to 88). *)
Definition import_string (import_name : string) : M PyObj :=
  import_string_parts (rev (Str.split "." (colons_to_dots import_name))).

End Entry.

(** ** The host: what the module reads from the interpreter and the OS *)

Record Host : Type := mkHost {
  sys_platform : string;                  (* [sys.platform] *)
  os_environ : gmap string string;        (* [os.environ] *)
  path_exists : Path -> bool;             (* [Path.exists] *)
  os_access_w : Path -> bool;             (* [os.access(p, os.W_OK)] *)
  gethomedir : string -> option string;   (* home of a user, [""] for the current one *)
}.

(** [os.environ.get(key, default)] *)
Definition environ_get (environ : gmap string string) (key dflt : string) : string :=
  match environ !! key with
  | Some v => v
  | None => dflt
  end.

(** [p.expanduser()]: a relative path whose first component starts with a
    tilde has that component replaced by the user's home directory. *)
Definition expanduser (H : Host) (p : Path) : Result Path :=
  match p_root p, p_parts p with
  | "", first :: rest =>
      if Str.startswith "~" first then
        match gethomedir H (Str.tail first) with
        | Some home =>
            let h := PathLib.parse home in
            Ok (mkPath (p_root h) (p_parts h ++ rest))
        | None => Raise (RuntimeError "Could not determine home directory.")
        end
      else Ok p
  | _, _ => Ok p
  end.

(** [Path.home()] *)
Definition path_home (H : Host) : Result Path := expanduser H (PathLib.parse "~").

(** The loop of [is_dir_writeable]: climb while the path does not exist,
    stopping at the root, which is its own parent. *)
Fixpoint is_dir_writeable_loop (H : Host) (fuel : nat) (path : Path) : option Path :=
  match fuel with
  | O => None
  | S fuel' =>
      if negb (path_exists H path) then
        let parent := PathLib.parent path in
        if bool_decide (parent = path) then Some path
        else is_dir_writeable_loop H fuel' parent
      else Some path
  end.

(** The path the loop of [is_dir_writeable] ends on. *)
Definition extant_portion (H : Host) (path : Path) : option Path :=
  is_dir_writeable_loop H (S (length (p_parts path))) path.

(** [is_dir_writeable] (lines 91 to 109); [None] only if the loop ran out
    of steps, which it does not. *)
Definition is_dir_writeable (H : Host) (path : Path) : option bool :=
  os_access_w H <$> extant_portion H path.

(** [is_system_path] (lines 125 to 138): [None] on an unsupported
    platform. *)
Definition is_system_path (H : Host) (path : Path) : option bool :=
  if String.eqb (sys_platform H) "linux" then
    Some (negb (PathLib.is_relative_to path (PathLib.parse "/home")) &&
          negb (PathLib.is_relative_to path (PathLib.parse "/root")))
  else if String.eqb (sys_platform H) "darwin" then
    Some (negb (PathLib.is_relative_to path (PathLib.parse "/Users")))
  else None.

(** [system_root] (lines 141 to 153): [None] on an unsupported platform. *)
Definition system_root (H : Host) : option Path :=
  if String.eqb (sys_platform H) "linux" then Some (PathLib.parse "/var/cache")
  else if String.eqb (sys_platform H) "darwin" then Some (PathLib.parse "/Library/Caches")
  else None.

(** [user_root] (lines 156 to 171): [None] on an unsupported platform;
    the error is that of [expanduser]. *)
Definition user_root (H : Host) : Result (option Path) :=
  let root :=
    if String.eqb (sys_platform H) "win32" then
      Some (Str.or_else (Str.strip (environ_get (os_environ H) "LOCALAPPDATA" "")) "~/AppData/Local")
    else if String.eqb (sys_platform H) "linux" then
      Some (Str.or_else (Str.strip (environ_get (os_environ H) "XDG_CACHE_HOME" "")) "~/.cache")
    else if String.eqb (sys_platform H) "darwin" then
      Some "~/Library/Caches"
    else None in
  match root with
  | Some r => (p <- expanduser H (PathLib.parse r) ;;; Ok (Some p))%result
  | None => Ok None
  end.

(** Truthiness of an optional value that is a boolean when present. *)
Definition truthy_opt (o : option bool) : bool :=
  match o with Some b => b | None => false end.

(** [cache_path] (lines 210 to 233) and [platform_cache] (lines 174 to
    207) call each other; the knot is tied on a call depth, [None] standing
    for a depth that was not enough. *)
Fixpoint cache_path_depth (depth : nat) (H : Host) (archive_path : Path)
    (root_dir : option string) (platform_compat : bool) (build_id : string)
    {struct depth} : option (Result Path) :=
  match depth with
  | O => None
  | S depth' =>
      let finish (root : Result (option Path)) : Result Path :=
        (root <- root ;;;
         root <- match root with
                 | Some r => Ok r
                 | None => (h <- path_home H ;;; Ok (h // ".shiv"))
                 end ;;;
         Ok (root // (PathLib.name archive_path +:+ "_" +:+ build_id)))%result in
      match root_dir with
      | Some (String c s as rd) =>
          let rd' := if Str.startswith "$" rd
                     then environ_get (os_environ H) (Str.tail rd) (Str.tail rd)
                     else rd in
          Some (finish (r <- expanduser H (PathLib.parse rd') ;;; Ok (Some r))%result)
      | _ =>
          if platform_compat then
            finish <$> platform_cache_depth depth' H archive_path build_id
          else Some (finish (Ok None))
      end
  end
with platform_cache_depth (depth : nat) (H : Host) (archive_path : Path)
    (build_id : string) {struct depth} : option (Result (option Path)) :=
  match depth with
  | O => None
  | S depth' =>
      let user : Result (option Path) :=
        (user_base <- user_root H ;;;
         match user_base with
         | Some u => Ok (Some (u // PathLib.name archive_path))
         | None => Ok None
         end)%result in
      if truthy_opt (is_system_path H archive_path) then
        match system_root H with
        | Some system_base =>
            let root := system_base // PathLib.name archive_path in
            match cache_path_depth depth' H archive_path
                    (Some (PathLib.to_str root)) false build_id with
            | None => None
            | Some (Raise e) => Some (Raise e)
            | Some (Ok cache) =>
                let site_packages := cache // "site-packages" in
                if path_exists H site_packages then Some (Ok (Some root))
                else match is_dir_writeable H cache with
                     | None => None
                     | Some true => Some (Ok (Some root))
                     | Some false => Some user
                     end
            end
        | None => Some user
        end
      else Some user
  end.

(** Three nested calls are the most the two functions make. *)
Definition call_depth : nat := 3.

Definition cache_path (H : Host) (archive_path : Path) (root_dir : option string)
    (platform_compat : bool) (build_id : string) : Result Path :=
  match cache_path_depth call_depth H archive_path root_dir platform_compat build_id with
  | Some r => r
  | None => Raise RecursionError
  end.

Definition platform_cache (H : Host) (archive_path : Path) (build_id : string)
    : Result (option Path) :=
  match platform_cache_depth call_depth H archive_path build_id with
  | Some r => r
  | None => Raise RecursionError
  end.

(** ** The disk *)

(** The disk, as far as [Path.exists] can tell: the paths that were
    created. A path exists when it is one of them or leads to one. *)
Definition FS : Type := list Path.

Definition fs_exists (fs : FS) (p : Path) : bool :=
  existsb (fun q => PathLib.is_relative_to q p) fs.

(** [os.rename(src, dst)]: whatever sits at or under [src] sits at or
    under [dst] afterwards; the directory that held [src] stays. *)
Definition rebase (src dst q : Path) : Path :=
  if PathLib.is_relative_to q src
  then mkPath (p_root dst) (p_parts dst ++ drop (length (p_parts src)) (p_parts q))
  else q.

Definition fs_rename (src dst : Path) (fs : FS) : FS :=
  PathLib.parent src :: map (rebase src dst) fs.

(** [shutil.rmtree(p)]: nothing at or under [p] is left; the directory
    that held [p] stays. *)
Definition fs_rmtree (p : Path) (fs : FS) : FS :=
  PathLib.parent p :: List.filter (fun q => negb (PathLib.is_relative_to q p)) fs.

(** What the extractor does to the disk and to the lock, in order. *)
Inductive Op : Type :=
| Mkdir (p : Path)
| LockAcquire (lock : Path)
| LockRelease (lock : Path)
| Extract (member : string) (dest : Path)
| Chmod (p : Path) (mode : Z)
| CompileDir (dir : Path) (workers : Z)
| Rmtree (p : Path)
| Move (src dst : Path).

(** The operations that write to the disk. *)
Definition is_write (op : Op) : bool :=
  match op with
  | LockAcquire _ | LockRelease _ => false
  | _ => true
  end.

Record Disk : Type := mkDisk { d_fs : FS; d_ops : list Op }.

Definition did (op : Op) (change : FS -> FS) : ST Disk unit :=
  fun d => (Ok tt, mkDisk (change (d_fs d)) (d_ops d ++ [op])).

(** ** The extractor *)

(** An entry of [archive.infolist()]. *)
Record ZipInfo : Type := mkZipInfo { filename : string; external_attr : Z }.

(** Where [ZipFile.extract] puts a member: under the destination, the
    empty, dot and dot-dot components of its name dropped. *)
Definition member_parts (member : string) : list string :=
  List.filter (fun x => negb (bool_decide (x ∈ [""; "."; ".."]))) (Str.split "/" member).

(** [archive.extract(member, dest)]; the path written is returned. *)
Definition zip_extract (member : string) (dest : Path) : ST Disk Path :=
  let extracted := mkPath (p_root dest) (p_parts dest ++ member_parts member) in
  (did (Extract member dest) (cons extracted) ;;; mret extracted)%M.

(** [parent.mkdir(parents=True, exist_ok=True)] *)
Definition mkdir_parents (p : Path) : ST Disk unit := did (Mkdir p) (cons p).

(** [shutil.rmtree(path)] *)
Definition shutil_rmtree (p : Path) : ST Disk unit := did (Rmtree p) (fs_rmtree p).

(** [shutil.move(src, dst)]: a rename, into [dst] when [dst] is there. *)
Definition shutil_move (src dst : Path) : ST Disk unit :=
  fun d =>
    let fs := d_fs d in
    let logged := mkDisk fs (d_ops d ++ [Move src dst]) in
    if negb (fs_exists fs src) then
      (Raise (FileNotFoundError (PathLib.to_str src)), logged)
    else if fs_exists fs dst then
      let real_dst := dst // PathLib.name src in
      if fs_exists fs real_dst then
        (Raise (OSError ("Destination path '" +:+ PathLib.to_str real_dst
                         +:+ "' already exists")), logged)
      else (Ok tt, mkDisk (fs_rename src real_dst fs) (d_ops logged))
    else (Ok tt, mkDisk (fs_rename src dst fs) (d_ops logged)).

(** Modelled from the spec: [FileLock], the named cross-process lock, held
    for the body and released on every way out of it. Within one process
    it is always granted. *)
Definition with_FileLock {A} (lock : Path) (body : ST Disk A) : ST Disk A :=
  fun d =>
    let '(r, d') := body (mkDisk (d_fs d) (d_ops d ++ [LockAcquire lock])) in
    (r, mkDisk (d_fs d') (d_ops d' ++ [LockRelease lock])).

Section Extractor.

(** What [compileall.compile_dir] does on a directory with a valid worker
    count: whether every file compiled, and the files it wrote, relative
    to the directory. *)
Variable compile_outcome : FS -> Path -> Z -> bool * list (list string).

(** [compileall.compile_dir(dir, quiet=2, workers=workers)] *)
Definition compile_dir (dir : Path) (workers : Z) : ST Disk bool :=
  fun d =>
    let logged := mkDisk (d_fs d) (d_ops d ++ [CompileDir dir workers]) in
    if (workers <? 0)%Z then
      (Raise (ValueError "workers must be greater or equal to 0"), logged)
    else
      let '(success, written) := compile_outcome (d_fs d) dir workers in
      (Ok success,
       mkDisk (map (fun rel => mkPath (p_root dir) (p_parts dir ++ rel)) written ++ d_fs d)
         (d_ops logged)).

(** The loop of lines 260 to 266. *)
Fixpoint extract_members (infolist : list ZipInfo) (target_path_tmp : Path)
    : ST Disk unit :=
  match infolist with
  | [] => mret tt
  | fileinfo :: rest =>
      ((if Str.startswith "site-packages" (filename fileinfo) then
          (extracted <~ zip_extract (filename fileinfo) target_path_tmp ;;
           did (Chmod extracted (Z.shiftr (external_attr fileinfo) 16)) id)
        else mret tt) ;;;
       extract_members rest target_path_tmp)%M
  end.

(** [extract_site_packages] (lines 236 to 276). *)
Definition extract_site_packages (archive : list ZipInfo) (target_path : Path)
    (compile_pyc : bool) (compile_workers : Z) (force : bool) : ST Disk unit :=
  let parent := PathLib.parent target_path in
  let target_path_tmp := parent // (PathLib.name target_path +:+ ".tmp") in
  let lock := parent // ("." +:+ PathLib.name target_path +:+ "_lock") in
  ((fun d => (if negb (fs_exists (d_fs d) parent) then mkdir_parents parent
              else mret tt) d) ;;;
   with_FileLock lock
     (fun d =>
        (if negb (fs_exists (d_fs d) target_path) || force then
           (extract_members archive target_path_tmp ;;;
            (if compile_pyc
             then (compile_dir target_path_tmp compile_workers ;;; mret tt)
             else mret tt) ;;;
            (fun d' => (if fs_exists (d_fs d') target_path
                        then shutil_rmtree target_path else mret tt) d') ;;;
            shutil_move target_path_tmp target_path)
         else mret tt) d))%M.

(** Lines 322 to 330 of [bootstrap]. *)
Definition bootstrap_extract (env : Environment) (archive : list ZipInfo)
    (site_packages : Path) : ST Disk unit :=
  fun d =>
    (if negb (fs_exists (d_fs d) site_packages) || env_force_extract env then
       extract_site_packages archive (PathLib.parent site_packages)
         (env_compile_pyc env) (env_compile_workers env) (env_force_extract env)
     else mret tt) d.

End Extractor.

(** ** The search path extender *)

(** Whether a [sys.path] entry is named like a dependency directory. *)
Definition is_sitedir (part : string) : bool :=
  bool_decide (PathLib.stem (PathLib.parse part) ∈ ["site-packages"; "dist-packages"]).

(** The loop of [get_first_sitedir_index], [index] counting the entries
    already passed; falling off the end is Python's [None]. *)
Fixpoint get_first_sitedir_index_from (index : nat) (sys_path : list string)
    : option nat :=
  match sys_path with
  | [] => None
  | part :: rest =>
      if is_sitedir part then Some index
      else get_first_sitedir_index_from (S index) rest
  end.

(** [get_first_sitedir_index] (lines 279 to 282), on [sys.path]. *)
Definition get_first_sitedir_index (sys_path : list string) : option nat :=
  get_first_sitedir_index_from 0 sys_path.

(** [a or b] for an optional integer [a]: [None] and [0] are both falsy. *)
Definition int_or (a : option nat) (b : nat) : nat :=
  match a with
  | Some (S n) => S n
  | Some O | None => b
  end.

(** [l[i:j]] *)
Definition slice {A} (i j : nat) (l : list A) : list A := take (j - i) (drop i l).

(** [site.addsitedir]: registration appends to [sys.path]. What it appends,
    the directory itself unless it is known already and then the entries of
    its [.pth] files, is the host's. *)
Definition addsitedir (appended sys_path : list string) : list string :=
  (sys_path ++ appended)%list.

(** Lines 332 to 349 of [bootstrap]: the new [sys.path] and [new_paths]. *)
Definition bootstrap_sys_path (appended sys_path : list string)
    : list string * list string :=
  let length := List.length sys_path in
  let index := int_or (get_first_sitedir_index sys_path) length in
  let sys_path_before := sys_path in
  let sys_path := addsitedir appended sys_path in
  let sys_path :=
    (take index sys_path ++ drop length sys_path ++ slice index length sys_path)%list in
  let new_paths := filter (fun p => p ∉ sys_path_before) sys_path in
  (sys_path, new_paths).

(** ** Lists, sets and [sorted], as [extend_python_path] uses them *)

Section PyList.

Context {A : Type} `{EqDecision A}.

(** [l.index(x)]: the first position of [x]; [ValueError] when absent. *)
Fixpoint list_index (l : list A) (x : A) : Result nat :=
  match l with
  | [] => Raise (ValueError "x is not in list")
  | y :: l' =>
      if decide (y = x) then Ok 0
      else (i <- list_index l' x ;;; Ok (S i))%result
  end.

(** [sorted] computes the key of every element once, in order. *)
Fixpoint decorate (key : A -> Result nat) (xs : list A) : Result (list (nat * A)) :=
  match xs with
  | [] => Ok []
  | x :: xs' =>
      (k <- key x ;;; ks <- decorate key xs' ;;; Ok ((k, x) :: ks))%result
  end.

(** Stable insertion: before the first element whose key is not smaller. *)
Fixpoint insert_keyed (kx : nat * A) (l : list (nat * A)) : list (nat * A) :=
  match l with
  | [] => [kx]
  | ky :: l' => if Nat.leb kx.1 ky.1 then kx :: l else ky :: insert_keyed kx l'
  end.

Definition sort_keyed (l : list (nat * A)) : list (nat * A) :=
  foldr insert_keyed [] l.

(** [sorted(xs, key=key)] *)
Definition py_sorted (key : A -> Result nat) (xs : list A) : Result (list A) :=
  (ks <- decorate key xs ;;; Ok (sort_keyed ks).*2)%result.

(** Order-preserving removal of duplicates, the first occurrence kept:
    what the specification asks of the exported list. *)
Fixpoint dedup_first (l : list A) : list A :=
  match l with
  | [] => []
  | x :: l' => x :: filter (fun y => y <> x) (dedup_first l')
  end.

End PyList.

(** [set(l)] for strings: the distinct elements, in an order that has
    nothing to do with the order of [l]. *)
Definition py_set (l : list string) : list string :=
  elements (list_to_set l : gset string).

(** [extend_python_path] (lines 285 to 294); [pathsep] is [os.pathsep].
    The updated mapping is returned. *)
Definition extend_python_path (pathsep : ascii) (environ : gmap string string)
    (additional_paths : list string) : Result (gmap string string) :=
  let python_path :=
    (match environ !! "PYTHONPATH" with
     | Some v => Str.split pathsep v
     | None => []
     end ++ additional_paths)%list in
  (ordered <- py_sorted (list_index python_path) (py_set python_path) ;;;
   Ok (<["PYTHONPATH" := Str.join (String pathsep "") ordered]> environ))%result.

(** ** The integrity verifier *)

Definition bytes : Type := list Byte.byte.

(** What a path inside the extracted tree leads to. *)
Inductive FNode : Type :=
| RegularFile (content : bytes)
| Directory.

(** The extracted tree as a recursive walk lists it: every path below the
    root, by its components relative to the root, in the order of the
    walk. *)
Definition Tree : Type := list (list string * FNode).

(** The name of a relative path. *)
Definition rel_name (rel : list string) : string := List.last rel "".

(** Whether [*.py] matches a name. *)
Definition fnmatch_py (name : string) : bool := Str.endswith ".py" name.

(** [root.rglob("**/*.py")]: the paths, at any depth, whose name matches;
    directories are not told from files. *)
Definition rglob_py (tree : Tree) : Tree :=
  List.filter (fun e => fnmatch_py (rel_name e.1)) tree.

(** [path.read_bytes()] *)
Definition read_bytes (e : list string * FNode) : Result bytes :=
  match e.2 with
  | RegularFile content => Ok content
  | Directory => Raise (IsADirectoryError (Str.join "/" e.1))
  end.

(** In-place change of a file's content; other paths and directories are
    left alone. *)
Definition write_bytes (tree : Tree) (rel : list string) (content : bytes) : Tree :=
  (fun e : list string * FNode =>
     match e.2 with
     | RegularFile _ =>
         if decide (e.1 = rel) then (e.1, RegularFile content) else e
     | Directory => e
     end) <$> tree.

Section Verifier.

(** [hashlib.sha256(b).hexdigest()] *)
Variable sha256_hexdigest : bytes -> string.

(** The extracted root and the recorded hashes. *)
Variable site_packages : Path.
Variable hashes : gmap string string.

(** [str(path)] and [str(path.relative_to(site_packages))] of a path of
    the walk. *)
Definition full_str (rel : list string) : string :=
  PathLib.to_str (mkPath (p_root site_packages) (p_parts site_packages ++ rel)).
Definition rel_str (rel : list string) : string := Str.join "/" rel.

Definition modified_message (rel : list string) : string :=
  "A Python source file has been modified! File: " +:+ full_str rel +:+
  ". Try again with SHIV_FORCE_EXTRACT=1 to overwrite the modified source file(s).".

(** The comparison of line 302: the digest against [hashes.get(...)]. *)
Definition hash_differs (rel : list string) (content : bytes) : bool :=
  negb (bool_decide (hashes !! rel_str rel = Some (sha256_hexdigest content))).

(** The loop over the matched paths; the second component lists the
    paths handed to [read_bytes], in order. *)
Fixpoint ensure_no_modify_loop (paths : Tree) : Result unit * list (list string) :=
  match paths with
  | [] => (Ok tt, [])
  | e :: rest =>
      match read_bytes e with
      | Raise err => (Raise err, [e.1])
      | Ok content =>
          if hash_differs e.1 content
          then (Raise (RuntimeError (modified_message e.1)), [e.1])
          else let '(r, reads) := ensure_no_modify_loop rest in (r, e.1 :: reads)
      end
  end.

(** [ensure_no_modify] (lines 297 to 306), on the tree under
    [site_packages]. *)
Definition ensure_no_modify (tree : Tree) : Result unit * list (list string) :=
  ensure_no_modify_loop (rglob_py tree).

End Verifier.

(** ** [bootstrap], from the preamble on *)

Section Bootstrap.

Variable names : RoutingNames.
Variable X : Externals.

(** [runpy.run_path(path, run_name="__main__")], with or without
    [init_globals]. *)
Definition run_path (path : string) (init_globals : bool) : M PyVal :=
  (emit (RunPath path init_globals) ;;; mlift (x_run_path X path))%M.

(** Modelled from the spec: [execute_interpreter], which drops into an
    interactive session of the hosting runtime. *)
Definition execute_interpreter : M unit := emit ExecuteInterpreter.

(** Truthiness of an optional string. *)
Definition truthy_str (o : option string) : bool :=
  match o with Some s => Str.truthy s | None => false end.

(** Lines 359 to 373 of [bootstrap]: the preamble. *)
Definition bootstrap_preamble (env : Environment) (site_packages : Path) : M unit :=
  match env_preamble env with
  | Some preamble =>
      if Str.truthy preamble then
        let preamble_bin := site_packages // "bin" // preamble in
        if String.eqb (PathLib.suffix preamble_bin) ".py" then
          (run_path (PathLib.to_str preamble_bin) true ;;; mret tt)%M
        else
          (emit (SubprocessRun (PathLib.to_str preamble_bin)) ;;;
           _ <~ mlift (x_subprocess_run X (PathLib.to_str preamble_bin)) ;;
           mret tt)%M
      else mret tt
  | None => mret tt
  end.

(** Lines 375 to 386 of [bootstrap]: the choice of what to run. The
    argument of [run] is evaluated before [run] is entered, so the entry
    point is imported first and called after the scrub; the script is run
    from within [run]. *)
Definition bootstrap_dispatch (env : Environment) (site_packages : Path) : M unit :=
  let elif_script : M unit :=
    match env_script env with
    | Some script =>
        run names (run_path (PathLib.to_str (site_packages // "bin" // script)) false)
    | None => mret tt
    end in
  ((if negb (env_interpreter env) then
      match env_entry_point env with
      | Some entry_point =>
          if negb (truthy_str (env_script env)) then
            (callee <~ import_string X entry_point ;;
             run names (emit (Call callee) ;;; mlift (x_call X callee)))
          else elif_script
      | None => elif_script
      end
    else mret tt) ;;;
   execute_interpreter)%M.

(** The last part of [bootstrap], from line 359 on. *)
Definition bootstrap_run (env : Environment) (site_packages : Path) : M unit :=
  (bootstrap_preamble env site_packages ;;; bootstrap_dispatch env site_packages)%M.

End Bootstrap.

(** ** [bootstrap], from the search path on *)

Section BootstrapTail.

Variable names : RoutingNames.
Variable X : Externals.
Variable sha256_hexdigest : bytes -> string.
Variable pathsep : ascii.

(** [extend_python_path(os.environ, new_paths)], on the environment of
    the process. *)
Definition export_python_path (new_paths : list string) : M unit :=
  fun w =>
    match extend_python_path pathsep (w_environ w) new_paths with
    | Ok environ => (Ok tt, mkWorld environ (w_trace w))
    | Raise e => (Raise e, w)
    end.

(** Lines 332 to 386 of [bootstrap]. [sys.path] is assigned before
    anything can fail, and the new value comes first in the result; [tree]
    is what lies under [site_packages], [appended] what the registration
    of [site_packages] adds to [sys.path]. *)
Definition bootstrap_after_extract (env : Environment) (site_packages : Path)
    (appended : list string) (tree : Tree) (sys_path : list string) (w : World)
    : list string * (Result unit * World) :=
  let '(sys_path, new_paths) := bootstrap_sys_path appended sys_path in
  (sys_path,
   ((if env_no_modify env
     then mlift (ensure_no_modify sha256_hexdigest site_packages (env_hashes env) tree).1
     else mret tt) ;;;
    (if env_extend_pythonpath env then export_python_path new_paths else mret tt) ;;;
    bootstrap_run names X env site_packages)%M w).

End BootstrapTail.

(** * Part III: what the specification speaks of *)

(** ** Cache paths *)

(** The string a configured root stands for: itself, or what the
    environment holds under the name after the dollar sign. *)
Definition deref_root (H : Host) (root_dir : string) : string :=
  if Str.startswith "$" root_dir
  then environ_get (os_environ H) (Str.tail root_dir) (Str.tail root_dir)
  else root_dir.

(** The root [cache_path] derives from a configured [root_dir]. *)
Definition configured_root (H : Host) (root_dir : string) : Result Path :=
  expanduser H (PathLib.parse (deref_root H root_dir)).

(** The root as the specification words it: taken verbatim, but for the
    indirection through the environment. *)
Definition verbatim_root (H : Host) (root_dir : string) : Path :=
  PathLib.parse (deref_root H root_dir).

(** The last segment of every cache path. *)
Definition cache_segment (archive_path : Path) (build_id : string) : string :=
  PathLib.name archive_path +:+ "_" +:+ build_id.

(** [q] is [p] or one of its ancestors. *)
Definition ancestor_or_self (q p : Path) : Prop :=
  p_root q = p_root p /\ p_parts q `prefix_of` p_parts p.

(** The nearest existing ancestor of [p], as the specification words it:
    the longest of [p] and its ancestors that exists, the top of the path
    when none does. *)
Definition nearest_extant (H : Host) (p q : Path) : Prop :=
  ancestor_or_self q p
  /\ (path_exists H q = true \/ p_parts q = [])
  /\ forall q', ancestor_or_self q' p ->
       length (p_parts q) < length (p_parts q') -> path_exists H q' = false.

(** What [platform_cache] answers when it does not adopt the system root. *)
Definition user_fallback (H : Host) (archive_path : Path) : Result (option Path) :=
  (user_base <- user_root H ;;;
   match user_base with
   | Some u => Ok (Some (u // PathLib.name archive_path))
   | None => Ok None
   end)%result.

(** The candidate cache directory under a system-wide base, as
    [platform_cache] computes it through [cache_path]. *)
Definition system_cache (base archive_path : Path) (build_id : string) : Path :=
  PathLib.parse (PathLib.to_str (base // PathLib.name archive_path))
    // cache_segment archive_path build_id.

(** ** Search paths *)

(** The layout the specification asks for: the registered entries right
    before position [k], everything else where it was. *)
Definition spliced_at (k : nat) (appended sys_path : list string) : list string :=
  (take k sys_path ++ appended ++ drop k sys_path)%list.

(** The entries [PYTHONPATH] holds before the export. *)
Definition python_path_entries (pathsep : ascii) (environ : gmap string string)
    : list string :=
  match environ !! "PYTHONPATH" with
  | Some v => Str.split pathsep v
  | None => []
  end.

Section SortVocabulary.

Context {A : Type} `{EqDecision A}.
Implicit Types (l : list A) (x y : A).

(** Keyed pairs are compared on their keys. *)
Definition key_le (a b : nat * A) : Prop := a.1 <= b.1.

(** The order in which elements first occur in [l]. *)
Definition first_le l x y : Prop :=
  exists i j, list_index l x = Ok i /\ list_index l y = Ok j /\ i <= j.

(** The key the decorated lists carry: a position, 0 for a stranger. *)
Definition index_or_0 l x : nat :=
  match list_index l x with Ok i => i | Raise _ => 0 end.

End SortVocabulary.

(** ** Integrity *)

Section VerifierVocabulary.

Variable sha256_hexdigest : bytes -> string.
Variable hashes : gmap string string.

(** A source file of the tree whose content does not hash to what is
    recorded for it, a missing record included. *)
Definition violation (e : list string * FNode) : Prop :=
  match e.2 with
  | RegularFile content => hashes !! rel_str e.1 <> Some (sha256_hexdigest content)
  | Directory => False
  end.

End VerifierVocabulary.

(** Every path that [*.py] matches is a file. *)
Definition sources_are_files (tree : Tree) : Prop :=
  forall e, e ∈ rglob_py tree -> exists content, e.2 = RegularFile content.

(** The tamper error, whatever its message. *)
Definition is_tamper_error (r : Result unit) : Prop :=
  exists msg, r = Raise (RuntimeError msg).

(** ** Dispatch *)

Section DispatchVocabulary.

Variable names : RoutingNames.

(** The events an import leaves in the trace. *)
Definition is_import_event (e : Event) : Prop :=
  match e with
  | ImportModule _ | DunderImport _ _ => True
  | _ => False
  end.

(** The environment after [run] has scrubbed it. *)
Definition scrubbed (environ : gmap string string) : gmap string string :=
  delete (name_CONSOLE_SCRIPT names)
    (delete (name_ENTRY_POINT names) (delete (name_MODULE names) environ)).

(** What [sys.exit(module())] raises. *)
Definition exit_with (r : Result PyVal) : Exn :=
  match r with
  | Ok v => SystemExit v
  | Raise e => e
  end.

(** A computation that leaves the environment alone and adds nothing but
    import events to the trace. *)
Definition only_imports {A} (m : M A) : Prop :=
  forall w, exists imports,
    Forall is_import_event imports
    /\ (m w).2 = mkWorld (w_environ w) (w_trace w ++ imports).

End DispatchVocabulary.

(** What the specification's sentences on dispatch speak of. *)
Definition invokes_entry_point (trace : list Event) : Prop :=
  exists callee, Call callee ∈ trace.
Definition executes_script (trace : list Event) : Prop :=
  exists path, RunPath path false ∈ trace.

(** ** Extraction *)

(** The lock of a target, as line 247 names it. *)
Definition lock_of (target_path : Path) : Path :=
  PathLib.parent target_path // ("." +:+ PathLib.name target_path +:+ "_lock").

(** The temporary directory of a target, as line 246 names it. *)
Definition tmp_of (target_path : Path) : Path :=
  PathLib.parent target_path // (PathLib.name target_path +:+ ".tmp").

(** ** Hosts, trees and archives to evaluate on *)

Module Examples.

(** A Linux host on which only [/var/cache] and its ancestors exist. *)
Definition linux_host : Host :=
  mkHost "linux" ∅
    (fun p => bool_decide (p ∈ [PathLib.parse "/var/cache"; PathLib.parse "/var";
                                 PathLib.parse "/"]))
    (fun p => bool_decide (p = PathLib.parse "/var/cache"))
    (fun u => if String.eqb u "" then Some "/home/u" else None).

Definition app_pyz : Path := PathLib.parse "/usr/bin/app.pyz".

End Examples.

Module VerifierExamples.

(** A stand-in digest: the content itself, read as text. *)
Definition digest (content : bytes) : string := string_of_list_byte content.

Definition root : Path := PathLib.parse "/cache/app.pyz_abc/site-packages".

Definition tree : Tree :=
  [ (["pkg"], Directory);
    (["pkg"; "a.py"], RegularFile (list_byte_of_string "x = 1"));
    (["pkg"; "data.txt"], RegularFile (list_byte_of_string "1,2,3"));
    (["pkg"; "b.py"], RegularFile (list_byte_of_string "y = 2"));
    (["pkg"; "c.py"], RegularFile (list_byte_of_string "z = 3")) ].

(** [b.py] was changed after the build, [c.py] was never recorded. *)
Definition hashes : gmap string string :=
  {[ "pkg/a.py" := "x = 1"; "pkg/b.py" := "y = 0" ]}.

End VerifierExamples.

Module DispatchExamples.

Definition names : RoutingNames :=
  mkRoutingNames "SHIV_MODULE" "SHIV_ENTRY_POINT" "SHIV_CONSOLE_SCRIPT".

(** A host on which [pkg.cli] imports, every attribute exists, every call
    returns 0, scripts run to their end and a subprocess exits with the
    given code. *)
Definition externals (returncode : Z) : Externals :=
  mkExternals
    (fun _ => Ok (PyObject "globals"))
    (fun _ => Ok returncode)
    (fun name => if String.eqb name "pkg.cli" then Ok tt else Raise (ImportError name))
    (fun name _ => if String.eqb name "pkg.cli" then Ok tt else Raise (ImportError name))
    (fun owner name => Some (Attr owner name))
    (fun _ => Ok (PyInt 0)).

(** The same host, but every script raises and no program can be
    launched. *)
Definition broken_preamble : Externals :=
  mkExternals
    (fun _ => Raise (OtherException "KeyError" "HOME"))
    (fun _ => Raise (FileNotFoundError "setup.sh"))
    (x_import_module (externals 0))
    (x_dunder_import (externals 0))
    (x_getattr (externals 0))
    (x_call (externals 0)).

Definition env (preamble entry_point script : option string) : Environment :=
  mkEnvironment None false "abc" false false 0 false ∅ false
    preamble false entry_point script.

Definition site_packages : Path := PathLib.parse "/cache/app.pyz_abc/site-packages".

Definition start : World := mkWorld {[ "SHIV_ENTRY_POINT" := "pkg.cli:main" ]} [].

End DispatchExamples.

Module ExtractExamples.

Definition archive : list ZipInfo :=
  [mkZipInfo "environment.json" 0;
   mkZipInfo "site-packages/pkg/a.py" (Z.shiftl 33188 16);
   mkZipInfo "_bootstrap/__init__.py" 0].

Definition target_path : Path := PathLib.parse "/home/u/.shiv/app.pyz_abc".

(** A compilation in which some file does not compile and nothing is
    written. *)
Definition failing_compile (_ : FS) (_ : Path) (_ : Z) : bool * list (list string) :=
  (false, []).

End ExtractExamples.

(** ** More of the module's vocabulary *)

(** Whether [except ImportError] catches an exception. *)
Definition is_import_error (e : Exn) : bool :=
  match e with ImportError _ => true | _ => false end.

(** Whether a string holds nothing but white space. *)
Fixpoint blank (s : string) : bool :=
  match s with
  | EmptyString => true
  | String c s' => Str.is_space c && blank s'
  end.

(** The final fallback of [cache_path]: the dot directory under the home. *)
Definition home_fallback (H : Host) (archive_path : Path) (build_id : string)
    : Result Path :=
  (h <- path_home H ;;; Ok (h // ".shiv" // cache_segment archive_path build_id))%result.

(** The platforms for which the module knows a user cache root. *)
Definition knows_user_root (H : Host) : bool :=
  String.eqb (sys_platform H) "win32" || String.eqb (sys_platform H) "linux"
  || String.eqb (sys_platform H) "darwin".

(** The members of the archive the extraction loop takes. *)
Definition namespace_members (archive : list ZipInfo) : list ZipInfo :=
  List.filter (fun fileinfo => Str.startswith "site-packages" (filename fileinfo)) archive.

(** Where a member lies once extracted to [dest]. *)
Definition extracted_to (dest : Path) (fileinfo : ZipInfo) : Path :=
  mkPath (p_root dest) (p_parts dest ++ member_parts (filename fileinfo)).

(** The two operations of one turn of the extraction loop. *)
Definition extraction_ops (dest : Path) (fileinfo : ZipInfo) : list Op :=
  [Extract (filename fileinfo) dest;
   Chmod (extracted_to dest fileinfo) (Z.shiftr (external_attr fileinfo) 16)].

(** What [write_bytes] does to one path of the walk. *)
Definition written (rel : list string) (content : bytes) (e : list string * FNode)
    : list string * FNode :=
  match e.2 with
  | RegularFile _ => if decide (e.1 = rel) then (e.1, RegularFile content) else e
  | Directory => e
  end.

(** The one error of [expanduser]: the home directory of some user is
    not known to the host. *)
Definition home_unknown (H : Host) (e : Exn) : Prop :=
  e = RuntimeError "Could not determine home directory."
  /\ exists user, gethomedir H user = None.

(** * Part IV: facts *)

(** ** Facts about strings and paths *)

Section StrFacts.

Lemma split_not_nil sep s : Str.split sep s <> [].
Proof.
  destruct s as [|c s]; simpl; [discriminate|].
  destruct (Ascii.eqb c sep); [discriminate|].
  destruct (Str.split sep s); discriminate.
Qed.

(** A string without the separator is stable under concatenation. *)
Lemma split_single_app sep a b :
  Str.split sep a = [a] -> Str.split sep b = [b] ->
  Str.split sep (a +:+ b) = [a +:+ b].
Proof.
  induction a as [|c a IH]; intros Ha Hb; simpl in *; [exact Hb|].
  destruct (Ascii.eqb c sep) eqn:Hc.
  - inversion Ha.
  - destruct (Str.split sep a) as [|h t] eqn:Hs.
    + exfalso. eapply split_not_nil; eauto.
    + assert (h = a /\ t = []) as [-> ->] by (split; congruence).
      rewrite IH; auto.
Qed.

Lemma splitroot_cases s :
  PathLib.splitroot s = "" \/ PathLib.splitroot s = "/" \/ PathLib.splitroot s = "//".
Proof.
  destruct s as [|c s]; [auto|].
  destruct (ascii_dec c "/") as [->|Hn].
  - destruct s as [|c' s]; [auto|].
    destruct (ascii_dec c' "/") as [->|Hn']; cycle 1.
    { right; left. simpl. revert Hn'.
      destruct c' as [[] [] [] [] [] [] [] []]; simpl; congruence. }
    destruct s as [|c'' s]; [auto|].
    destruct (ascii_dec c'' "/") as [->|Hn'']; [auto|].
    right; right. revert Hn''.
    destruct c'' as [[] [] [] [] [] [] [] []]; simpl; congruence.
  - left. revert Hn.
    destruct c as [[] [] [] [] [] [] [] []]; simpl; congruence.
Qed.

Lemma splitroot_slash s : PathLib.splitroot (String "/" s) <> "".
Proof.
  destruct s as [|c s]; simpl; [discriminate|].
  destruct c as [[] [] [] [] [] [] [] []]; simpl; try discriminate.
  destruct s as [|c s]; simpl; [discriminate|].
  destruct c as [[] [] [] [] [] [] [] []]; simpl; discriminate.
Qed.

(** A string that does not start with a slash has no root. *)
Lemma splitroot_relative c s : c <> "/"%char -> PathLib.splitroot (String c s) = "".
Proof.
  destruct c as [[] [] [] [] [] [] [] []]; simpl; congruence.
Qed.

Lemma to_str_rooted p :
  p_root p <> "" -> exists c s, p_root p = String c s /\
    PathLib.to_str p = String c (s +:+ Str.join "/" (p_parts p)).
Proof.
  unfold PathLib.to_str. destruct (p_root p) as [|c s]; [congruence|].
  intros _. exists c, s. split; reflexivity.
Qed.

Lemma joinpath_rooted p s : p_root p <> "" -> p_root (p // s) <> "".
Proof.
  unfold PathLib.joinpath, Str.truthy. intros Hp.
  destruct (String.eqb_spec (p_root (PathLib.parse s)) ""); simpl; auto.
Qed.

Lemma expanduser_rooted H p : p_root p <> "" -> expanduser H p = Ok p.
Proof.
  unfold expanduser. destruct (p_root p); [congruence|reflexivity].
Qed.

(** A single well-formed component joins as one more component. *)
Lemma joinpath_single p x :
  PathLib.wf_part x = true -> p // x = mkPath (p_root p) (p_parts p ++ [x]).
Proof.
  unfold PathLib.wf_part. intros [Hk Hs%bool_decide_eq_true]%andb_prop.
  unfold PathLib.joinpath, PathLib.parse. simpl. rewrite Hs. simpl. rewrite Hk.
  assert (PathLib.splitroot x = "") as ->; [|reflexivity].
  destruct x as [|c x]; [reflexivity|].
  apply splitroot_relative. intros ->. simpl in Hs. discriminate.
Qed.

Lemma name_snoc r ps x : PathLib.name (mkPath r (ps ++ [x])) = x.
Proof. unfold PathLib.name. simpl. apply last_last. Qed.

End StrFacts.

(** ** The cache path resolver with a configured root *)

Lemma wf_name_no_sep p : PathLib.wf p = true ->
  Str.split "/" (PathLib.name p) = [PathLib.name p].
Proof.
  unfold PathLib.wf, PathLib.name. intros [_ Hall]%andb_prop.
  induction (p_parts p) as [|x l IH]; [reflexivity|].
  simpl in Hall. apply andb_prop in Hall as [Hx Hl].
  destruct l as [|y l]; [|apply IH; exact Hl].
  simpl. unfold PathLib.wf_part in Hx.
  apply andb_prop in Hx as [_ Hx]. apply bool_decide_eq_true in Hx. exact Hx.
Qed.

Lemma cache_segment_wf p build_id :
  PathLib.wf p = true -> Str.split "/" build_id = [build_id] ->
  PathLib.wf_part (cache_segment p build_id) = true.
Proof.
  intros Hp Hb. unfold PathLib.wf_part, cache_segment.
  apply andb_true_intro; split.
  - unfold PathLib.keep_part.
    destruct (PathLib.name p) as [|c [|c' n]]; simpl; [reflexivity| |].
    + destruct (Ascii.eqb c "."); reflexivity.
    + destruct (Ascii.eqb c "."); reflexivity.
  - apply bool_decide_eq_true. apply split_single_app.
    + apply wf_name_no_sep; exact Hp.
    + change (Str.split "/" ("_" +:+ build_id))
        with (match Str.split "/" build_id with
              | h :: t => String "_" h :: t
              | [] => ["_"]
              end).
      rewrite Hb. reflexivity.
Qed.

(** With a configured root one call suffices: [platform_cache] is not
    entered. *)
Lemma cache_path_depth_configured depth H archive_path c s platform_compat build_id :
  cache_path_depth (S depth) H archive_path (Some (String c s)) platform_compat build_id =
  Some (root <- configured_root H (String c s) ;;;
        Ok (root // cache_segment archive_path build_id))%result.
Proof.
  simpl. unfold configured_root, deref_root, cache_segment.
  destruct (expanduser H _); reflexivity.
Qed.

(** C6, as amended: with a non-empty configured root the resolver never
    enters the platform fallback (one call deep, the answer is already
    there, and it is the same on every host with the same environment and
    home directories, whatever its platform, its files and the fallback
    flag). The root is the configured string, or the value of the
    environment variable it names after a dollar sign (the rest of the
    string when that variable is unset), parsed as a path, with a leading
    tilde component expanded to the home directory. The answer is that root
    joined with [<archive name>_<build id>], which is its last component
    whenever the build id holds no slash. *)
Theorem cache_path_configured_root H archive_path root_dir platform_compat build_id :
  root_dir <> "" ->
  cache_path H archive_path (Some root_dir) platform_compat build_id
    = (root <- configured_root H root_dir ;;;
       Ok (root // cache_segment archive_path build_id))%result
  /\ cache_path_depth 1 H archive_path (Some root_dir) platform_compat build_id
    = Some (cache_path H archive_path (Some root_dir) platform_compat build_id)
  /\ (forall H' platform_compat',
        os_environ H' = os_environ H -> gethomedir H' = gethomedir H ->
        cache_path H' archive_path (Some root_dir) platform_compat' build_id
        = cache_path H archive_path (Some root_dir) platform_compat build_id)
  /\ (forall p,
        PathLib.wf archive_path = true -> Str.split "/" build_id = [build_id] ->
        cache_path H archive_path (Some root_dir) platform_compat build_id = Ok p ->
        PathLib.name p = cache_segment archive_path build_id).
Proof.
  intros Hne. destruct root_dir as [|c s]; [congruence|].
  assert (Heq : forall H0 pc,
    cache_path H0 archive_path (Some (String c s)) pc build_id
    = (root <- configured_root H0 (String c s) ;;;
       Ok (root // cache_segment archive_path build_id))%result).
  { intros H0 pc. unfold cache_path, call_depth.
    rewrite cache_path_depth_configured. reflexivity. }
  split; [|split; [|split]].
  - apply Heq.
  - rewrite cache_path_depth_configured, Heq. reflexivity.
  - intros H' pc' Henv Hhome. rewrite !Heq.
    unfold configured_root, deref_root, expanduser. rewrite Henv, Hhome. reflexivity.
  - intros p Hwf Hb. rewrite Heq.
    destruct (configured_root H (String c s)) as [r|e]; simpl; [|discriminate].
    intros [= <-]. rewrite joinpath_single by (apply cache_segment_wf; assumption).
    apply name_snoc.
Qed.

Lemma cache_path_configured_root_witness :
  cache_path Examples.linux_host Examples.app_pyz (Some "~/c") true "abc"
  = Ok (PathLib.parse "/home/u/c/app.pyz_abc")
  /\ PathLib.name (PathLib.parse "/home/u/c/app.pyz_abc")
     = cache_segment Examples.app_pyz "abc".
Proof.
  destruct (cache_path_configured_root Examples.linux_host Examples.app_pyz
              "~/c" true "abc") as (Heq & _ & _ & Hname); [discriminate|].
  assert (Hrun : cache_path Examples.linux_host Examples.app_pyz (Some "~/c") true "abc"
                 = Ok (PathLib.parse "/home/u/c/app.pyz_abc")).
  { rewrite Heq. vm_compute. reflexivity. }
  split; [exact Hrun|].
  apply Hname; [vm_compute; reflexivity|reflexivity|exact Hrun].
Defined.

(** C6 as stated fails twice: a root starting with a tilde is not taken
    verbatim, and a build id with a slash does not end up in the last
    component. *)
Lemma cache_path_not_verbatim :
  cache_path Examples.linux_host Examples.app_pyz (Some "~/c") true "abc"
    <> Ok (verbatim_root Examples.linux_host "~/c" // cache_segment Examples.app_pyz "abc")
  /\ (exists p,
        cache_path Examples.linux_host Examples.app_pyz (Some "/opt/c") true "a/b" = Ok p
        /\ PathLib.name p <> cache_segment Examples.app_pyz "a/b").
Proof.
  split.
  - vm_compute. discriminate.
  - eexists. split; [vm_compute; reflexivity|]. vm_compute. discriminate.
Qed.

(** ** The platform cache resolver *)

Section WalkUp.

Context (H : Host).

Lemma removelast_length {A} (l : list A) :
  length (removelast l) = length l - 1.
Proof.
  induction l as [|x [|y l] IH]; simpl in *; auto. rewrite IH. lia.
Qed.

Lemma prefix_removelast {A} (l' l : list A) :
  l' `prefix_of` l -> l' = l \/ l' `prefix_of` removelast l.
Proof.
  intros [k ->]. destruct k as [|x k] using rev_ind.
  - left. by rewrite app_nil_r.
  - right. rewrite app_assoc, removelast_last. by exists k.
Qed.

Lemma parent_fixed p : PathLib.parent p = p -> p_parts p = [].
Proof.
  destruct p as [r ps]. unfold PathLib.parent. simpl. intros [= Heq].
  destruct ps as [|x ps]; [reflexivity|].
  pose proof (removelast_length (x :: ps)) as Hl. rewrite Heq in Hl.
  simpl in Hl. lia.
Qed.

Lemma ancestor_parent q p : ancestor_or_self q (PathLib.parent p) -> ancestor_or_self q p.
Proof.
  intros [Hr Hp]. split; [exact Hr|]. simpl in Hp.
  etrans; [exact Hp|].
  destruct (p_parts p) as [|x l] using rev_ind; [reflexivity|].
  rewrite removelast_last. by exists [x].
Qed.

(** The loop ends, on the nearest existing ancestor. *)
Lemma is_dir_writeable_loop_spec fuel p :
  length (p_parts p) < fuel ->
  exists q, is_dir_writeable_loop H fuel p = Some q /\ nearest_extant H p q.
Proof.
  revert p. induction fuel as [|fuel IH]; intros p Hlen; [lia|].
  simpl. destruct (path_exists H p) eqn:Hex; simpl.
  - exists p. split; [reflexivity|]. split; [split; reflexivity|].
    split; [by left|]. intros q' [_ Hq'] Hlt.
    apply prefix_length in Hq'. lia.
  - destruct (bool_decide (PathLib.parent p = p)) eqn:Hpar.
    + apply bool_decide_eq_true in Hpar. apply parent_fixed in Hpar.
      exists p. split; [reflexivity|]. split; [split; reflexivity|].
      split; [by right|]. intros q' [_ Hq'] Hlt.
      apply prefix_length in Hq'. lia.
    + destruct (IH (PathLib.parent p)) as (q & Hq & Hanc & Hext & Hmax).
      { simpl. rewrite removelast_length.
        apply bool_decide_eq_false in Hpar.
        destruct p as [r [|x ps]]; [by destruct Hpar|]. simpl in *. lia. }
      exists q. split; [exact Hq|]. split; [by apply ancestor_parent|].
      split; [exact Hext|]. intros q' [Hr' Hp'] Hlt.
      apply prefix_removelast in Hp' as [Heq|Hp'].
      * assert (q' = p) as ->; [|exact Hex].
        destruct q', p; simpl in *; congruence.
      * apply Hmax; [|exact Hlt]. split; [exact Hr'|exact Hp'].
Qed.

Lemma extant_portion_spec p :
  exists q, extant_portion H p = Some q /\ nearest_extant H p q.
Proof. apply is_dir_writeable_loop_spec. lia. Qed.

(** The nearest existing ancestor is unique. *)
Lemma nearest_extant_unique p q1 q2 :
  nearest_extant H p q1 -> nearest_extant H p q2 -> q1 = q2.
Proof.
  intros ([Hr1 Hp1] & He1 & Hm1) ([Hr2 Hp2] & He2 & Hm2).
  assert (Hlen : length (p_parts q1) = length (p_parts q2)).
  { destruct (Nat.lt_trichotomy (length (p_parts q1)) (length (p_parts q2)))
      as [Hlt|[Heq|Hlt]]; [|exact Heq|].
    - pose proof (Hm1 q2 (conj Hr2 Hp2) Hlt) as Hf.
      destruct He2 as [He2|He2]; [congruence|]. rewrite He2 in Hlt. simpl in Hlt. lia.
    - pose proof (Hm2 q1 (conj Hr1 Hp1) Hlt) as Hf.
      destruct He1 as [He1|He1]; [congruence|]. rewrite He1 in Hlt. simpl in Hlt. lia. }
  destruct q1 as [r1 l1], q2 as [r2 l2]; simpl in *. f_equal; [congruence|].
  destruct Hp1 as [k1 Hk1], Hp2 as [k2 Hk2].
  assert (Htake : take (length l1) (p_parts p) = l1)
    by (rewrite Hk1; apply take_app_length).
  rewrite <- Htake, Hlen, Hk2. apply take_app_length.
Qed.

End WalkUp.

Lemma system_root_rooted H base : system_root H = Some base -> p_root base = "/".
Proof.
  unfold system_root.
  destruct (String.eqb (sys_platform H) "linux"); [by intros [= <-]|].
  destruct (String.eqb (sys_platform H) "darwin"); [by intros [= <-]|discriminate].
Qed.

Lemma is_system_path_system_root H p :
  is_system_path H p = Some true -> exists base, system_root H = Some base.
Proof.
  unfold is_system_path, system_root.
  destruct (String.eqb (sys_platform H) "linux"); [eauto|].
  destruct (String.eqb (sys_platform H) "darwin"); [eauto|discriminate].
Qed.

Lemma joinpath_root_slash p s :
  p_root p = "/" -> exists r, p_root (p // s) = String "/" r.
Proof.
  intros Hp. unfold PathLib.joinpath, Str.truthy.
  destruct (String.eqb_spec (p_root (PathLib.parse s)) "") as [He|Hne]; simpl.
  - rewrite Hp. eauto.
  - destruct (splitroot_cases s) as [Hs|[Hs|Hs]]; simpl in Hne; rewrite Hs in *;
      [congruence|eauto|eauto].
Qed.

(** The nested call of [platform_cache] returns the candidate. *)
Lemma cache_path_depth_system depth H base archive_path build_id :
  p_root base = "/" ->
  cache_path_depth (S depth) H archive_path
    (Some (PathLib.to_str (base // PathLib.name archive_path))) false build_id
  = Some (Ok (system_cache base archive_path build_id)).
Proof.
  intros Hb. unfold system_cache.
  destruct (joinpath_root_slash base (PathLib.name archive_path) Hb) as [r Hr].
  destruct (to_str_rooted (base // PathLib.name archive_path)) as (c & s & Hcs & Hstr).
  { rewrite Hr. discriminate. }
  rewrite Hr in Hcs. injection Hcs as <- <-. rewrite Hstr.
  rewrite cache_path_depth_configured.
  unfold configured_root, deref_root. simpl Str.startswith. cbv iota.
  rewrite expanduser_rooted; [reflexivity|].
  simpl p_root. apply splitroot_slash.
Qed.

Lemma platform_cache_depth_unfold depth H archive_path build_id :
  platform_cache_depth (S depth) H archive_path build_id =
  if truthy_opt (is_system_path H archive_path) then
    match system_root H with
    | Some system_base =>
        let root := system_base // PathLib.name archive_path in
        match cache_path_depth depth H archive_path
                (Some (PathLib.to_str root)) false build_id with
        | None => None
        | Some (Raise e) => Some (Raise e)
        | Some (Ok cache) =>
            if path_exists H (cache // "site-packages") then Some (Ok (Some root))
            else match is_dir_writeable H cache with
                 | None => None
                 | Some true => Some (Ok (Some root))
                 | Some false => Some (user_fallback H archive_path)
                 end
        end
    | None => Some (user_fallback H archive_path)
    end
  else Some (user_fallback H archive_path).
Proof. reflexivity. Qed.

(** Two nested calls are enough for [platform_cache], three for
    [cache_path]: the depth of [call_depth] never runs out. *)
Lemma platform_cache_depth_enough depth H archive_path build_id :
  exists r, platform_cache_depth (S (S depth)) H archive_path build_id = Some r.
Proof.
  rewrite platform_cache_depth_unfold.
  destruct (truthy_opt (is_system_path H archive_path)); [|eauto].
  destruct (system_root H) as [base|] eqn:Hbase; [|eauto].
  cbv zeta. rewrite cache_path_depth_system by (eapply system_root_rooted; eauto).
  destruct (path_exists H _); [eauto|].
  destruct (extant_portion_spec H (system_cache base archive_path build_id))
    as (q & Hq & _).
  unfold is_dir_writeable. rewrite Hq. simpl.
  destruct (os_access_w H q); eauto.
Qed.

Lemma cache_path_depth_enough depth H archive_path root_dir platform_compat build_id :
  exists r,
    cache_path_depth (S (S (S depth))) H archive_path root_dir platform_compat build_id
    = Some r.
Proof.
  destruct root_dir as [[|c s]|]; try (simpl; eauto; fail).
  - destruct platform_compat; [|simpl; eauto].
    destruct (platform_cache_depth_enough depth H archive_path build_id) as [r Hr].
    cbn [cache_path_depth]. rewrite Hr. simpl. eauto.
  - destruct platform_compat; [|simpl; eauto].
    destruct (platform_cache_depth_enough depth H archive_path build_id) as [r Hr].
    cbn [cache_path_depth]. rewrite Hr. simpl. eauto.
Qed.



(** ** The export of the search path *)

Section PyListFacts.

Context {A : Type} `{EqDecision A}.
Implicit Types (l : list A) (x y : A).

Lemma list_index_elem l x :
  x ∈ l -> exists i, list_index l x = Ok i /\ l !! i = Some x.
Proof.
  induction l as [|y l IH]; intros Hx; [by apply not_elem_of_nil in Hx|].
  simpl. destruct (decide (y = x)) as [->|Hne]; [by exists 0|].
  apply elem_of_cons in Hx as [->|Hx]; [done|].
  destruct (IH Hx) as (i & -> & Hi). by exists (S i).
Qed.

Lemma list_index_lookup l x i : list_index l x = Ok i -> l !! i = Some x.
Proof.
  revert i. induction l as [|y l IH]; intros i; simpl; [discriminate|].
  destruct (decide (y = x)) as [->|Hne]; [by intros [= <-]|].
  destruct (list_index l x) as [j|e]; simpl; [|discriminate].
  intros [= <-]. by apply IH.
Qed.

Lemma decorate_ok (key : A -> Result nat) (f : A -> nat) l :
  (forall x, x ∈ l -> key x = Ok (f x)) ->
  decorate key l = Ok ((fun x => (f x, x)) <$> l).
Proof.
  induction l as [|x l IH]; intros Hk; [reflexivity|].
  simpl. rewrite (Hk x) by left. simpl.
  rewrite IH; [reflexivity|]. intros y Hy. apply Hk. by right.
Qed.

Lemma insert_keyed_perm kx (ks : list (nat * A)) : insert_keyed kx ks ≡ₚ kx :: ks.
Proof.
  induction ks as [|ky ks IH]; simpl; [done|].
  destruct (Nat.leb kx.1 ky.1); [done|]. rewrite IH. apply Permutation_swap.
Qed.

Lemma sort_keyed_perm (ks : list (nat * A)) : sort_keyed ks ≡ₚ ks.
Proof.
  induction ks as [|kx ks IH]; simpl; [done|].
  rewrite insert_keyed_perm. by rewrite IH.
Qed.

Lemma insert_keyed_sorted kx (ks : list (nat * A)) :
  StronglySorted key_le ks -> StronglySorted key_le (insert_keyed kx ks).
Proof.
  induction 1 as [|ky ks Hs IH Hall]; simpl.
  - repeat constructor.
  - destruct (Nat.leb_spec kx.1 ky.1) as [Hle|Hlt].
    + constructor; [by constructor|]. constructor; [exact Hle|].
      eapply Forall_impl; [exact Hall|]. unfold key_le. intros; simpl in *; lia.
    + constructor; [exact IH|]. rewrite insert_keyed_perm.
      constructor; [unfold key_le; lia|exact Hall].
Qed.

Lemma sort_keyed_sorted (ks : list (nat * A)) : StronglySorted key_le (sort_keyed ks).
Proof.
  induction ks as [|kx ks IH]; simpl; [constructor|]. by apply insert_keyed_sorted.
Qed.

Lemma StronglySorted_filter (R : relation A) (P : A -> Prop)
    `{forall x, Decision (P x)} l :
  StronglySorted R l -> StronglySorted R (filter P l).
Proof.
  induction 1 as [|x l Hs IH Hall]; [constructor|].
  rewrite filter_cons. destruct (decide (P x)); [|exact IH].
  constructor; [exact IH|]. rewrite Forall_forall in Hall |- *.
  intros y [_ Hy]%list_elem_of_filter. by apply Hall.
Qed.

Lemma StronglySorted_impl_elem (R R' : relation A) l :
  (forall x y, x ∈ l -> y ∈ l -> R x y -> R' x y) ->
  StronglySorted R l -> StronglySorted R' l.
Proof.
  intros Himp Hs. induction Hs as [|x l Hs IH Hall]; [constructor|].
  constructor.
  - apply IH. intros y z Hy Hz. apply Himp; by right.
  - rewrite Forall_forall in Hall |- *. intros y Hy.
    apply Himp; [by left|by right|by apply Hall].
Qed.

Lemma elem_of_dedup_first l x : x ∈ dedup_first l <-> x ∈ l.
Proof.
  induction l as [|y l IH]; simpl; [done|].
  rewrite !elem_of_cons, list_elem_of_filter, IH.
  destruct (decide (x = y)); tauto.
Qed.

Lemma NoDup_dedup_first l : NoDup (dedup_first l).
Proof.
  induction l as [|y l IH]; simpl; constructor.
  - rewrite list_elem_of_filter. tauto.
  - by apply NoDup_filter.
Qed.

(** The de-duplicated list is in the order of first occurrence. *)
Lemma dedup_first_sorted l : StronglySorted (first_le l) (dedup_first l).
Proof.
  induction l as [|x l IH]; simpl; [constructor|].
  constructor.
  - pose proof (StronglySorted_filter _ (fun y => y <> x) _ IH) as IH'.
    revert IH'. apply StronglySorted_impl_elem.
    intros y z [Hy _]%list_elem_of_filter [Hz _]%list_elem_of_filter
      (i & j & Hi & Hj & Hij).
    exists (S i), (S j). simpl.
    rewrite !decide_False by done. rewrite Hi, Hj. simpl. repeat split; lia.
  - rewrite Forall_forall. intros y [Hy Hin]%list_elem_of_filter.
    rewrite elem_of_dedup_first in Hin.
    apply list_index_elem in Hin as (j & Hj & _).
    exists 0, (S j). simpl. rewrite decide_True by done.
    rewrite decide_False by done. rewrite Hj. simpl. repeat split; lia.
Qed.

(** Sorting any duplicate-free listing of the elements of [l] by first
    position yields [l] without its later duplicates. *)
Lemma py_sorted_by_index l (s : list A) :
  NoDup s -> (forall x, x ∈ s <-> x ∈ l) ->
  py_sorted (list_index l) s = Ok (dedup_first l).
Proof.
  intros Hnd Hel. unfold py_sorted.
  rewrite (decorate_ok _ (index_or_0 l)); cycle 1.
  { intros x Hx%Hel%list_index_elem. destruct Hx as (i & Hi & _).
    unfold index_or_0. by rewrite Hi. }
  simpl. f_equal.
  set (f := fun x => (index_or_0 l x, x)).
  assert (Hsort : sort_keyed (f <$> s) = f <$> dedup_first l).
  { apply (StronglySorted_unique_strong key_le).
    - intros [i x] [j y] Hx Hy Hle Hge. unfold key_le in *. simpl in *.
      rewrite sort_keyed_perm in Hx.
      apply list_elem_of_fmap in Hx as (x' & [= -> ->] & Hx').
      apply list_elem_of_fmap in Hy as (y' & [= -> ->] & Hy').
      apply Hel, list_index_elem in Hx' as (i & Hi & Hli).
      rewrite elem_of_dedup_first in Hy'.
      apply list_index_elem in Hy' as (j & Hj & Hlj).
      unfold index_or_0 in *. rewrite Hi, Hj in *.
      assert (i = j) as -> by lia. f_equal. congruence.
    - apply sort_keyed_sorted.
    - eapply StronglySorted_fmap; [|apply dedup_first_sorted].
      intros x y (i & j & Hi & Hj & Hij). unfold key_le, f, index_or_0. simpl.
      by rewrite Hi, Hj.
    - rewrite sort_keyed_perm. apply fmap_Permutation.
      apply NoDup_Permutation; [exact Hnd|apply NoDup_dedup_first|].
      intros x. by rewrite Hel, elem_of_dedup_first. }
  rewrite Hsort, <- list_fmap_compose. apply list_fmap_id.
Qed.

Lemma filter_all (P : A -> Prop) `{forall y, Decision (P y)} l :
  (forall y, y ∈ l -> P y) -> filter P l = l.
Proof.
  induction l as [|y l IH]; intros Hall; [reflexivity|].
  rewrite filter_cons_True by (apply Hall; left).
  f_equal. apply IH. intros z Hz. apply Hall. by right.
Qed.

(** De-duplication of a concatenation: the first list's entries first,
    then those of the second that the first lacks. *)
Lemma dedup_first_app l1 l2 :
  dedup_first (l1 ++ l2)
  = (dedup_first l1 ++ filter (fun y => y ∉ l1) (dedup_first l2))%list.
Proof.
  induction l1 as [|x l1 IH]; simpl.
  - symmetry. apply filter_all. intros y _. apply not_elem_of_nil.
  - f_equal. rewrite IH, filter_app. f_equal.
    rewrite list_filter_filter. apply list_filter_iff.
    intros y. rewrite not_elem_of_cons. naive_solver.
Qed.

End PyListFacts.

(** C9: the exported list has no duplicates, holds exactly the old and the
    new entries, and lists the old entries first, in their order, then the
    new entries that were not there, in their order; of equal entries the
    first one stays. *)
Theorem extend_python_path_exports pathsep (environ : gmap string string)
    (additional_paths : list string) :
  exists exported : list string,
    extend_python_path pathsep environ additional_paths
      = Ok (<["PYTHONPATH" := Str.join (String pathsep "") exported]> environ)
    /\ NoDup exported
    /\ (forall x, x ∈ exported <->
          x ∈ python_path_entries pathsep environ \/ x ∈ additional_paths)
    /\ exported
       = (dedup_first (python_path_entries pathsep environ)
          ++ filter (fun y => y ∉ python_path_entries pathsep environ)
               (dedup_first additional_paths))%list.
Proof.
  exists (dedup_first (python_path_entries pathsep environ ++ additional_paths)).
  split; [|split; [|split]].
  - unfold extend_python_path. fold (python_path_entries pathsep environ).
    rewrite py_sorted_by_index; [reflexivity| |].
    + unfold py_set. apply NoDup_elements.
    + intros x. unfold py_set. rewrite elem_of_elements. apply elem_of_list_to_set.
  - apply NoDup_dedup_first.
  - intros x. rewrite elem_of_dedup_first. apply elem_of_app.
  - apply dedup_first_app.
Qed.

(** An export onto an existing value, evaluated. *)
Example extend_python_path_example :
  extend_python_path ":" {[ "PYTHONPATH" := "/z:/a:/z" ]} ["/n"; "/a"; "/m"; "/n"]
  = Ok {[ "PYTHONPATH" := "/z:/a:/n:/m" ]}.
Proof. vm_compute. reflexivity. Qed.

(** ** The integrity verifier *)

Section VerifierFacts.

Variable sha256_hexdigest : bytes -> string.
Variable site_packages : Path.
Variable hashes : gmap string string.

Local Abbreviation violation := (violation sha256_hexdigest hashes).
Local Abbreviation loop := (ensure_no_modify_loop sha256_hexdigest site_packages hashes).
Local Abbreviation message := (modified_message site_packages).

Lemma loop_step_fst (p : Result unit * list (list string)) rel :
  (let '(r, reads) := p in (r, rel :: reads)).1 = p.1.
Proof. by destruct p. Qed.

Lemma loop_step_snd (p : Result unit * list (list string)) rel :
  (let '(r, reads) := p in (r, rel :: reads)).2 = rel :: p.2.
Proof. by destruct p. Qed.

Lemma hash_differs_violation rel content :
  hash_differs sha256_hexdigest hashes rel content = true
  <-> violation (rel, RegularFile content).
Proof.
  unfold hash_differs, violation. simpl.
  rewrite negb_true_iff, bool_decide_eq_false. reflexivity.
Qed.

(** The loop either passes every path, none of them a violation, or
    stops at the first violation with the message for it. *)
Lemma ensure_no_modify_loop_spec (paths : Tree) :
  (forall e, e ∈ paths -> exists content, e.2 = RegularFile content) ->
  (Forall (fun e => ~ violation e) paths /\ (loop paths).1 = Ok tt)
  \/ (exists pre e post,
        paths = (pre ++ e :: post)%list
        /\ Forall (fun e' => ~ violation e') pre
        /\ violation e
        /\ (loop paths).1 = Raise (RuntimeError (message e.1))).
Proof.
  induction paths as [|[rel node] rest IH]; intros Hfiles.
  - left. split; [constructor|reflexivity].
  - destruct (Hfiles (rel, node)) as [content Hnode]; [left|].
    simpl in Hnode. subst node. simpl. unfold read_bytes. simpl.
    destruct (hash_differs sha256_hexdigest hashes rel content) eqn:Hd.
    + right. exists [], (rel, RegularFile content), rest.
      split; [reflexivity|]. split; [constructor|].
      split; [by apply hash_differs_violation|reflexivity].
    + assert (Hnv : ~ violation (rel, RegularFile content)).
      { rewrite <- hash_differs_violation, Hd. discriminate. }
      destruct IH as [[Hall Hok]|(pre & e & post & -> & Hpre & Hv & Hr)].
      { intros e He. apply Hfiles. by right. }
      * left. rewrite loop_step_fst. split; [by constructor|exact Hok].
      * right. exists ((rel, RegularFile content) :: pre), e, post.
        rewrite loop_step_fst.
        split; [reflexivity|]. split; [by constructor|]. by split.
Qed.

(** Only matched paths are handed to [read_bytes]. *)
Lemma ensure_no_modify_loop_reads (paths : Tree) rel :
  rel ∈ (loop paths).2 -> exists node, (rel, node) ∈ paths.
Proof.
  induction paths as [|[rel' node] rest IH]; simpl.
  - intros Hin. by apply not_elem_of_nil in Hin.
  - unfold read_bytes. simpl. destruct node as [content|]; simpl.
    + destruct (hash_differs sha256_hexdigest hashes rel' content).
      * simpl. intros ->%list_elem_of_singleton. eexists. left.
      * rewrite loop_step_snd.
        intros [->|Hin]%elem_of_cons; [eexists; left|].
        destruct (IH Hin) as [node Hnode]. exists node. by right.
    + intros ->%list_elem_of_singleton. eexists. left.
Qed.

End VerifierFacts.


Lemma rglob_py_elem (tree : Tree) e :
  e ∈ rglob_py tree <-> e ∈ tree /\ fnmatch_py (rel_name e.1) = true.
Proof.
  unfold rglob_py. rewrite !list_elem_of_In. apply filter_In.
Qed.

(** Writing to a path that [*.py] does not match leaves the matched paths
    as they were. *)
Lemma rglob_py_write_bytes (tree : Tree) rel content :
  fnmatch_py (rel_name rel) = false ->
  rglob_py (write_bytes tree rel content) = rglob_py tree.
Proof.
  intros Hrel. unfold rglob_py, write_bytes.
  induction tree as [|[rel' node] tree IH]; [reflexivity|].
  rewrite fmap_cons. simpl List.filter. simpl fst at 2. rewrite <- IH.
  destruct node as [content'|]; simpl; [|reflexivity].
  destruct (decide (rel' = rel)) as [->|Hne]; simpl; [|reflexivity].
  rewrite Hrel. reflexivity.
Qed.

(** C10: the verifier hands [read_bytes] only paths whose name ends in
    [.py], and a change to the content of any other file changes neither
    its verdict nor what it reads. *)
Theorem ensure_no_modify_ignores_other_files sha256_hexdigest site_packages hashes
    (tree : Tree) :
  (forall rel,
     rel ∈ (ensure_no_modify sha256_hexdigest site_packages hashes tree).2 ->
     Str.endswith ".py" (rel_name rel) = true)
  /\ (forall rel content,
        Str.endswith ".py" (rel_name rel) = false ->
        ensure_no_modify sha256_hexdigest site_packages hashes
          (write_bytes tree rel content)
        = ensure_no_modify sha256_hexdigest site_packages hashes tree).
Proof.
  split.
  - intros rel Hin. unfold ensure_no_modify in Hin.
    apply ensure_no_modify_loop_reads in Hin as [node Hnode].
    apply rglob_py_elem in Hnode as [_ Hm]. exact Hm.
  - intros rel content Hrel. unfold ensure_no_modify.
    rewrite rglob_py_write_bytes by exact Hrel. reflexivity.
Qed.

Lemma tree_sources_are_files : sources_are_files VerifierExamples.tree.
Proof.
  intros e He. apply rglob_py_elem in He as [He Hm]. unfold VerifierExamples.tree in He.
  repeat (apply elem_of_cons in He as [->|He];
          [first [eexists; reflexivity | vm_compute in Hm; discriminate Hm]|]).
  by apply not_elem_of_nil in He.
Qed.


(** The error names [b.py], the first of the two violations. *)
Example ensure_no_modify_first_violation :
  (ensure_no_modify VerifierExamples.digest VerifierExamples.root
     VerifierExamples.hashes VerifierExamples.tree).1
  = Raise (RuntimeError
      ("A Python source file has been modified! File: "
       +:+ "/cache/app.pyz_abc/site-packages/pkg/b.py"
       +:+ ". Try again with SHIV_FORCE_EXTRACT=1 to overwrite the modified source file(s).")).
Proof. vm_compute. reflexivity. Qed.

(** A directory that [*.py] matches stops the verifier with another
    error, before any later file is looked at. *)
Example ensure_no_modify_directory :
  (ensure_no_modify VerifierExamples.digest VerifierExamples.root VerifierExamples.hashes
     ((["plugins.py"], Directory) :: VerifierExamples.tree)).1
  = Raise (IsADirectoryError "plugins.py").
Proof. vm_compute. reflexivity. Qed.

Lemma ensure_no_modify_ignores_other_files_witness :
  ensure_no_modify VerifierExamples.digest VerifierExamples.root VerifierExamples.hashes
    (write_bytes VerifierExamples.tree ["pkg"; "data.txt"] (list_byte_of_string "4,5,6"))
  = ensure_no_modify VerifierExamples.digest VerifierExamples.root VerifierExamples.hashes
      VerifierExamples.tree
  /\ Str.endswith ".py" (rel_name ["pkg"; "a.py"]) = true.
Proof.
  destruct (ensure_no_modify_ignores_other_files VerifierExamples.digest
              VerifierExamples.root VerifierExamples.hashes VerifierExamples.tree)
    as [Hreads Hwrite].
  split.
  - apply Hwrite. vm_compute. reflexivity.
  - apply Hreads. vm_compute. left.
Defined.

(** ** The search path extender *)

Section SearchPath.

Implicit Types (sys_path appended : list string).

Lemma get_first_sitedir_index_from_bounds index sys_path k :
  get_first_sitedir_index_from index sys_path = Some k ->
  index <= k < index + length sys_path.
Proof.
  revert index. induction sys_path as [|part rest IH]; intros index; simpl.
  - discriminate.
  - destruct (is_sitedir part).
    + intros [= <-]. lia.
    + intros Hk%IH. lia.
Qed.

(** The index found is that of the first entry with such a name. *)
Lemma get_first_sitedir_index_from_first index sys_path k :
  get_first_sitedir_index_from index sys_path = Some k ->
  exists part, sys_path !! (k - index) = Some part /\ is_sitedir part = true
    /\ forall j other, j < k - index -> sys_path !! j = Some other ->
         is_sitedir other = false.
Proof.
  revert index. induction sys_path as [|part rest IH]; intros index; simpl.
  - discriminate.
  - destruct (is_sitedir part) eqn:Hs.
    + intros [= <-]. rewrite Nat.sub_diag. exists part.
      split; [reflexivity|]. split; [exact Hs|]. intros j other Hj. lia.
    + intros Hk. pose proof (get_first_sitedir_index_from_bounds _ _ _ Hk) as Hb.
      destruct (IH _ Hk) as (p & Hp & Hps & Hfirst).
      replace (k - index) with (S (k - S index)) by lia.
      exists p. split; [exact Hp|]. split; [exact Hps|].
      intros [|j] other Hj; simpl.
      * by intros [= <-].
      * apply Hfirst. lia.
Qed.

(** The reordering of line 346 splices the registered entries in at
    [index], whenever [index] is within the old path. *)
Lemma reorder_spliced index appended sys_path :
  index <= length sys_path ->
  let after := addsitedir appended sys_path in
  (take index after ++ drop (length sys_path) after
     ++ slice index (length sys_path) after)%list
  = spliced_at index appended sys_path.
Proof.
  intros Hle. unfold addsitedir, slice, spliced_at. simpl.
  rewrite take_app_le by exact Hle.
  rewrite drop_app_length. f_equal. f_equal.
  rewrite drop_app_le by exact Hle.
  rewrite take_app_le by (rewrite length_drop; lia).
  apply take_ge. rewrite length_drop. lia.
Qed.

(** Away from position 0 the extension does what the specification asks. *)
Lemma bootstrap_sys_path_spliced appended sys_path k :
  get_first_sitedir_index sys_path = Some k -> k <> 0 ->
  (bootstrap_sys_path appended sys_path).1 = spliced_at k appended sys_path.
Proof.
  intros Hk Hne. unfold bootstrap_sys_path. simpl. rewrite Hk.
  destruct k as [|k]; [done|]. simpl int_or.
  apply (reorder_spliced (S k)).
  apply get_first_sitedir_index_from_bounds in Hk. lia.
Qed.

(** Without any such entry the registered entries stay at the end. *)
Lemma bootstrap_sys_path_appended appended sys_path :
  get_first_sitedir_index sys_path = None ->
  (bootstrap_sys_path appended sys_path).1 = (sys_path ++ appended)%list.
Proof.
  intros Hk. unfold bootstrap_sys_path. simpl. rewrite Hk. simpl int_or.
  rewrite (reorder_spliced (length sys_path)) by lia.
  unfold spliced_at. by rewrite firstn_all, drop_all, app_nil_r.
Qed.

End SearchPath.

(** C2, where the code departs from it: with the first dependency
    directory at position 0, [index] is 0, [0 or length] is [length], and
    the registered entry is left at the end of the path, behind the
    pre-existing [site-packages], not before position 0. *)
Theorem bootstrap_sys_path_sitedir_first :
  let sys_path := ["/usr/lib/python3/site-packages"; "/usr/lib/python3.11"] in
  let appended := ["/cache/app.pyz_abc/site-packages"] in
  get_first_sitedir_index sys_path = Some 0
  /\ (bootstrap_sys_path appended sys_path).1
     = ["/usr/lib/python3/site-packages"; "/usr/lib/python3.11";
        "/cache/app.pyz_abc/site-packages"]
  /\ (bootstrap_sys_path appended sys_path).1 <> spliced_at 0 appended sys_path.
Proof.
  split; [vm_compute; reflexivity|]. split; [vm_compute; reflexivity|].
  vm_compute. discriminate.
Qed.

(** ** The entry dispatcher *)

Section DispatcherFacts.

Variable names : RoutingNames.
Variable X : Externals.

(** [run] never returns: it leaves through [sys.exit] or through what the
    call raises. *)
Lemma run_call callee w :
  run names (emit (Call callee) ;;; mlift (x_call X callee))%M w
  = (Raise (exit_with (x_call X callee)),
     mkWorld (scrubbed names (w_environ w)) (w_trace w ++ [Call callee])).
Proof.
  unfold run, mbind, del_environ, emit, mlift, mraise, scrubbed, exit_with. simpl.
  destruct (x_call X callee); reflexivity.
Qed.

Lemma run_run_path path w :
  run names (run_path X path false) w
  = (Raise (exit_with (x_run_path X path)),
     mkWorld (scrubbed names (w_environ w)) (w_trace w ++ [RunPath path false])).
Proof.
  unfold run, run_path, mbind, del_environ, emit, mlift, mraise, scrubbed, exit_with.
  simpl. destruct (x_run_path X path); reflexivity.
Qed.

Lemma only_imports_lift {A} (r : Result A) : only_imports (mlift r).
Proof.
  intros [environ trace]. exists []. split; [constructor|].
  simpl. by rewrite app_nil_r.
Qed.

Lemma only_imports_ret {A} (a : A) : only_imports (mret a).
Proof. apply (only_imports_lift (Ok a)). Qed.

Lemma only_imports_raise {A} e : only_imports (@mraise World A e).
Proof. apply (only_imports_lift (Raise e)). Qed.

Lemma only_imports_emit e : is_import_event e -> only_imports (emit e).
Proof. intros He w. exists [e]. split; [by constructor|reflexivity]. Qed.

Lemma only_imports_bind {A B} (m : M A) (k : A -> M B) :
  only_imports m -> (forall a, only_imports (k a)) -> only_imports (mbind m k).
Proof.
  intros Hm Hk w. unfold mbind. destruct (Hm w) as (i1 & Hi1 & Hw1).
  destruct (m w) as [[a|e] w1]; simpl in Hw1; subst w1.
  - destruct (Hk a (mkWorld (w_environ w) (w_trace w ++ i1))) as (i2 & Hi2 & Hw2).
    exists (i1 ++ i2)%list. split; [by apply Forall_app|].
    rewrite Hw2. simpl. by rewrite app_assoc.
  - by exists i1.
Qed.

Lemma only_imports_try {A} (m : M A) : only_imports m -> only_imports (mtry m).
Proof.
  intros Hm w. unfold mtry. destruct (Hm w) as (i1 & Hi1 & Hw1).
  destruct (m w) as [r w1]. by exists i1.
Qed.

(** Importing only imports. *)
Lemma import_string_parts_only_imports rev_parts :
  only_imports (import_string_parts X rev_parts).
Proof.
  induction rev_parts as [|obj_name rest IH].
  - simpl. apply only_imports_bind.
    + apply only_imports_try, only_imports_bind;
        [by apply only_imports_emit|intros; apply only_imports_lift].
    + intros [?|[]]; first [apply only_imports_ret|apply only_imports_raise].
  - cbn [import_string_parts]. apply only_imports_bind.
    + apply only_imports_try, only_imports_bind;
        [by apply only_imports_emit|intros; apply only_imports_lift].
    + intros [?|e]; [apply only_imports_ret|].
      destruct e; try apply only_imports_raise.
      destruct rest as [|obj' rest']; [apply only_imports_raise|].
      apply only_imports_bind.
      { apply only_imports_try, only_imports_bind;
          [by apply only_imports_emit|intros; apply only_imports_lift]. }
      intros r'. apply only_imports_bind.
      * destruct r' as [?|e']; [apply only_imports_ret|].
        destruct e'; first [exact IH|apply only_imports_raise].
      * intros module. unfold getattr_or_import_error.
        destruct (x_getattr X module obj_name);
          [apply only_imports_ret|apply only_imports_raise].
Qed.

Lemma import_string_trace import_name w :
  exists imports,
    Forall is_import_event imports
    /\ (import_string X import_name w).2
       = mkWorld (w_environ w) (w_trace w ++ imports).
Proof. apply import_string_parts_only_imports. Qed.

End DispatcherFacts.

(** C1, as amended: when interactive mode is not forced, the entry point is
    imported and called, and no script is run, exactly when it is set and
    the script name is unset or empty; a script name that is set is run as
    [__main__], and the entry point is neither imported nor called,
    whenever the script name is not empty or no entry point is set. *)
Theorem bootstrap_dispatch_choice names X env site_packages w :
  env_interpreter env = false ->
  (forall entry_point,
     env_entry_point env = Some entry_point -> truthy_str (env_script env) = false ->
     exists imports,
       Forall is_import_event imports
       /\ (import_string X entry_point w).2
          = mkWorld (w_environ w) (w_trace w ++ imports)
       /\ bootstrap_dispatch names X env site_packages w
          = match (import_string X entry_point w).1 with
            | Ok callee =>
                (Raise (exit_with (x_call X callee)),
                 mkWorld (scrubbed names (w_environ w))
                   (w_trace w ++ imports ++ [Call callee]))
            | Raise e => (Raise e, mkWorld (w_environ w) (w_trace w ++ imports))
            end)
  /\ (forall script,
        env_script env = Some script ->
        script <> "" \/ env_entry_point env = None ->
        bootstrap_dispatch names X env site_packages w
        = (Raise (exit_with (x_run_path X (PathLib.to_str (site_packages // "bin" // script)))),
           mkWorld (scrubbed names (w_environ w))
             (w_trace w ++ [RunPath (PathLib.to_str (site_packages // "bin" // script)) false]))).
Proof.
  intros Hint. split.
  - intros entry_point Hep Hscript.
    destruct (import_string_trace X entry_point w) as (imports & Himp & Hw).
    exists imports. split; [exact Himp|]. split; [exact Hw|].
    unfold bootstrap_dispatch. rewrite Hint, Hep, Hscript.
    change (negb false) with true. cbv iota.
    unfold mbind at 1. unfold mbind at 1.
    destruct (import_string X entry_point w) as [[callee|e] w1]; simpl in Hw; subst w1.
    + rewrite run_call. simpl. by rewrite app_assoc.
    + reflexivity.
  - intros script Hscript Hcase.
    assert (Ht : script <> "" -> truthy_str (Some script) = true).
    { intros Hne. simpl. unfold Str.truthy.
      destruct (String.eqb_spec script ""); [done|reflexivity]. }
    unfold bootstrap_dispatch. rewrite Hint, Hscript.
    change (negb false) with true. cbv iota. unfold mbind at 1.
    destruct (env_entry_point env) as [entry_point|] eqn:Hep.
    + destruct Hcase as [Hne|?]; [|discriminate].
      rewrite (Ht Hne). change (negb true) with false. cbv iota.
      by rewrite run_run_path.
    + by rewrite run_run_path.
Qed.

Lemma bootstrap_dispatch_choice_witness :
  bootstrap_dispatch DispatchExamples.names (DispatchExamples.externals 0)
    (DispatchExamples.env None None (Some "tool"))
    DispatchExamples.site_packages DispatchExamples.start
  = (Raise (SystemExit (PyObject "globals")),
     mkWorld ∅ [RunPath "/cache/app.pyz_abc/site-packages/bin/tool" false])
  /\ bootstrap_dispatch DispatchExamples.names (DispatchExamples.externals 0)
       (DispatchExamples.env None (Some "pkg.cli:main") (Some ""))
       DispatchExamples.site_packages DispatchExamples.start
     = (Raise (SystemExit (PyInt 0)),
        mkWorld ∅ [ImportModule "pkg.cli.main"; DunderImport "pkg.cli" "main";
                   Call (Attr (Module "pkg.cli") "main")]).
Proof.
  split.
  - destruct (bootstrap_dispatch_choice DispatchExamples.names
                (DispatchExamples.externals 0)
                (DispatchExamples.env None None (Some "tool"))
                DispatchExamples.site_packages DispatchExamples.start eq_refl)
      as [_ Hscript].
    rewrite (Hscript "tool" eq_refl) by (left; discriminate).
    vm_compute. reflexivity.
  - destruct (bootstrap_dispatch_choice DispatchExamples.names
                (DispatchExamples.externals 0)
                (DispatchExamples.env None (Some "pkg.cli:main") (Some ""))
                DispatchExamples.site_packages DispatchExamples.start eq_refl)
      as [Hentry _].
    destruct (Hentry "pkg.cli:main" eq_refl eq_refl) as (imports & _ & Hw & ->).
    vm_compute in Hw. injection Hw as <-. vm_compute. reflexivity.
Defined.

(** C1 as stated fails: with both an entry point and a script name set,
    the script is run and the entry point, though it could be imported
    and called, is not. *)
Lemma bootstrap_dispatch_script_wins :
  let trace :=
    w_trace (bootstrap_dispatch DispatchExamples.names (DispatchExamples.externals 0)
               (DispatchExamples.env None (Some "pkg.cli:main") (Some "tool"))
               DispatchExamples.site_packages DispatchExamples.start).2 in
  trace = [RunPath "/cache/app.pyz_abc/site-packages/bin/tool" false]
  /\ ~ (invokes_entry_point trace /\ ~ executes_script trace).
Proof.
  split; [vm_compute; reflexivity|].
  intros [_ Hno]. apply Hno. eexists. vm_compute. left.
Qed.

(** C3, as amended: a [.py] preamble that raises, [SystemExit] included,
    and a subprocess preamble that cannot be launched end [bootstrap] there,
    with nothing of the dispatch done; the return code of a subprocess
    preamble is not looked at, and dispatch goes on after it. *)
Theorem bootstrap_run_preamble names X env site_packages w preamble :
  env_preamble env = Some preamble -> preamble <> "" ->
  let preamble_bin := site_packages // "bin" // preamble in
  let program := PathLib.to_str preamble_bin in
  (PathLib.suffix preamble_bin = ".py" ->
     forall e, x_run_path X program = Raise e ->
       bootstrap_run names X env site_packages w
       = (Raise e, mkWorld (w_environ w) (w_trace w ++ [RunPath program true])))
  /\ (PathLib.suffix preamble_bin <> ".py" ->
        (forall e, x_subprocess_run X program = Raise e ->
           bootstrap_run names X env site_packages w
           = (Raise e, mkWorld (w_environ w) (w_trace w ++ [SubprocessRun program])))
        /\ (forall returncode, x_subprocess_run X program = Ok returncode ->
              bootstrap_run names X env site_packages w
              = bootstrap_dispatch names X env site_packages
                  (mkWorld (w_environ w) (w_trace w ++ [SubprocessRun program])))).
Proof.
  intros Hpre Hne preamble_bin program.
  assert (Ht : Str.truthy preamble = true).
  { unfold Str.truthy. destruct (String.eqb_spec preamble ""); [done|reflexivity]. }
  unfold bootstrap_run, bootstrap_preamble. rewrite Hpre, Ht.
  fold preamble_bin. fold program. split.
  - intros Hpy e He. apply String.eqb_eq in Hpy. rewrite Hpy.
    unfold mbind, run_path, emit, mlift. simpl. rewrite He. reflexivity.
  - intros Hnpy. apply String.eqb_neq in Hnpy. rewrite Hnpy. split.
    + intros e He. unfold mbind, emit, mlift. simpl. rewrite He. reflexivity.
    + intros returncode Hrc. unfold mbind at 1. unfold mbind at 1.
      unfold emit at 1. unfold mbind at 1. unfold mlift at 1. simpl.
      rewrite Hrc. reflexivity.
Qed.

Lemma bootstrap_run_preamble_witness :
  bootstrap_run DispatchExamples.names (DispatchExamples.externals 0)
    (DispatchExamples.env (Some "setup.sh") (Some "pkg.cli:main") None)
    DispatchExamples.site_packages DispatchExamples.start
  = bootstrap_dispatch DispatchExamples.names (DispatchExamples.externals 0)
      (DispatchExamples.env (Some "setup.sh") (Some "pkg.cli:main") None)
      DispatchExamples.site_packages
      (mkWorld (w_environ DispatchExamples.start)
         [SubprocessRun "/cache/app.pyz_abc/site-packages/bin/setup.sh"])
  /\ bootstrap_run DispatchExamples.names DispatchExamples.broken_preamble
       (DispatchExamples.env (Some "setup.py") (Some "pkg.cli:main") None)
       DispatchExamples.site_packages DispatchExamples.start
     = (Raise (OtherException "KeyError" "HOME"),
        mkWorld (w_environ DispatchExamples.start)
          [RunPath "/cache/app.pyz_abc/site-packages/bin/setup.py" true])
  /\ bootstrap_run DispatchExamples.names DispatchExamples.broken_preamble
       (DispatchExamples.env (Some "setup.sh") (Some "pkg.cli:main") None)
       DispatchExamples.site_packages DispatchExamples.start
     = (Raise (FileNotFoundError "setup.sh"),
        mkWorld (w_environ DispatchExamples.start)
          [SubprocessRun "/cache/app.pyz_abc/site-packages/bin/setup.sh"]).
Proof.
  split; [|split].
  - destruct (bootstrap_run_preamble DispatchExamples.names (DispatchExamples.externals 0)
                (DispatchExamples.env (Some "setup.sh") (Some "pkg.cli:main") None)
                DispatchExamples.site_packages DispatchExamples.start "setup.sh"
                eq_refl) as [_ Hsub]; [discriminate|].
    destruct Hsub as [_ Hrc]; [vm_compute; discriminate|].
    apply (Hrc 0%Z). reflexivity.
  - destruct (bootstrap_run_preamble DispatchExamples.names DispatchExamples.broken_preamble
                (DispatchExamples.env (Some "setup.py") (Some "pkg.cli:main") None)
                DispatchExamples.site_packages DispatchExamples.start "setup.py"
                eq_refl) as [Hpy _]; [discriminate|].
    apply Hpy; reflexivity.
  - destruct (bootstrap_run_preamble DispatchExamples.names DispatchExamples.broken_preamble
                (DispatchExamples.env (Some "setup.sh") (Some "pkg.cli:main") None)
                DispatchExamples.site_packages DispatchExamples.start "setup.sh"
                eq_refl) as [_ Hsub]; [discriminate|].
    destruct Hsub as [Hlaunch _]; [vm_compute; discriminate|].
    apply Hlaunch. reflexivity.
Defined.

(** C3 as stated fails: a subprocess preamble that exits with code 1 does
    not stop [bootstrap], which goes on to import and call the entry
    point. *)
Lemma bootstrap_run_preamble_nonzero :
  let X := DispatchExamples.externals 1 in
  let outcome :=
    bootstrap_run DispatchExamples.names X
      (DispatchExamples.env (Some "setup.sh") (Some "pkg.cli:main") None)
      DispatchExamples.site_packages DispatchExamples.start in
  x_subprocess_run X "/cache/app.pyz_abc/site-packages/bin/setup.sh" = Ok 1%Z
  /\ outcome.1 = Raise (SystemExit (PyInt 0))
  /\ w_trace outcome.2
     = [SubprocessRun "/cache/app.pyz_abc/site-packages/bin/setup.sh";
        ImportModule "pkg.cli.main"; DunderImport "pkg.cli" "main";
        Call (Attr (Module "pkg.cli") "main")]
  /\ invokes_entry_point (w_trace outcome.2).
Proof.
  split; [reflexivity|]. split; [vm_compute; reflexivity|].
  split; [vm_compute; reflexivity|].
  eexists. vm_compute. do 3 right. left.
Qed.

(** ** Facts about the disk *)

Section DiskFacts.

Implicit Types (fs : FS) (p q src dst : Path).

Lemma is_relative_to_spec q p :
  PathLib.is_relative_to q p = true <-> ancestor_or_self p q.
Proof.
  unfold PathLib.is_relative_to, ancestor_or_self.
  rewrite andb_true_iff, !bool_decide_eq_true. intuition congruence.
Qed.

Lemma fs_exists_spec fs p :
  fs_exists fs p = true <-> exists q, q ∈ fs /\ ancestor_or_self p q.
Proof.
  unfold fs_exists. rewrite existsb_exists. split.
  - intros (q & Hq & Hrel). exists q. split; [by apply list_elem_of_In|].
    by apply is_relative_to_spec.
  - intros (q & Hq & Hanc). exists q. split; [by apply list_elem_of_In|].
    by apply is_relative_to_spec.
Qed.

Lemma ancestor_parent_l p q : ancestor_or_self p q -> ancestor_or_self (PathLib.parent p) q.
Proof.
  intros [Hr Hp]. split; [exact Hr|]. simpl. etrans; [|exact Hp].
  destruct (p_parts p) as [|x l] using rev_ind; [reflexivity|].
  rewrite removelast_last. by exists [x].
Qed.

(** What holds an existing path exists. *)
Lemma fs_exists_parent fs p :
  fs_exists fs p = true -> fs_exists fs (PathLib.parent p) = true.
Proof.
  rewrite !fs_exists_spec. intros (q & Hq & Hanc).
  exists q. split; [exact Hq|]. by apply ancestor_parent_l.
Qed.

Lemma fs_exists_cons fs p q :
  fs_exists fs p = true -> fs_exists (q :: fs) p = true.
Proof. unfold fs_exists. simpl. intros ->. apply orb_true_r. Qed.

Lemma fs_exists_app fs fs' p :
  fs_exists fs p = true -> fs_exists (fs' ++ fs) p = true.
Proof. unfold fs_exists. rewrite existsb_app. intros ->. apply orb_true_r. Qed.

(** After a rename the destination exists. *)
Lemma fs_rename_exists fs src dst :
  fs_exists fs src = true -> fs_exists (fs_rename src dst fs) dst = true.
Proof.
  rewrite !fs_exists_spec. intros (q & Hq & Hanc).
  exists (rebase src dst q). split.
  - unfold fs_rename. right. apply list_elem_of_fmap. by exists q.
  - unfold rebase. rewrite (proj2 (is_relative_to_spec q src) Hanc).
    split; [reflexivity|]. simpl. by apply prefix_app_r.
Qed.

(** After [rmtree] the path is gone, unless it is the top of the tree. *)
Lemma fs_rmtree_gone fs p :
  p_parts p <> [] -> fs_exists (fs_rmtree p fs) p = false.
Proof.
  intros Hne. unfold fs_exists, fs_rmtree. simpl. apply orb_false_intro.
  - apply not_true_is_false. rewrite is_relative_to_spec. intros [_ Hpre].
    apply prefix_length in Hpre. simpl in Hpre. rewrite removelast_length in Hpre.
    destruct (p_parts p); [done|]. simpl in Hpre. lia.
  - apply not_true_is_false. rewrite existsb_exists.
    intros (q & [_ Hq]%filter_In & Hrel). rewrite Hrel in Hq. discriminate.
Qed.

(** [rmtree] spares what is not under the removed path. *)
Lemma fs_rmtree_keeps fs p q :
  fs_exists fs q = true ->
  (forall r, ancestor_or_self q r -> ~ ancestor_or_self p r) ->
  fs_exists (fs_rmtree p fs) q = true.
Proof.
  rewrite !fs_exists_spec. intros (r & Hr & Hanc) Hout.
  exists r. split; [|exact Hanc]. unfold fs_rmtree. right.
  apply list_elem_of_In, filter_In. split; [by apply list_elem_of_In|].
  apply negb_true_iff, not_true_is_false. rewrite is_relative_to_spec. by apply Hout.
Qed.

End DiskFacts.

Section MonadFacts.

Context {S : Type}.

Lemma mbind_ok {A B} (m : ST S A) (k : A -> ST S B) s b s' :
  mbind m k s = (Ok b, s') ->
  exists a s1, m s = (Ok a, s1) /\ k a s1 = (Ok b, s').
Proof.
  unfold mbind. destruct (m s) as [[a|e] s1]; [|discriminate]. eauto.
Qed.

End MonadFacts.

Section ExtractorFacts.

Variable compile_outcome : FS -> Path -> Z -> bool * list (list string).

(** With the target in place and no [force], the lock is taken and given
    back, and that is all. *)
Lemma extract_site_packages_skip archive target_path compile_pyc compile_workers d :
  fs_exists (d_fs d) target_path = true ->
  extract_site_packages compile_outcome archive target_path
    compile_pyc compile_workers false d
  = (Ok tt, mkDisk (d_fs d)
              (d_ops d ++ [LockAcquire (lock_of target_path);
                           LockRelease (lock_of target_path)])).
Proof.
  intros Hex. unfold extract_site_packages, mbind at 1.
  rewrite (fs_exists_parent _ _ Hex). change (negb true) with false.
  cbv iota beta. unfold mret at 1. unfold with_FileLock. cbn [d_fs].
  rewrite Hex. change (negb true || false) with false. cbv iota.
  unfold mret. cbn [d_fs d_ops]. by rewrite <- app_assoc.
Qed.

(** The publishing step moves the temporary directory onto a target that
    is not there: when it succeeds, the target is there. *)
Lemma shutil_move_publishes src dst d d' :
  fs_exists (d_fs d) dst = false ->
  shutil_move src dst d = (Ok tt, d') ->
  fs_exists (d_fs d') dst = true.
Proof.
  intros Hdst. unfold shutil_move. rewrite Hdst.
  destruct (fs_exists (d_fs d) src) eqn:Hsrc; simpl; [|discriminate].
  intros [= <-]. simpl. by apply fs_rename_exists.
Qed.

(** A run of the extractor that returns leaves the target in place. *)
Lemma extract_site_packages_publishes archive target_path compile_pyc
    compile_workers force d d' :
  p_parts target_path <> [] ->
  extract_site_packages compile_outcome archive target_path
    compile_pyc compile_workers force d = (Ok tt, d') ->
  fs_exists (d_fs d') target_path = true.
Proof.
  intros Hne. unfold extract_site_packages.
  intros (u0 & d0 & _ & Hlock)%mbind_ok. revert Hlock.
  unfold with_FileLock.
  set (d1 := mkDisk (d_fs d0) (d_ops d0 ++ [LockAcquire _])).
  destruct (negb (fs_exists (d_fs d1) target_path) || force) eqn:Hwork.
  - destruct (mbind _ _ d1) as [r d2] eqn:Hbody. intros [= -> <-]. simpl.
    apply mbind_ok in Hbody as (ua & da & _ & Hbody).
    apply mbind_ok in Hbody as (ub & db & _ & Hbody).
    apply mbind_ok in Hbody as (uc & dc & Hrm & Hmove).
    eapply shutil_move_publishes; [|exact Hmove].
    destruct (fs_exists (d_fs db) target_path) eqn:Hex.
    + unfold shutil_rmtree, did in Hrm. destruct uc. injection Hrm as Heq.
      rewrite <- Heq. simpl. by apply fs_rmtree_gone.
    + unfold mret in Hrm. destruct uc. injection Hrm as Heq. by rewrite <- Heq.
  - unfold mret. intros [= <-]. simpl.
    apply orb_false_elim in Hwork as [Hex _]. by apply negb_false_iff in Hex.
Qed.

End ExtractorFacts.

(** C5: with the target directory in place and no [force], the extractor
    takes the lock and gives it back without extracting, compiling,
    removing or renaming anything; and after a run of the extraction step
    of [bootstrap] that returned, a run without [force] leaves the disk as
    it is and performs no operation that writes (the cache directory being
    a directory below the top of the path tree). *)
Theorem extraction_idempotent compile_outcome archive site_packages :
  (forall target_path compile_pyc compile_workers d,
     fs_exists (d_fs d) target_path = true ->
     extract_site_packages compile_outcome archive target_path
       compile_pyc compile_workers false d
     = (Ok tt, mkDisk (d_fs d)
                 (d_ops d ++ [LockAcquire (lock_of target_path);
                              LockRelease (lock_of target_path)])))
  /\ (forall env env' d0 d1,
        p_parts (PathLib.parent site_packages) <> [] ->
        bootstrap_extract compile_outcome env archive site_packages d0 = (Ok tt, d1) ->
        env_force_extract env' = false ->
        exists ops,
          bootstrap_extract compile_outcome env' archive site_packages d1
            = (Ok tt, mkDisk (d_fs d1) (d_ops d1 ++ ops))
          /\ Forall (fun op => is_write op = false) ops).
Proof.
  split; [intros; by apply extract_site_packages_skip|].
  intros env env' d0 d1 Hne Hfirst Hforce.
  assert (Htarget : fs_exists (d_fs d1) (PathLib.parent site_packages) = true).
  { unfold bootstrap_extract in Hfirst.
    destruct (negb (fs_exists (d_fs d0) site_packages) || env_force_extract env) eqn:Hc.
    - eapply extract_site_packages_publishes; eauto.
    - unfold mret in Hfirst. injection Hfirst as <-.
      apply orb_false_elim in Hc as [Hex _]. apply negb_false_iff in Hex.
      by apply fs_exists_parent. }
  unfold bootstrap_extract. rewrite Hforce.
  destruct (fs_exists (d_fs d1) site_packages); simpl.
  - exists []. split; [|constructor]. unfold mret. destruct d1. simpl. by rewrite app_nil_r.
  - eexists. split; [by apply extract_site_packages_skip|]. repeat constructor.
Qed.

Lemma extraction_idempotent_witness :
  let env := DispatchExamples.env None None None in
  let site_packages := PathLib.parse "/home/u/.shiv/app.pyz_abc/site-packages" in
  let compile_outcome := fun (_ : FS) (_ : Path) (_ : Z) =>
                           (true, @nil (list string)) in
  (exists d1 ops,
     bootstrap_extract compile_outcome env ExtractExamples.archive site_packages
       (mkDisk [] []) = (Ok tt, d1)
     /\ bootstrap_extract compile_outcome env ExtractExamples.archive site_packages d1
       = (Ok tt, mkDisk (d_fs d1) (d_ops d1 ++ ops))
     /\ Forall (fun op => is_write op = false) ops)
  /\ extract_site_packages compile_outcome ExtractExamples.archive
       ExtractExamples.target_path true 0 false
       (mkDisk [ExtractExamples.target_path] [])
     = (Ok tt, mkDisk [ExtractExamples.target_path]
                 [LockAcquire (lock_of ExtractExamples.target_path);
                  LockRelease (lock_of ExtractExamples.target_path)]).
Proof.
  intros env site_packages compile_outcome.
  destruct (extraction_idempotent compile_outcome ExtractExamples.archive site_packages)
    as [Hskip Hsecond].
  split.
  - destruct (bootstrap_extract compile_outcome env ExtractExamples.archive
                site_packages (mkDisk [] [])) as [r d1] eqn:Hfirst.
    assert (Hr : r = Ok tt) by (vm_compute in Hfirst; congruence). subst r.
    destruct (Hsecond env env (mkDisk [] []) d1) as (ops & Hrun & Hops);
      [vm_compute; discriminate|exact Hfirst|reflexivity|].
    exists d1, ops. split; [reflexivity|]. by split.
  - apply (Hskip ExtractExamples.target_path true 0%Z
             (mkDisk [ExtractExamples.target_path] [])).
    vm_compute. reflexivity.
Defined.

Section TmpFacts.

Lemma string_length_append (a b : string) :
  String.length (a +:+ b) = String.length a + String.length b.
Proof. induction a as [|c a IH]; simpl; [reflexivity|]. by rewrite IH. Qed.

Lemma append_tmp_ne (name : string) : name <> name +:+ ".tmp".
Proof.
  intros Heq. apply (f_equal String.length) in Heq.
  rewrite string_length_append in Heq. simpl in Heq. lia.
Qed.

Lemma wf_last_part (p : Path) :
  PathLib.wf p = true -> p_parts p <> [] -> PathLib.wf_part (PathLib.name p) = true.
Proof.
  unfold PathLib.wf, PathLib.name. intros [_ Hall]%andb_prop Hne.
  rewrite forallb_forall in Hall. apply Hall.
  destruct (p_parts p) as [|x l] using rev_ind; [done|].
  rewrite last_last. apply in_or_app. right. by left.
Qed.

Lemma wf_part_tmp (name : string) :
  PathLib.wf_part name = true -> PathLib.wf_part (name +:+ ".tmp") = true.
Proof.
  unfold PathLib.wf_part. intros [Hk Hs%bool_decide_eq_true]%andb_prop.
  apply andb_true_intro. split.
  - unfold PathLib.keep_part in *. destruct name as [|c [|c' n]]; simpl in *;
      [discriminate| |]; destruct (Ascii.eqb c "."); reflexivity.
  - apply bool_decide_eq_true. apply split_single_app; [exact Hs|reflexivity].
Qed.

(** The temporary directory is the target's sibling with [.tmp] added to
    its name. *)
Lemma tmp_of_parts (target_path : Path) :
  PathLib.wf target_path = true -> p_parts target_path <> [] ->
  tmp_of target_path
  = mkPath (p_root target_path)
      (removelast (p_parts target_path) ++ [PathLib.name target_path +:+ ".tmp"]).
Proof.
  intros Hwf Hne. unfold tmp_of.
  rewrite joinpath_single by (apply wf_part_tmp, wf_last_part; assumption).
  reflexivity.
Qed.

(** Nothing under the temporary directory is under the target. *)
Lemma tmp_not_under_target (target_path r : Path) :
  PathLib.wf target_path = true -> p_parts target_path <> [] ->
  ancestor_or_self (tmp_of target_path) r -> ~ ancestor_or_self target_path r.
Proof.
  intros Hwf Hne. rewrite tmp_of_parts by assumption.
  intros [_ [k1 Hk1]] [_ [k2 Hk2]]. simpl in Hk1.
  rewrite (app_removelast_last "" Hne) in Hk2.
  fold (PathLib.name target_path) in Hk2. rewrite Hk1 in Hk2.
  rewrite <- !app_assoc in Hk2. apply app_inv_head in Hk2.
  simpl in Hk2. injection Hk2 as Hname _. symmetry in Hname.
  by apply append_tmp_ne in Hname.
Qed.

End TmpFacts.

Section PublishFacts.

Variable compile_outcome : FS -> Path -> Z -> bool * list (list string).

Lemma parent_not_under (p : Path) :
  p_parts p <> [] -> PathLib.is_relative_to (PathLib.parent p) p = false.
Proof.
  intros Hne. apply not_true_is_false. rewrite is_relative_to_spec.
  intros [_ Hpre]. apply prefix_length in Hpre. simpl in Hpre.
  rewrite removelast_length in Hpre. destruct (p_parts p); [done|].
  simpl in Hpre. lia.
Qed.

(** The extraction loop returns, loses nothing, and leaves the destination
    in place once a member of the namespace was extracted. *)
Lemma extract_members_spec infolist tmp d :
  exists d',
    extract_members infolist tmp d = (Ok tt, d')
    /\ (forall p, fs_exists (d_fs d) p = true -> fs_exists (d_fs d') p = true)
    /\ ((exists fileinfo, fileinfo ∈ infolist
           /\ Str.startswith "site-packages" (filename fileinfo) = true) ->
        fs_exists (d_fs d') tmp = true)
    /\ exists ops, d_ops d' = d_ops d ++ ops.
Proof.
  revert d. induction infolist as [|fileinfo rest IH]; intros d.
  - exists d. split; [reflexivity|]. split; [auto|].
    split; [intros (f & Hf & _); by apply not_elem_of_nil in Hf|].
    exists []. by rewrite app_nil_r.
  - cbn [extract_members].
    destruct (Str.startswith "site-packages" (filename fileinfo)) eqn:Hstart.
    + set (extracted := mkPath (p_root tmp)
                          (p_parts tmp ++ member_parts (filename fileinfo))).
      set (d1 := mkDisk (extracted :: d_fs d)
                   ((d_ops d ++ [Extract (filename fileinfo) tmp])
                    ++ [Chmod extracted (Z.shiftr (external_attr fileinfo) 16)])).
      destruct (IH d1) as (d' & Hrun & Hmono & _ & ops & Hops).
      exists d'. split; [exact Hrun|]. split; [|split].
      * intros p Hp. apply Hmono. simpl. by apply fs_exists_cons.
      * intros _. apply Hmono. apply fs_exists_spec. exists extracted.
        split; [left|]. split; [reflexivity|]. simpl. by apply prefix_app_r.
      * eexists. rewrite Hops. simpl. rewrite <- !app_assoc. reflexivity.
    + destruct (IH d) as (d' & Hrun & Hmono & Htmp & Hops).
      exists d'. split; [exact Hrun|]. split; [exact Hmono|]. split; [|exact Hops].
      intros (f & [->|Hf]%elem_of_cons & Hs); [congruence|].
      apply Htmp. eauto.
Qed.

(** With a valid worker count [compile_dir] returns, whether or not every
    file compiled, and loses nothing. *)
Lemma compile_dir_returns dir workers d :
  (0 <= workers)%Z ->
  exists success d',
    compile_dir compile_outcome dir workers d = (Ok success, d')
    /\ d_ops d' = d_ops d ++ [CompileDir dir workers]
    /\ (forall p, fs_exists (d_fs d) p = true -> fs_exists (d_fs d') p = true).
Proof.
  intros Hw. unfold compile_dir.
  destruct (Z.ltb_spec workers 0) as [Hlt|_]; [lia|].
  destruct (compile_outcome (d_fs d) dir workers) as [success written].
  eexists _, _. split; [reflexivity|]. split; [reflexivity|].
  intros p Hp. simpl. by apply fs_exists_app.
Qed.

End PublishFacts.

Section BlindFacts.

Context {S : Type}.

Lemma mbind_ext_r {A B} (m : ST S A) (k1 k2 : A -> ST S B) s :
  (forall a s', k1 a s' = k2 a s') -> mbind m k1 s = mbind m k2 s.
Proof. intros Hk. unfold mbind. destruct (m s) as [[a|e] s']; auto. Qed.

Lemma mbind_ext_l {A B} (m1 m2 : ST S A) (k : A -> ST S B) s :
  m1 s = m2 s -> mbind m1 k s = mbind m2 k s.
Proof. intros Hm. unfold mbind. by rewrite Hm. Qed.

End BlindFacts.

Lemma with_FileLock_ext {A} lock (body1 body2 : ST Disk A) d :
  (forall d', body1 d' = body2 d') -> with_FileLock lock body1 d = with_FileLock lock body2 d.
Proof. intros Hb. unfold with_FileLock. by rewrite Hb. Qed.

(** What [compile_dir] returns is dropped on the spot. *)
Lemma compile_step_blind compile_outcome compile_outcome' dir workers d :
  (forall fs dir' workers',
     (compile_outcome' fs dir' workers').2 = (compile_outcome fs dir' workers').2) ->
  (compile_dir compile_outcome' dir workers ;;; mret tt)%M d
  = (compile_dir compile_outcome dir workers ;;; mret tt)%M d.
Proof.
  intros Hsame. unfold mbind, compile_dir.
  destruct (workers <? 0)%Z; [reflexivity|].
  specialize (Hsame (d_fs d) dir workers).
  destruct (compile_outcome' (d_fs d) dir workers) as [success' written'].
  destruct (compile_outcome (d_fs d) dir workers) as [success written].
  simpl in Hsame. by subst written'.
Qed.




(** * Part V: more of the module *)

(** ** [str.split] and [str.join] *)

Lemma join_cons_cons sep x y l :
  Str.join sep (x :: y :: l) = x +:+ sep +:+ Str.join sep (y :: l).
Proof. reflexivity. Qed.

(** Joining what a split gave gives the string back. *)
Lemma join_split sep s : Str.join (String sep "") (Str.split sep s) = s.
Proof.
  induction s as [|c s IH]; [reflexivity|]. simpl.
  destruct (Ascii.eqb_spec c sep) as [->|Hne].
  - destruct (Str.split sep s) as [|h t] eqn:Hs; [by apply split_not_nil in Hs|].
    rewrite join_cons_cons, IH. reflexivity.
  - destruct (Str.split sep s) as [|h t] eqn:Hs; [by apply split_not_nil in Hs|].
    rewrite <- IH. by destruct t.
Qed.

(** The pieces of a split hold no separator. *)
Lemma split_pieces_single sep s x :
  x ∈ Str.split sep s -> Str.split sep x = [x].
Proof.
  revert x. induction s as [|c s IH]; intros x; simpl.
  - by intros ->%list_elem_of_singleton.
  - destruct (Ascii.eqb c sep) eqn:Hc.
    + intros [->|Hx]%elem_of_cons; [reflexivity|by apply IH].
    + destruct (Str.split sep s) as [|h t] eqn:Hs; [by apply split_not_nil in Hs|].
      intros [->|Hx]%elem_of_cons.
      * simpl. rewrite Hc. rewrite (IH h) by left. reflexivity.
      * apply IH. by right.
Qed.

Lemma split_cons_sep sep r : Str.split sep (String sep r) = "" :: Str.split sep r.
Proof. simpl. by rewrite Ascii.eqb_refl. Qed.

Lemma split_cons_other sep c r :
  Ascii.eqb c sep = false ->
  Str.split sep (String c r)
  = match Str.split sep r with
    | h :: t => String c h :: t
    | [] => [String c ""]
    end.
Proof. intros Hc. simpl. by rewrite Hc. Qed.

(** Splitting a join of pieces without separator gives the pieces back. *)
Lemma split_join sep (l : list string) :
  l <> [] -> (forall x, x ∈ l -> Str.split sep x = [x]) ->
  Str.split sep (Str.join (String sep "") l) = l.
Proof.
  induction l as [|x l IH]; [done|]. intros _ Hall.
  destruct l as [|y l]; [apply Hall; left|].
  rewrite join_cons_cons.
  assert (Hx : Str.split sep x = [x]) by (apply Hall; left).
  assert (Hrest : Str.split sep (Str.join (String sep "") (y :: l)) = y :: l).
  { apply IH; [done|]. intros z Hz. apply Hall. by right. }
  clear IH Hall. revert Hx. generalize dependent (Str.join (String sep "") (y :: l)).
  intros rest Hr. induction x as [|c x IHx].
  - intros _. change ("" +:+ String sep "" +:+ rest) with (String sep rest).
    by rewrite split_cons_sep, Hr.
  - intros Hx. destruct (Ascii.eqb c sep) eqn:Hc.
    { rewrite (proj1 (Ascii.eqb_eq _ _) Hc), split_cons_sep in Hx. discriminate. }
    rewrite split_cons_other in Hx by exact Hc.
    destruct (Str.split sep x) as [|h t] eqn:Hs; [by apply split_not_nil in Hs|].
    injection Hx as -> ->.
    change (String c x +:+ String sep "" +:+ rest)
      with (String c (x +:+ String sep "" +:+ rest)).
    rewrite split_cons_other by exact Hc. by rewrite IHx.
Qed.

(** ** [import_string] and [run] *)

Lemma import_string_parts_unfold X rev_parts :
  import_string_parts X rev_parts
  = (let import_name := Str.join "." (rev rev_parts) in
     r <~ mtry (import_module X import_name) ;;
     match r with
     | Ok _ => mret (Module import_name)
     | Raise (ImportError msg) =>
         match rev_parts with
         | obj_name :: ((_ :: _) as rest) =>
             let module_name := Str.join "." (rev rest) in
             r' <~ mtry (dunder_import X module_name obj_name) ;;
             module <~ match r' with
                       | Ok _ => mret (Module module_name)
                       | Raise (ImportError _) => import_string_parts X rest
                       | Raise e => mraise e
                       end ;;
             getattr_or_import_error X module obj_name
         | _ => mraise (ImportError msg)
         end
     | Raise e => mraise e
     end)%M.
Proof. destruct rev_parts; reflexivity. Qed.

(** The name [import_string] tries first is its argument, colons turned
    into dots. *)
Lemma import_string_first_name import_name :
  Str.join "." (rev (rev (Str.split "." (colons_to_dots import_name))))
  = colons_to_dots import_name.
Proof. rewrite rev_involutive. apply join_split. Qed.

(** X1: when the whole name, colons read as dots, imports, [import_string]
    hands back that module from [sys.modules] after this one import: no
    attribute is looked up. *)
Theorem import_string_whole_name X import_name w :
  x_import_module X (colons_to_dots import_name) = Ok tt ->
  import_string X import_name w
  = (Ok (Module (colons_to_dots import_name)),
     mkWorld (w_environ w)
       (w_trace w ++ [ImportModule (colons_to_dots import_name)])).
Proof.
  intros Hok. unfold import_string. rewrite import_string_parts_unfold.
  cbv zeta. rewrite import_string_first_name.
  unfold mbind, mtry, import_module, emit, mlift, mret. simpl. by rewrite Hok.
Qed.

Lemma import_string_whole_name_witness :
  import_string (DispatchExamples.externals 0) "pkg.cli" DispatchExamples.start
  = (Ok (Module "pkg.cli"),
     mkWorld (w_environ DispatchExamples.start) [ImportModule "pkg.cli"]).
Proof.
  apply (import_string_whole_name (DispatchExamples.externals 0) "pkg.cli"
           DispatchExamples.start).
  reflexivity.
Defined.

(** X2: what the first import raises comes out of [import_string] as it
    is, after that one import and nothing else, whenever it is not an
    [ImportError], and also when it is one and the name has no dot (nor
    colon) to split at. *)
Theorem import_string_reraises X import_name e w :
  x_import_module X (colons_to_dots import_name) = Raise e ->
  is_import_error e = false
  \/ Str.split "." (colons_to_dots import_name) = [colons_to_dots import_name] ->
  import_string X import_name w
  = (Raise e,
     mkWorld (w_environ w)
       (w_trace w ++ [ImportModule (colons_to_dots import_name)])).
Proof.
  intros Hraise Hcase. unfold import_string. rewrite import_string_parts_unfold.
  cbv zeta. rewrite import_string_first_name.
  unfold mbind at 1. unfold mtry, import_module, mbind, emit, mlift. simpl.
  rewrite Hraise. destruct Hcase as [Hother|Hplain].
  - destruct e; try reflexivity. discriminate.
  - rewrite Hplain. simpl. by destruct e.
Qed.

Lemma import_string_reraises_witness :
  import_string (DispatchExamples.externals 0) "missing" DispatchExamples.start
  = (Raise (ImportError "missing"),
     mkWorld (w_environ DispatchExamples.start) [ImportModule "missing"]).
Proof.
  apply (import_string_reraises (DispatchExamples.externals 0) "missing"
           (ImportError "missing") DispatchExamples.start).
  - reflexivity.
  - right. reflexivity.
Defined.

(** X3: for a name [<module>.<attribute>] (or [<module>:<attribute>])
    that does not import as a whole while the module part does,
    [import_string] answers with the attribute of the module, and with an
    [ImportError] when the module has no such attribute, after exactly
    these two imports. *)
Theorem import_string_attribute X import_name prefix obj_name msg w :
  Str.split "." (colons_to_dots import_name) = prefix ++ [obj_name] ->
  prefix <> [] ->
  x_import_module X (colons_to_dots import_name) = Raise (ImportError msg) ->
  x_dunder_import X (Str.join "." prefix) obj_name = Ok tt ->
  import_string X import_name w
  = (match x_getattr X (Module (Str.join "." prefix)) obj_name with
     | Some o => Ok o
     | None => Raise (ImportError ("no attribute " +:+ obj_name))
     end,
     mkWorld (w_environ w)
       (w_trace w ++ [ImportModule (colons_to_dots import_name);
                      DunderImport (Str.join "." prefix) obj_name])).
Proof.
  intros Hsplit Hne Hraise Hok.
  pose proof (import_string_first_name import_name) as Hname.
  unfold import_string. rewrite import_string_parts_unfold. cbv zeta.
  rewrite Hname. rewrite Hsplit, rev_app_distr. simpl rev at 1. simpl app.
  destruct (rev prefix) as [|last_part rest] eqn:Hrev.
  { apply (f_equal (@rev string)) in Hrev. rewrite rev_involutive in Hrev. done. }
  rewrite <- Hrev, rev_involutive.
  unfold mbind at 1. unfold mtry at 1. unfold import_module, mbind at 1, emit, mlift.
  simpl. rewrite Hraise. rewrite Hrev.
  unfold mbind at 1. unfold mtry at 1. unfold dunder_import, mbind at 1, emit, mlift.
  simpl. rewrite Hok. unfold mbind, mret, getattr_or_import_error.
  rewrite <- app_assoc.
  destruct (x_getattr X (Module (Str.join "." prefix)) obj_name); reflexivity.
Qed.

Lemma import_string_attribute_witness :
  import_string (DispatchExamples.externals 0) "pkg.cli:main" DispatchExamples.start
  = (Ok (Attr (Module "pkg.cli") "main"),
     mkWorld (w_environ DispatchExamples.start)
       [ImportModule "pkg.cli.main"; DunderImport "pkg.cli" "main"]).
Proof.
  apply (import_string_attribute (DispatchExamples.externals 0) "pkg.cli:main"
           ["pkg"; "cli"] "main" "pkg.cli.main" DispatchExamples.start);
    [reflexivity|discriminate|reflexivity|reflexivity].
Defined.

(** X4: [run] deletes the three routing variables, and only them, before
    it calls; it never returns: it leaves with [SystemExit] carrying what
    the call returned, or with what the call raised. *)
Theorem run_scrubs_and_exits names (module : M PyVal) w :
  let scrubbed_world := mkWorld (scrubbed names (w_environ w)) (w_trace w) in
  run names module w
    = (Raise (exit_with (module scrubbed_world).1), (module scrubbed_world).2)
  /\ (forall key,
        key ∈ [name_MODULE names; name_ENTRY_POINT names; name_CONSOLE_SCRIPT names] ->
        scrubbed names (w_environ w) !! key = None)
  /\ (forall key,
        key ∉ [name_MODULE names; name_ENTRY_POINT names; name_CONSOLE_SCRIPT names] ->
        scrubbed names (w_environ w) !! key = w_environ w !! key).
Proof.
  split; [|split].
  - unfold run, mbind, del_environ, mraise, scrubbed, exit_with. simpl.
    destruct (module _) as [[v|e] w']; reflexivity.
  - intros key Hkey. unfold scrubbed. rewrite !elem_of_cons in Hkey.
    destruct Hkey as [->|[->|[->|Hkey]]]; [| | |by apply not_elem_of_nil in Hkey];
      rewrite !lookup_delete; repeat case_decide; done.
  - intros key Hkey. unfold scrubbed. rewrite !not_elem_of_cons in Hkey.
    destruct Hkey as (H1 & H2 & H3 & _).
    rewrite !lookup_delete_ne by done. reflexivity.
Qed.

Lemma colons_to_dots_idempotent s : colons_to_dots (colons_to_dots s) = colons_to_dots s.
Proof.
  induction s as [|c s IH]; [reflexivity|]. simpl. rewrite IH.
  destruct (Ascii.eqb c ":") eqn:Hc; [reflexivity|]. by rewrite Hc.
Qed.

Lemma colons_to_dots_append a b :
  colons_to_dots (a +:+ b) = colons_to_dots a +:+ colons_to_dots b.
Proof. induction a as [|c a IH]; [reflexivity|]. simpl. by rewrite IH. Qed.

(** The pieces of a string without colons have no colons. *)
Lemma colons_to_dots_pieces sep s x :
  colons_to_dots s = s -> x ∈ Str.split sep s -> colons_to_dots x = x.
Proof.
  revert x. induction s as [|c s IH]; intros x Hs; simpl.
  - by intros ->%list_elem_of_singleton.
  - simpl in Hs. injection Hs as Hc Hs.
    destruct (Ascii.eqb c sep).
    + intros [->|Hx]%elem_of_cons; [reflexivity|by apply IH].
    + destruct (Str.split sep s) as [|h t] eqn:Hsplit;
        [by apply split_not_nil in Hsplit|].
      intros [->|Hx]%elem_of_cons.
      * simpl. rewrite Hc. rewrite (IH h) by (done || left). reflexivity.
      * apply IH; [done|by right].
Qed.

Lemma colons_to_dots_join sep (l : list string) :
  colons_to_dots sep = sep -> (forall x, x ∈ l -> colons_to_dots x = x) ->
  colons_to_dots (Str.join sep l) = Str.join sep l.
Proof.
  intros Hsep. induction l as [|x l IH]; intros Hall; [reflexivity|].
  destruct l as [|y l]; [apply Hall; left|].
  rewrite join_cons_cons, !colons_to_dots_append, Hsep.
  rewrite (Hall x) by left. rewrite IH; [reflexivity|].
  intros z Hz. apply Hall. by right.
Qed.

(** X5: when neither the whole name nor its module part imports (both
    with an [ImportError]), [import_string] resolves the module part by
    calling itself on it and then takes the attribute from what it
    found. *)
Theorem import_string_recurses X import_name prefix obj_name msg msg' w :
  Str.split "." (colons_to_dots import_name) = prefix ++ [obj_name] ->
  prefix <> [] ->
  x_import_module X (colons_to_dots import_name) = Raise (ImportError msg) ->
  x_dunder_import X (Str.join "." prefix) obj_name = Raise (ImportError msg') ->
  import_string X import_name w
  = (module <~ import_string X (Str.join "." prefix) ;;
     getattr_or_import_error X module obj_name)%M
      (mkWorld (w_environ w)
         (w_trace w ++ [ImportModule (colons_to_dots import_name);
                        DunderImport (Str.join "." prefix) obj_name])).
Proof.
  intros Hsplit Hne Hraise Hraise'.
  pose proof (import_string_first_name import_name) as Hname.
  assert (Hpieces : forall x, x ∈ prefix -> x ∈ Str.split "." (colons_to_dots import_name)).
  { intros x Hx. rewrite Hsplit. apply elem_of_app. by left. }
  assert (Hrec : import_string X (Str.join "." prefix)
                 = import_string_parts X (rev prefix)).
  { unfold import_string. rewrite colons_to_dots_join; [|reflexivity|].
    - rewrite split_join; [reflexivity|exact Hne|].
      intros x Hx. eapply split_pieces_single. by apply Hpieces.
    - intros x Hx. eapply colons_to_dots_pieces; [|by apply Hpieces].
      apply colons_to_dots_idempotent. }
  rewrite Hrec. unfold import_string. rewrite import_string_parts_unfold. cbv zeta.
  rewrite Hname. rewrite Hsplit, rev_app_distr. simpl rev at 1. simpl app.
  destruct (rev prefix) as [|last_part rest] eqn:Hrev.
  { apply (f_equal (@rev string)) in Hrev. rewrite rev_involutive in Hrev. done. }
  rewrite <- Hrev, rev_involutive.
  unfold mbind at 1. unfold mtry at 1. unfold import_module, mbind at 1, emit, mlift.
  simpl. rewrite Hraise. rewrite Hrev.
  unfold mbind at 1. unfold mtry at 1. unfold dunder_import, mbind at 1, emit, mlift.
  simpl. rewrite Hraise'. rewrite <- app_assoc. reflexivity.
Qed.

Lemma import_string_recurses_witness :
  let X := mkExternals (fun _ => Ok PyNone) (fun _ => Ok 0%Z)
             (fun name => if String.eqb name "pkg" then Ok tt
                          else Raise (ImportError name))
             (fun name _ => Raise (ImportError name))
             (fun owner name => Some (Attr owner name))
             (fun _ => Ok PyNone) in
  import_string X "pkg.cli:main" DispatchExamples.start
  = (Ok (Attr (Attr (Module "pkg") "cli") "main"),
     mkWorld (w_environ DispatchExamples.start)
       [ImportModule "pkg.cli.main"; DunderImport "pkg.cli" "main";
        ImportModule "pkg.cli"; DunderImport "pkg" "cli"; ImportModule "pkg"]).
Proof.
  intros X.
  rewrite (import_string_recurses X "pkg.cli:main" ["pkg"; "cli"] "main"
             "pkg.cli.main" "pkg.cli" DispatchExamples.start);
    [|reflexivity|discriminate|reflexivity|reflexivity].
  vm_compute. reflexivity.
Defined.

(** ** The cache path resolver, beyond a configured root *)

(** X6: [is_dir_writeable] tests a path that exists itself; a path that
    does not exist is as writeable as its parent, and at the top of the
    path the test is made there whether it exists or not. *)
Theorem is_dir_writeable_climbs H path :
  (path_exists H path = true ->
     is_dir_writeable H path = Some (os_access_w H path))
  /\ (path_exists H path = false -> p_parts path <> [] ->
        is_dir_writeable H path = is_dir_writeable H (PathLib.parent path))
  /\ (p_parts path = [] -> is_dir_writeable H path = Some (os_access_w H path)).
Proof.
  unfold is_dir_writeable, extant_portion. split; [|split].
  - intros Hex. simpl. by rewrite Hex.
  - intros Hex Hne.
    replace (S (length (p_parts (PathLib.parent path)))) with (length (p_parts path)).
    + cbn [is_dir_writeable_loop]. rewrite Hex. simpl negb. cbv iota zeta.
      rewrite bool_decide_eq_false_2; [reflexivity|].
      intros Heq. by apply parent_fixed in Heq.
    + unfold PathLib.parent. cbn [p_parts]. rewrite removelast_length.
      destruct (p_parts path); [done|]. simpl. lia.
  - intros Hnil. destruct path as [r ps]. simpl in Hnil. subst ps. simpl.
    destruct (path_exists H _); [reflexivity|].
    simpl negb. cbv iota. by rewrite bool_decide_eq_true_2.
Qed.

Lemma is_dir_writeable_climbs_witness :
  is_dir_writeable Examples.linux_host (PathLib.parse "/var/cache/app.pyz/app.pyz_abc")
  = is_dir_writeable Examples.linux_host (PathLib.parse "/var/cache/app.pyz")
  /\ is_dir_writeable Examples.linux_host (PathLib.parse "/var/cache") = Some true
  /\ is_dir_writeable Examples.linux_host (PathLib.parse "/") = Some false.
Proof.
  split; [|split].
  - destruct (is_dir_writeable_climbs Examples.linux_host
                (PathLib.parse "/var/cache/app.pyz/app.pyz_abc")) as (_ & Hstep & _).
    apply Hstep; [reflexivity|discriminate].
  - destruct (is_dir_writeable_climbs Examples.linux_host
                (PathLib.parse "/var/cache")) as (Hself & _ & _).
    apply Hself. reflexivity.
  - destruct (is_dir_writeable_climbs Examples.linux_host
                (PathLib.parse "/")) as (_ & _ & Htop).
    apply Htop. reflexivity.
Defined.

Lemma is_relative_to_trans p q base :
  ancestor_or_self p q -> PathLib.is_relative_to p base = true ->
  PathLib.is_relative_to q base = true.
Proof.
  rewrite !is_relative_to_spec. intros [Hr Hp] [Hr' Hp'].
  split; [congruence|]. by etrans.
Qed.

(** X7: [is_system_path] and [system_root] answer on the same platforms,
    and what lies under a path that is not a system path is not a system
    path either. *)
Theorem is_system_path_inherited H p q :
  (is_system_path H p = None <-> system_root H = None)
  /\ (ancestor_or_self p q -> is_system_path H p = Some false ->
      is_system_path H q = Some false).
Proof.
  unfold is_system_path, system_root. split.
  - destruct (String.eqb (sys_platform H) "linux"); [split; discriminate|].
    destruct (String.eqb (sys_platform H) "darwin"); [split; discriminate|done].
  - intros Hanc.
    destruct (String.eqb (sys_platform H) "linux").
    + intros [= Hp]. f_equal. apply andb_false_iff in Hp as [Hp|Hp];
        apply negb_false_iff in Hp;
        rewrite (is_relative_to_trans _ _ _ Hanc Hp); simpl; [reflexivity|].
      apply andb_false_r.
    + destruct (String.eqb (sys_platform H) "darwin"); [|discriminate].
      intros [= Hp]. f_equal. apply negb_false_iff in Hp.
      by rewrite (is_relative_to_trans _ _ _ Hanc Hp).
Qed.

Lemma is_system_path_inherited_witness :
  is_system_path Examples.linux_host (PathLib.parse "/home/u/bin/app.pyz") = Some false.
Proof.
  apply (is_system_path_inherited Examples.linux_host (PathLib.parse "/home/u")).
  - split; [reflexivity|]. by exists ["bin"; "app.pyz"].
  - reflexivity.
Defined.

Lemma strip_blank s : blank s = true -> Str.strip s = "".
Proof.
  unfold Str.strip. induction s as [|c s IH]; [reflexivity|]. simpl.
  intros [Hc Hs]%andb_prop. rewrite Hc. by apply IH.
Qed.



Lemma cache_path_depth_shape depth H archive_path root_dir platform_compat build_id p :
  cache_path_depth depth H archive_path root_dir platform_compat build_id = Some (Ok p) ->
  exists root, p = root // cache_segment archive_path build_id.
Proof.
  destruct depth as [|depth]; [discriminate|].
  assert (forall r : Result (option Path),
    (root <- r ;;;
     root <- match root with
             | Some r => Ok r
             | None => (h <- path_home H ;;; Ok (h // ".shiv"))
             end ;;;
     Ok (root // (PathLib.name archive_path +:+ "_" +:+ build_id)))%result = Ok p ->
    exists root, p = root // cache_segment archive_path build_id) as Hfin.
  { intros [[r|]|e]; simpl; [intros [= <-]; eauto| |discriminate].
    destruct (path_home H); simpl; [intros [= <-]; eauto|discriminate]. }
  destruct root_dir as [[|c s]|].
  - cbn [cache_path_depth]. destruct platform_compat.
    + destruct (platform_cache_depth depth H archive_path build_id) as [r|];
        [|discriminate]. simpl fmap. intros [= Hr]. by apply (Hfin r).
    + intros [= Hr]. by apply (Hfin (Ok None)).
  - rewrite cache_path_depth_configured.
    destruct (configured_root H _); simpl; [intros [= <-]; eauto|discriminate].
  - cbn [cache_path_depth]. destruct platform_compat.
    + destruct (platform_cache_depth depth H archive_path build_id) as [r|];
        [|discriminate]. simpl fmap. intros [= Hr]. by apply (Hfin r).
    + intros [= Hr]. by apply (Hfin (Ok None)).
Qed.

Lemma cache_path_shape H archive_path root_dir platform_compat build_id p :
  PathLib.wf archive_path = true -> Str.split "/" build_id = [build_id] ->
  cache_path H archive_path root_dir platform_compat build_id = Ok p ->
  exists root,
    p = mkPath (p_root root) (p_parts root ++ [cache_segment archive_path build_id]).
Proof.
  intros Hwf Hb. unfold cache_path.
  destruct (cache_path_depth _ _ _ _ _ _) as [r|] eqn:Hd; [|discriminate].
  intros ->. apply cache_path_depth_shape in Hd as [root ->].
  exists root. apply joinpath_single, cache_segment_wf; assumption.
Qed.

(** X9: whichever way the root is found (configured, system-wide, per
    user or the dot directory under the home), the cache path that
    [cache_path] returns for an archive and a build id without a slash is
    one component below that root, and the component is
    [<archive name>_<build id>]. *)
Theorem cache_path_always_suffixed H archive_path root_dir platform_compat build_id p :
  PathLib.wf archive_path = true -> Str.split "/" build_id = [build_id] ->
  cache_path H archive_path root_dir platform_compat build_id = Ok p ->
  PathLib.name p = cache_segment archive_path build_id
  /\ PathLib.parent p // cache_segment archive_path build_id = p.
Proof.
  intros Hwf Hb Hp.
  destruct (cache_path_shape _ _ _ _ _ _ Hwf Hb Hp) as [root ->].
  split; [apply name_snoc|].
  rewrite (joinpath_single _ _ (cache_segment_wf _ _ Hwf Hb)).
  unfold PathLib.parent. simpl. by rewrite removelast_last.
Qed.

Lemma cache_path_always_suffixed_witness :
  PathLib.name (PathLib.parse "/var/cache/app.pyz/app.pyz_abc") = "app.pyz_abc".
Proof.
  apply (cache_path_always_suffixed Examples.linux_host Examples.app_pyz None true "abc");
    reflexivity.
Defined.

(** X10: two builds of one archive never share a cache directory, even
    when their roots are found in different ways. *)
Theorem cache_path_separates_builds H archive_path rd1 rd2 pc1 pc2 b1 b2 p1 p2 :
  PathLib.wf archive_path = true ->
  Str.split "/" b1 = [b1] -> Str.split "/" b2 = [b2] ->
  cache_path H archive_path rd1 pc1 b1 = Ok p1 ->
  cache_path H archive_path rd2 pc2 b2 = Ok p2 ->
  b1 <> b2 -> p1 <> p2.
Proof.
  intros Hwf Hb1 Hb2 Hp1 Hp2 Hne Heq.
  destruct (cache_path_shape _ _ _ _ _ _ Hwf Hb1 Hp1) as [r1 E1].
  destruct (cache_path_shape _ _ _ _ _ _ Hwf Hb2 Hp2) as [r2 E2].
  rewrite E1, E2 in Heq. apply (f_equal PathLib.name) in Heq.
  rewrite !name_snoc in Heq. unfold cache_segment in Heq.
  apply String.app_inj in Heq. apply (String.app_inj "_") in Heq. done.
Qed.

Lemma cache_path_separates_builds_witness :
  cache_path Examples.linux_host Examples.app_pyz None true "abc"
  = Ok (PathLib.parse "/var/cache/app.pyz/app.pyz_abc")
  /\ cache_path Examples.linux_host Examples.app_pyz (Some "/opt") false "abd"
     = Ok (PathLib.parse "/opt/app.pyz_abd")
  /\ PathLib.parse "/var/cache/app.pyz/app.pyz_abc" <> PathLib.parse "/opt/app.pyz_abd".
Proof.
  split; [reflexivity|]. split; [reflexivity|].
  apply (cache_path_separates_builds Examples.linux_host Examples.app_pyz
           None (Some "/opt") true false "abc" "abd"); try reflexivity.
  discriminate.
Defined.

Lemma platform_cache_depth_unknown depth H archive_path build_id :
  knows_user_root H = false ->
  platform_cache_depth (S depth) H archive_path build_id = Some (Ok None).
Proof.
  unfold knows_user_root. intros [[Hw Hl]%orb_false_elim Hd]%orb_false_elim.
  rewrite platform_cache_depth_unfold.
  unfold is_system_path, system_root, user_fallback, user_root.
  rewrite Hw, Hl, Hd. reflexivity.
Qed.

(** X11: without a configured root ([None] or the empty string),
    [cache_path] falls back to [~/.shiv/<archive name>_<build id>] when the
    platform fallback is off, and also when it is on but the platform is
    none of Linux, macOS and Windows. *)
Theorem cache_path_home_fallback H archive_path root_dir platform_compat build_id :
  root_dir = None \/ root_dir = Some "" ->
  platform_compat = false \/ knows_user_root H = false ->
  cache_path H archive_path root_dir platform_compat build_id
  = home_fallback H archive_path build_id.
Proof.
  intros Hroot Hpc. unfold cache_path, call_depth, home_fallback, cache_segment.
  assert (cache_path_depth 3 H archive_path root_dir platform_compat build_id
          = cache_path_depth 3 H archive_path None platform_compat build_id) as ->.
  { by destruct Hroot as [->| ->]. }
  destruct platform_compat.
  - destruct Hpc as [|Hu]; [done|]. cbn [cache_path_depth].
    rewrite (platform_cache_depth_unknown _ _ _ _ Hu). simpl.
    destruct (path_home H); reflexivity.
  - simpl. destruct (path_home H); reflexivity.
Qed.

Lemma cache_path_home_fallback_witness :
  cache_path Examples.linux_host Examples.app_pyz (Some "") false "abc"
  = Ok (PathLib.parse "/home/u/.shiv/app.pyz_abc").
Proof.
  rewrite (cache_path_home_fallback Examples.linux_host Examples.app_pyz (Some "")
             false "abc"); [reflexivity|by right|by left].
Defined.

Lemma user_root_known H :
  user_root H = Ok None <-> knows_user_root H = false.
Proof.
  unfold user_root, knows_user_root.
  destruct (String.eqb (sys_platform H) "win32").
  { simpl. destruct (expanduser H _); simpl; split; discriminate. }
  destruct (String.eqb (sys_platform H) "linux").
  { simpl. destruct (expanduser H _); simpl; split; discriminate. }
  destruct (String.eqb (sys_platform H) "darwin").
  { simpl. destruct (expanduser H _); simpl; split; discriminate. }
  done.
Qed.

Lemma platform_cache_cases H archive_path build_id :
  platform_cache H archive_path build_id = user_fallback H archive_path
  \/ exists base, system_root H = Some base
       /\ platform_cache H archive_path build_id
          = Ok (Some (base // PathLib.name archive_path)).
Proof.
  unfold platform_cache, call_depth. rewrite platform_cache_depth_unfold.
  destruct (truthy_opt (is_system_path H archive_path)); [|by left].
  destruct (system_root H) as [base|] eqn:Hbase; [|by left].
  cbv zeta. rewrite cache_path_depth_system by (eapply system_root_rooted; eauto).
  destruct (path_exists H _); [right; eauto|].
  destruct (extant_portion_spec H (system_cache base archive_path build_id))
    as (q & Hq & _).
  unfold is_dir_writeable. rewrite Hq. simpl.
  destruct (os_access_w H q); [right; eauto|by left].
Qed.

(** X12: the root that [platform_cache] proposes is the system-wide or
    the per-user base followed by the archive's file name, and it proposes
    none only on a platform other than Linux, macOS and Windows. *)
Theorem platform_cache_named_after_archive H archive_path build_id :
  (forall r, platform_cache H archive_path build_id = Ok (Some r) ->
     exists base, r = base // PathLib.name archive_path
       /\ (system_root H = Some base \/ user_root H = Ok (Some base)))
  /\ (platform_cache H archive_path build_id = Ok None <-> knows_user_root H = false).
Proof.
  split.
  - intros r. destruct (platform_cache_cases H archive_path build_id)
      as [-> | (base & Hbase & ->)].
    + unfold user_fallback. destruct (user_root H) as [[u|]|e]; simpl; try discriminate.
      intros [= <-]. eauto.
    + intros [= <-]. eauto.
  - split.
    + destruct (platform_cache_cases H archive_path build_id)
        as [-> | (base & Hbase & ->)]; [|discriminate].
      unfold user_fallback. intros Hu. apply user_root_known.
      destruct (user_root H) as [[u|]|e]; simpl in Hu; try discriminate. reflexivity.
    + intros Hu. unfold platform_cache, call_depth.
      by rewrite (platform_cache_depth_unknown _ _ _ _ Hu).
Qed.

Lemma platform_cache_named_after_archive_witness :
  exists base,
    PathLib.parse "/var/cache/app.pyz" = base // PathLib.name Examples.app_pyz
    /\ (system_root Examples.linux_host = Some base
        \/ user_root Examples.linux_host = Ok (Some base)).
Proof.
  destruct (platform_cache_named_after_archive Examples.linux_host Examples.app_pyz "abc")
    as [Hnamed _].
  apply Hnamed. reflexivity.
Defined.

(** ** The extractor, when it does extract *)


Section FinalDisk.

Variable compile_outcome : FS -> Path -> Z -> bool * list (list string).

Lemma extract_members_fs archive tmp d d' :
  extract_members archive tmp d = (Ok tt, d') ->
  forall q, q ∈ d_fs d \/ (exists fileinfo, fileinfo ∈ namespace_members archive
                             /\ q = extracted_to tmp fileinfo) -> q ∈ d_fs d'.
Proof.
  revert d. induction archive as [|fileinfo rest IH]; intros d.
  - intros [= <-] q [Hq|(f & Hf & _)]; [exact Hq|]. by apply not_elem_of_nil in Hf.
  - cbn [extract_members namespace_members List.filter].
    fold (namespace_members rest).
    destruct (Str.startswith "site-packages" (filename fileinfo)).
    + unfold mbind at 1. unfold mbind at 1. unfold zip_extract, did, mbind, mret.
      cbn [fst snd d_fs d_ops]. intros Hrun q Hq. eapply IH; [exact Hrun|].
      cbn [d_fs]. destruct Hq as [Hq|(f & [->|Hf]%elem_of_cons & ->)].
      * left. by right.
      * left. by left.
      * right. eauto.
    + unfold mbind at 1. unfold mret at 1. apply IH.
Qed.

Lemma compile_dir_fs dir workers d success d' :
  compile_dir compile_outcome dir workers d = (Ok success, d') ->
  forall q, q ∈ d_fs d -> q ∈ d_fs d'.
Proof.
  unfold compile_dir. destruct (workers <? 0)%Z; [discriminate|].
  destruct (compile_outcome (d_fs d) dir workers) as [s written].
  intros [= _ <-] q Hq. simpl. apply elem_of_app. by right.
Qed.

(** The disk a run that extracts ends on: the temporary directory renamed
    to the target, with everything the loop extracted and everything that
    lay in the temporary directory before. *)
Lemma extract_site_packages_final archive target_path compile_pyc compile_workers
    force d d' :
  PathLib.wf target_path = true -> p_parts target_path <> [] ->
  fs_exists (d_fs d) target_path = false \/ force = true ->
  extract_site_packages compile_outcome archive target_path
    compile_pyc compile_workers force d = (Ok tt, d') ->
  exists fs1,
    d_fs d' = fs_rename (tmp_of target_path) target_path fs1
    /\ forall q, ancestor_or_self (tmp_of target_path) q ->
         q ∈ d_fs d \/ (exists fileinfo, fileinfo ∈ namespace_members archive
                          /\ q = extracted_to (tmp_of target_path) fileinfo) ->
         q ∈ fs1.
Proof.
  intros Hwf Hne Hwork. unfold extract_site_packages.
  fold (tmp_of target_path). fold (lock_of target_path).
  intros (u0 & d0 & Hmk & Hlock)%mbind_ok. revert Hlock.
  assert (Hd0 : forall q, q ∈ d_fs d -> q ∈ d_fs d0).
  { destruct (negb (fs_exists (d_fs d) (PathLib.parent target_path))).
    - unfold mkdir_parents, did in Hmk. injection Hmk as _ <-. intros q Hq. by right.
    - unfold mret in Hmk. by injection Hmk as _ <-. }
  assert (Hex0 : fs_exists (d_fs d) target_path = false ->
                 fs_exists (d_fs d0) target_path = false).
  { destruct (negb (fs_exists (d_fs d) (PathLib.parent target_path))).
    - unfold mkdir_parents, did in Hmk. injection Hmk as _ <-. intros Hex.
      unfold fs_exists. simpl. rewrite (parent_not_under _ Hne). exact Hex.
    - unfold mret in Hmk. by injection Hmk as _ <-. }
  unfold with_FileLock.
  set (d1 := mkDisk (d_fs d0) (d_ops d0 ++ [LockAcquire _])).
  assert (negb (fs_exists (d_fs d1) target_path) || force = true) as ->.
  { destruct Hwork as [Hex| ->]; [|apply orb_true_r].
    simpl. by rewrite (Hex0 Hex). }
  destruct (mbind _ _ d1) as [r d2] eqn:Hbody. intros [= -> <-]. simpl.
  apply mbind_ok in Hbody as (ua & da & Hloop & Hbody).
  apply mbind_ok in Hbody as (ub & db & Hcomp & Hbody).
  apply mbind_ok in Hbody as (uc & dc & Hrm & Hmove).
  destruct ua, ub, uc.
  assert (Hdb : forall q, q ∈ d_fs da -> q ∈ d_fs db).
  { destruct compile_pyc.
    - apply mbind_ok in Hcomp as (s & ds & Hcomp & Hret).
      unfold mret in Hret. injection Hret as <-. by eapply compile_dir_fs.
    - unfold mret in Hcomp. by injection Hcomp as <-. }
  assert (Hdc : fs_exists (d_fs dc) target_path = false
                /\ forall q, ancestor_or_self (tmp_of target_path) q ->
                     q ∈ d_fs db -> q ∈ d_fs dc).
  { destruct (fs_exists (d_fs db) target_path) eqn:Hex.
    - unfold shutil_rmtree, did in Hrm. injection Hrm as <-. simpl. split.
      + by apply fs_rmtree_gone.
      + intros q Hanc Hq. unfold fs_rmtree. right.
        apply list_elem_of_In, filter_In. split; [by apply list_elem_of_In|].
        apply negb_true_iff, not_true_is_false. rewrite is_relative_to_spec.
        by apply tmp_not_under_target.
    - unfold mret in Hrm. injection Hrm as <-. by split. }
  destruct Hdc as [Hgone Hdc].
  unfold shutil_move in Hmove. rewrite Hgone in Hmove.
  destruct (fs_exists (d_fs dc) (tmp_of target_path)); simpl in Hmove; [|discriminate].
  injection Hmove as <-. simpl. exists (d_fs dc). split; [reflexivity|].
  intros q Hanc Hq. apply Hdc; [exact Hanc|]. apply Hdb.
  eapply extract_members_fs; [exact Hloop|].
  destruct Hq as [Hq|Hq]; [left|by right]. simpl. by apply Hd0.
Qed.

Lemma fs_rename_moved src dst fs q :
  q ∈ fs -> ancestor_or_self src q ->
  fs_exists (fs_rename src dst fs)
    (mkPath (p_root dst) (p_parts dst ++ drop (length (p_parts src)) (p_parts q))) = true.
Proof.
  intros Hq Hanc. apply fs_exists_spec.
  exists (rebase src dst q). split.
  - unfold fs_rename. right. apply list_elem_of_fmap. by exists q.
  - unfold rebase. rewrite (proj2 (is_relative_to_spec q src) Hanc).
    split; reflexivity.
Qed.

Lemma fs_rename_tmp_gone target_path fs :
  PathLib.wf target_path = true -> p_parts target_path <> [] ->
  fs_exists (fs_rename (tmp_of target_path) target_path fs) (tmp_of target_path) = false.
Proof.
  intros Hwf Hne. apply not_true_is_false. rewrite fs_exists_spec.
  intros (q & Hq & Hanc). unfold fs_rename in Hq.
  apply elem_of_cons in Hq as [->|Hq].
  - apply is_relative_to_spec in Hanc. rewrite parent_not_under in Hanc; [done|].
    rewrite tmp_of_parts by assumption. simpl. by destruct (removelast _).
  - apply list_elem_of_fmap in Hq as (q0 & -> & Hq0). unfold rebase in Hanc.
    destruct (PathLib.is_relative_to q0 (tmp_of target_path)) eqn:Hrel.
    + eapply tmp_not_under_target; [exact Hwf|exact Hne|exact Hanc|].
      split; [reflexivity|]. simpl. by apply prefix_app_r.
    + apply is_relative_to_spec in Hanc. congruence.
Qed.

End FinalDisk.

(** X14: after a run of [extract_site_packages] that extracts (the target
    is missing, or [force] is set) and returns, every member of the archive
    whose name starts with [site-packages] lies under the target, and the
    temporary directory is gone. *)
Theorem extract_site_packages_moves_members compile_outcome archive target_path
    compile_pyc compile_workers force d d' :
  PathLib.wf target_path = true -> p_parts target_path <> [] ->
  fs_exists (d_fs d) target_path = false \/ force = true ->
  extract_site_packages compile_outcome archive target_path
    compile_pyc compile_workers force d = (Ok tt, d') ->
  (forall fileinfo, fileinfo ∈ namespace_members archive ->
     fs_exists (d_fs d') (extracted_to target_path fileinfo) = true)
  /\ fs_exists (d_fs d') (tmp_of target_path) = false.
Proof.
  intros Hwf Hne Hwork Hrun.
  destruct (extract_site_packages_final _ _ _ _ _ _ _ _ Hwf Hne Hwork Hrun)
    as (fs1 & -> & Hfs1).
  split; [|by apply fs_rename_tmp_gone].
  intros fileinfo Hin.
  assert (Hanc : ancestor_or_self (tmp_of target_path)
                   (extracted_to (tmp_of target_path) fileinfo)).
  { split; [reflexivity|]. simpl. by apply prefix_app_r. }
  pose proof (fs_rename_moved (tmp_of target_path) target_path fs1 _
                (Hfs1 _ Hanc (or_intror (ex_intro _ fileinfo (conj Hin eq_refl)))) Hanc)
    as Hmoved.
  unfold extracted_to in Hmoved at 1. cbn [p_parts] in Hmoved.
  by rewrite drop_app_length in Hmoved.
Qed.

Lemma extract_site_packages_moves_members_witness :
  fs_exists
    (d_fs (extract_site_packages ExtractExamples.failing_compile ExtractExamples.archive
             ExtractExamples.target_path true 4 false (mkDisk [] [])).2)
    (PathLib.parse "/home/u/.shiv/app.pyz_abc/site-packages/pkg/a.py") = true.
Proof.
  destruct (extract_site_packages_moves_members ExtractExamples.failing_compile
              ExtractExamples.archive ExtractExamples.target_path true 4%Z false
              (mkDisk [] [])
              (extract_site_packages ExtractExamples.failing_compile
                 ExtractExamples.archive ExtractExamples.target_path true 4 false
                 (mkDisk [] [])).2) as [Hmembers _];
    [reflexivity|discriminate|by left|reflexivity|].
  apply (Hmembers (mkZipInfo "site-packages/pkg/a.py" (Z.shiftl 33188 16))).
  vm_compute. by left.
Defined.

(** X15: the temporary directory is not emptied before the extraction:
    whatever lay in it when the run began (the rest of an interrupted run,
    say) is published under the target together with the members. *)
Theorem extract_site_packages_publishes_leftovers compile_outcome archive target_path
    compile_pyc compile_workers force d d' q :
  PathLib.wf target_path = true -> p_parts target_path <> [] ->
  fs_exists (d_fs d) target_path = false \/ force = true ->
  extract_site_packages compile_outcome archive target_path
    compile_pyc compile_workers force d = (Ok tt, d') ->
  q ∈ d_fs d -> ancestor_or_self (tmp_of target_path) q ->
  fs_exists (d_fs d') (rebase (tmp_of target_path) target_path q) = true.
Proof.
  intros Hwf Hne Hwork Hrun Hq Hanc.
  destruct (extract_site_packages_final _ _ _ _ _ _ _ _ Hwf Hne Hwork Hrun)
    as (fs1 & -> & Hfs1).
  unfold rebase. rewrite (proj2 (is_relative_to_spec _ _) Hanc).
  apply fs_rename_moved; [|exact Hanc]. apply Hfs1; [exact Hanc|by left].
Qed.

Lemma extract_site_packages_publishes_leftovers_witness :
  fs_exists
    (d_fs (extract_site_packages ExtractExamples.failing_compile ExtractExamples.archive
             ExtractExamples.target_path false 0 false
             (mkDisk [PathLib.parse "/home/u/.shiv/app.pyz_abc.tmp/site-packages/old.py"]
                [])).2)
    (PathLib.parse "/home/u/.shiv/app.pyz_abc/site-packages/old.py") = true.
Proof.
  apply (extract_site_packages_publishes_leftovers ExtractExamples.failing_compile
           ExtractExamples.archive ExtractExamples.target_path false 0%Z false
           (mkDisk [PathLib.parse "/home/u/.shiv/app.pyz_abc.tmp/site-packages/old.py"] [])
           _ (PathLib.parse "/home/u/.shiv/app.pyz_abc.tmp/site-packages/old.py"));
    [reflexivity|discriminate|by left|reflexivity|by left|].
  split; [reflexivity|]. by exists ["site-packages"; "old.py"].
Defined.

Lemma extract_members_none archive tmp d :
  namespace_members archive = [] -> extract_members archive tmp d = (Ok tt, d).
Proof.
  induction archive as [|fileinfo rest IH]; [reflexivity|].
  cbn [extract_members namespace_members List.filter]. fold (namespace_members rest).
  destruct (Str.startswith "site-packages" (filename fileinfo)); [discriminate|].
  intros Hrest. unfold mbind at 1. unfold mret at 1. by apply IH.
Qed.

Lemma parent_tmp_of target_path :
  PathLib.wf target_path = true -> p_parts target_path <> [] ->
  PathLib.parent (tmp_of target_path) = PathLib.parent target_path.
Proof.
  intros Hwf Hne. rewrite tmp_of_parts by assumption.
  unfold PathLib.parent. simpl. by rewrite removelast_last.
Qed.

(** X16: a forced extraction from an archive without a [site-packages]
    member, no temporary directory being there, removes the target that
    was in place and then fails in the move: the cache is lost. *)
Theorem extract_site_packages_force_empty compile_outcome archive target_path
    compile_workers d :
  PathLib.wf target_path = true -> p_parts target_path <> [] ->
  namespace_members archive = [] ->
  fs_exists (d_fs d) target_path = true ->
  fs_exists (d_fs d) (tmp_of target_path) = false ->
  exists d',
    extract_site_packages compile_outcome archive target_path false compile_workers true d
    = (Raise (FileNotFoundError (PathLib.to_str (tmp_of target_path))), d')
    /\ fs_exists (d_fs d') target_path = false
    /\ d_ops d' = d_ops d ++ [LockAcquire (lock_of target_path); Rmtree target_path;
                              Move (tmp_of target_path) target_path;
                              LockRelease (lock_of target_path)].
Proof.
  intros Hwf Hne Hnone Hex Htmp. unfold extract_site_packages.
  fold (tmp_of target_path). fold (lock_of target_path).
  unfold mbind at 1. rewrite (fs_exists_parent _ _ Hex).
  change (negb true) with false. cbv iota beta.
  unfold mret at 1. cbv iota beta.
  unfold with_FileLock. cbn [d_fs d_ops]. rewrite Hex.
  change (negb true || true) with true. cbv iota.
  unfold mbind at 1. rewrite (extract_members_none _ _ _ Hnone). cbv iota beta.
  unfold mbind at 1. unfold mret at 1. cbv iota beta.
  unfold mbind at 1. cbn [d_fs]. rewrite Hex.
  unfold shutil_rmtree, did. cbn [d_fs d_ops].
  unfold shutil_move. cbn [d_fs d_ops].
  assert (fs_exists (fs_rmtree target_path (d_fs d)) (tmp_of target_path) = false) as ->.
  { apply not_true_is_false. rewrite fs_exists_spec. intros (q & Hq & Hanc).
    unfold fs_rmtree in Hq. apply elem_of_cons in Hq as [->|Hq].
    - rewrite <- (parent_tmp_of _ Hwf Hne) in Hanc.
      apply is_relative_to_spec in Hanc. rewrite parent_not_under in Hanc; [done|].
      rewrite tmp_of_parts by assumption. simpl. by destruct (removelast _).
    - apply list_elem_of_In, filter_In in Hq as [Hq _].
      apply not_true_iff_false in Htmp. apply Htmp, fs_exists_spec.
      exists q. split; [by apply list_elem_of_In|exact Hanc]. }
  simpl negb. cbv iota. eexists. split; [reflexivity|]. cbn [d_fs d_ops]. split.
  - by apply fs_rmtree_gone.
  - by rewrite <- !app_assoc.
Qed.

Lemma extract_site_packages_force_empty_witness :
  exists d',
    extract_site_packages ExtractExamples.failing_compile
      [mkZipInfo "environment.json" 0] ExtractExamples.target_path false 0 true
      (mkDisk [ExtractExamples.target_path // "site-packages"] [])
    = (Raise (FileNotFoundError "/home/u/.shiv/app.pyz_abc.tmp"), d')
    /\ fs_exists (d_fs d') ExtractExamples.target_path = false.
Proof.
  destruct (extract_site_packages_force_empty ExtractExamples.failing_compile
              [mkZipInfo "environment.json" 0] ExtractExamples.target_path 0%Z
              (mkDisk [ExtractExamples.target_path // "site-packages"] []))
    as (d' & Hrun & Hgone & _); [reflexivity|discriminate|reflexivity..|].
  exists d'. split; [exact Hrun|exact Hgone].
Defined.

Lemma wf_part_lock (name : string) :
  PathLib.wf_part name = true -> PathLib.wf_part ("." +:+ name +:+ "_lock") = true.
Proof.
  unfold PathLib.wf_part. intros [Hk Hs%bool_decide_eq_true]%andb_prop.
  apply andb_true_intro. split.
  - unfold PathLib.keep_part in *. destruct name as [|c n]; simpl in *;
      [discriminate|reflexivity].
  - apply bool_decide_eq_true.
    apply (split_single_app "/" "." (name +:+ "_lock")); [reflexivity|].
    apply split_single_app; [exact Hs|reflexivity].
Qed.

Lemma lock_of_parts (target_path : Path) :
  PathLib.wf target_path = true -> p_parts target_path <> [] ->
  lock_of target_path
  = mkPath (p_root target_path)
      (removelast (p_parts target_path) ++ ["." +:+ PathLib.name target_path +:+ "_lock"]).
Proof.
  intros Hwf Hne. unfold lock_of.
  rewrite joinpath_single; [reflexivity|].
  apply wf_part_lock. by apply wf_last_part.
Qed.

Lemma sibling_not_under r ps x y rest :
  String.length x <> String.length y ->
  ~ ancestor_or_self (mkPath r (ps ++ [x])) (mkPath r (ps ++ y :: rest)).
Proof.
  intros Hlen [_ [k Hk]]. simpl in Hk. rewrite <- app_assoc in Hk.
  apply app_inv_head in Hk. simpl in Hk. injection Hk as Hxy _.
  by rewrite Hxy in Hlen.
Qed.

(** X17: the target, its temporary directory and its lock file are three
    different entries of one directory, and the lock file lies neither in
    the target nor in the temporary directory, so that removing the one
    and renaming the other leaves it alone. *)
Theorem extraction_paths_apart (target_path : Path) :
  PathLib.wf target_path = true -> p_parts target_path <> [] ->
  PathLib.parent (tmp_of target_path) = PathLib.parent target_path
  /\ PathLib.parent (lock_of target_path) = PathLib.parent target_path
  /\ PathLib.name (tmp_of target_path) = PathLib.name target_path +:+ ".tmp"
  /\ PathLib.name (lock_of target_path) = "." +:+ PathLib.name target_path +:+ "_lock"
  /\ ~ ancestor_or_self target_path (lock_of target_path)
  /\ ~ ancestor_or_self (tmp_of target_path) (lock_of target_path)
  /\ ~ ancestor_or_self target_path (tmp_of target_path)
  /\ ~ ancestor_or_self (tmp_of target_path) target_path.
Proof.
  intros Hwf Hne.
  rewrite (lock_of_parts _ Hwf Hne), (tmp_of_parts _ Hwf Hne).
  destruct target_path as [r parts]. cbn [p_root p_parts] in *.
  destruct parts as [|n ps _] using rev_ind; [done|].
  unfold PathLib.parent. cbn [p_root p_parts].
  rewrite !name_snoc, !removelast_last.
  split; [reflexivity|]. split; [reflexivity|]. split; [reflexivity|].
  split; [reflexivity|].
  split; [|split; [|split]]; apply sibling_not_under;
    rewrite !string_length_append; cbn [String.length]; lia.
Qed.

Lemma extraction_paths_apart_witness :
  PathLib.name (lock_of ExtractExamples.target_path) = ".app.pyz_abc_lock"
  /\ ~ ancestor_or_self ExtractExamples.target_path (lock_of ExtractExamples.target_path).
Proof.
  destruct (extraction_paths_apart ExtractExamples.target_path)
    as (_ & _ & _ & Hname & Hout & _); [reflexivity|discriminate|].
  split; [exact Hname|exact Hout].
Defined.

(** ** The integrity verifier, on a tree that is written to *)

Section VerifierWrites.

Variable sha256_hexdigest : bytes -> string.
Variable site_packages : Path.
Variable hashes : gmap string string.

Local Abbreviation loop := (ensure_no_modify_loop sha256_hexdigest site_packages hashes).

Lemma rglob_py_written (tree : Tree) rel content :
  rglob_py (write_bytes tree rel content) = written rel content <$> rglob_py tree.
Proof.
  unfold rglob_py, write_bytes. fold (written rel content).
  induction tree as [|[rel' node] tree IH]; [reflexivity|].
  rewrite fmap_cons. cbn [List.filter]. rewrite IH.
  assert ((written rel content (rel', node)).1 = rel') as ->.
  { unfold written. simpl. destruct node; [|reflexivity]. by destruct (decide _). }
  cbn [fst]. destruct (fnmatch_py (rel_name rel')); reflexivity.
Qed.

Lemma loop_passes_cons e rest :
  (loop (e :: rest)).1 = Ok tt ->
  exists content, e.2 = RegularFile content
    /\ hashes !! rel_str e.1 = Some (sha256_hexdigest content)
    /\ (loop rest).1 = Ok tt
    /\ (loop (e :: rest)).2 = e.1 :: (loop rest).2.
Proof.
  cbn [ensure_no_modify_loop]. unfold read_bytes.
  destruct e as [rel [content|]]; cbn [fst snd]; [|discriminate].
  unfold hash_differs.
  destruct (bool_decide_reflect (hashes !! rel_str rel = Some (sha256_hexdigest content)))
    as [Hh|Hh]; simpl negb; cbv iota; [|discriminate].
  rewrite loop_step_fst, loop_step_snd. intros Hrest. by exists content.
Qed.

Lemma loop_passes_recorded paths rel old :
  (loop paths).1 = Ok tt -> (rel, RegularFile old) ∈ paths ->
  hashes !! rel_str rel = Some (sha256_hexdigest old).
Proof.
  induction paths as [|e rest IH]; intros Hpass Hin; [by apply not_elem_of_nil in Hin|].
  destruct (loop_passes_cons _ _ Hpass) as (c & Hfile & Hhash & Hrest & _).
  apply elem_of_cons in Hin as [<-|Hin].
  - simpl in *. by injection Hfile as ->.
  - by apply IH.
Qed.

Lemma loop_detects_write paths rel old content :
  (loop paths).1 = Ok tt ->
  (rel, RegularFile old) ∈ paths ->
  sha256_hexdigest content <> sha256_hexdigest old ->
  (loop (written rel content <$> paths)).1
  = Raise (RuntimeError (modified_message site_packages rel)).
Proof.
  intros Hpass Hin Hsha.
  pose proof (loop_passes_recorded _ _ _ Hpass Hin) as Hrec.
  induction paths as [|e rest IH]; [by apply not_elem_of_nil in Hin|].
  destruct (loop_passes_cons _ _ Hpass) as (c & Hfile & Hhash & Hrest & _).
  rewrite fmap_cons. destruct e as [rel' node]. simpl in Hfile. subst node.
  unfold written at 1. cbn [fst snd].
  destruct (decide (rel' = rel)) as [->|Hne].
  - cbn [ensure_no_modify_loop]. unfold read_bytes. cbn [fst snd].
    unfold hash_differs. rewrite Hrec.
    rewrite bool_decide_eq_false_2 by congruence. reflexivity.
  - cbn [ensure_no_modify_loop]. unfold read_bytes. cbn [fst snd].
    unfold hash_differs. simpl in Hhash. rewrite Hhash.
    rewrite bool_decide_eq_true_2 by reflexivity. simpl negb. cbv iota.
    rewrite loop_step_fst. apply IH; [exact Hrest|].
    apply elem_of_cons in Hin as [Heq|Hin]; [|exact Hin]. congruence.
Qed.

Lemma loop_passes_reads paths :
  (loop paths).1 = Ok tt ->
  (loop paths).2 = paths.*1 /\ forall e, e ∈ paths -> exists content, e.2 = RegularFile content.
Proof.
  induction paths as [|e rest IH]; intros Hpass.
  - split; [reflexivity|]. intros e He. by apply not_elem_of_nil in He.
  - destruct (loop_passes_cons _ _ Hpass) as (c & Hfile & _ & Hrest & Hreads).
    destruct (IH Hrest) as [IHreads IHfiles]. split.
    + rewrite Hreads, IHreads. reflexivity.
    + intros e' [->|He']%elem_of_cons; [eauto|by apply IHfiles].
Qed.

End VerifierWrites.



(** X19: the verifier passes only a tree in which every path that [*.py]
    matches is a file, a directory of such a name being enough to stop it;
    and when it passes it has read each of these files, once, in the order
    of the walk. *)
Theorem ensure_no_modify_pass_reads_all sha256_hexdigest site_packages hashes
    (tree : Tree) :
  (ensure_no_modify sha256_hexdigest site_packages hashes tree).1 = Ok tt ->
  sources_are_files tree
  /\ (ensure_no_modify sha256_hexdigest site_packages hashes tree).2
     = (rglob_py tree).*1.
Proof.
  unfold ensure_no_modify, sources_are_files. intros Hpass.
  destruct (loop_passes_reads _ _ _ _ Hpass) as [Hreads Hfiles]. by split.
Qed.

Lemma ensure_no_modify_pass_reads_all_witness :
  (ensure_no_modify VerifierExamples.digest VerifierExamples.root
     {[ "pkg/a.py" := "x = 1"; "pkg/b.py" := "y = 2"; "pkg/c.py" := "z = 3" ]}
     VerifierExamples.tree).2
  = [["pkg"; "a.py"]; ["pkg"; "b.py"]; ["pkg"; "c.py"]].
Proof.
  apply (ensure_no_modify_pass_reads_all VerifierExamples.digest VerifierExamples.root
           {[ "pkg/a.py" := "x = 1"; "pkg/b.py" := "y = 2"; "pkg/c.py" := "z = 3" ]}
           VerifierExamples.tree).
  vm_compute. reflexivity.
Defined.

(** ** The search path and its export *)

Lemma int_or_index_bound sys_path :
  int_or (get_first_sitedir_index sys_path) (length sys_path) <= length sys_path.
Proof.
  destruct (get_first_sitedir_index sys_path) as [[|k]|] eqn:Hk; simpl; try lia.
  apply get_first_sitedir_index_from_bounds in Hk. lia.
Qed.

Lemma bootstrap_sys_path_layout appended sys_path :
  (bootstrap_sys_path appended sys_path).1
  = spliced_at (int_or (get_first_sitedir_index sys_path) (length sys_path))
      appended sys_path.
Proof.
  unfold bootstrap_sys_path. cbn [fst].
  apply reorder_spliced, int_or_index_bound.
Qed.

Lemma filter_none {A} (P : A -> Prop) `{forall y, Decision (P y)} (l : list A) :
  (forall y, y ∈ l -> ~ P y) -> filter P l = [].
Proof.
  induction l as [|y l IH]; intros Hall; [reflexivity|].
  rewrite filter_cons_False by (apply Hall; left).
  apply IH. intros z Hz. apply Hall. by right.
Qed.

Lemma bootstrap_sys_path_new_paths appended sys_path :
  (bootstrap_sys_path appended sys_path).2 = filter (fun p => p ∉ sys_path) appended.
Proof.
  assert (Hnew : (bootstrap_sys_path appended sys_path).2
                 = filter (fun p => p ∉ sys_path)
                     (bootstrap_sys_path appended sys_path).1) by reflexivity.
  rewrite Hnew, bootstrap_sys_path_layout. unfold spliced_at.
  set (k := int_or _ _). rewrite !filter_app.
  rewrite (filter_none _ (take k sys_path)), (filter_none _ (drop k sys_path)).
  - by rewrite app_nil_r.
  - intros y Hy Hn. apply Hn. rewrite <- (take_drop k sys_path), elem_of_app. by right.
  - intros y Hy Hn. apply Hn. rewrite <- (take_drop k sys_path), elem_of_app. by left.
Qed.

(** X20: whatever the search path and the registered entries, the
    reordering loses and repeats nothing, keeps the old entries in their
    order and the registered entries in theirs, and [new_paths] is the
    registered entries that were not on the path before, in their order. *)
Theorem bootstrap_sys_path_keeps_entries appended sys_path :
  (bootstrap_sys_path appended sys_path).1 ≡ₚ (sys_path ++ appended)%list
  /\ sys_path `sublist_of` (bootstrap_sys_path appended sys_path).1
  /\ appended `sublist_of` (bootstrap_sys_path appended sys_path).1
  /\ (bootstrap_sys_path appended sys_path).2 = filter (fun p => p ∉ sys_path) appended.
Proof.
  rewrite bootstrap_sys_path_new_paths, bootstrap_sys_path_layout. unfold spliced_at.
  set (k := int_or _ _).
  split; [|split; [|split]]; [| | |reflexivity].
  - rewrite <- (take_drop k sys_path) at 3.
    rewrite <- !app_assoc. apply Permutation_app_head, Permutation_app_comm.
  - rewrite <- (take_drop k sys_path) at 1.
    apply sublist_app; [reflexivity|]. by apply sublist_inserts_l.
  - apply sublist_inserts_l, sublist_inserts_r. reflexivity.
Qed.

Lemma get_first_sitedir_index_from_intro sys_path index k p :
  sys_path !! k = Some p -> is_sitedir p = true ->
  (forall j q, j < k -> sys_path !! j = Some q -> is_sitedir q = false) ->
  get_first_sitedir_index_from index sys_path = Some (index + k).
Proof.
  revert index k. induction sys_path as [|part rest IH]; intros index k Hk Hp Hfirst.
  - by rewrite lookup_nil in Hk.
  - simpl. destruct k as [|k].
    + simpl in Hk. injection Hk as ->. rewrite Hp. f_equal. lia.
    + rewrite (Hfirst 0 part) by (lia || reflexivity).
      rewrite (IH (S index) k); [f_equal; lia|exact Hk|exact Hp|].
      intros j q Hj Hq. apply (Hfirst (S j)); [lia|exact Hq].
Qed.

Lemma get_first_sitedir_index_from_none sys_path index :
  (forall q, q ∈ sys_path -> is_sitedir q = false) ->
  get_first_sitedir_index_from index sys_path = None.
Proof.
  revert index. induction sys_path as [|part rest IH]; intros index Hall; [reflexivity|].
  simpl. rewrite (Hall part) by left. apply IH. intros q Hq. apply Hall. by right.
Qed.

(** X21: where the registered entries land. With the first entry named
    like a dependency directory at a position other than 0, they are put
    right before it; with that entry at position 0, or with no such entry,
    they stay at the end of the path. *)
Theorem bootstrap_sys_path_position appended sys_path :
  (forall k p,
     sys_path !! k = Some p -> is_sitedir p = true ->
     (forall j q, j < k -> sys_path !! j = Some q -> is_sitedir q = false) ->
     (bootstrap_sys_path appended sys_path).1
     = match k with
       | O => (sys_path ++ appended)%list
       | S _ => (take k sys_path ++ appended ++ drop k sys_path)%list
       end)
  /\ ((forall q, q ∈ sys_path -> is_sitedir q = false) ->
      (bootstrap_sys_path appended sys_path).1 = (sys_path ++ appended)%list).
Proof.
  split.
  - intros k p Hk Hp Hfirst. rewrite bootstrap_sys_path_layout.
    unfold get_first_sitedir_index.
    rewrite (get_first_sitedir_index_from_intro _ 0 k p Hk Hp Hfirst).
    destruct k as [|k]; simpl int_or; [|reflexivity].
    unfold spliced_at. by rewrite firstn_all, drop_all, app_nil_r.
  - intros Hall. rewrite bootstrap_sys_path_layout. unfold get_first_sitedir_index.
    rewrite (get_first_sitedir_index_from_none _ 0 Hall). simpl int_or.
    unfold spliced_at. by rewrite firstn_all, drop_all, app_nil_r.
Qed.

Lemma bootstrap_sys_path_position_witness :
  (bootstrap_sys_path ["/cache/app.pyz_abc/site-packages"]
     ["/usr/lib/python3.11"; "/usr/lib/python3/dist-packages"; "/opt/lib"]).1
  = ["/usr/lib/python3.11"; "/cache/app.pyz_abc/site-packages";
     "/usr/lib/python3/dist-packages"; "/opt/lib"].
Proof.
  destruct (bootstrap_sys_path_position ["/cache/app.pyz_abc/site-packages"]
              ["/usr/lib/python3.11"; "/usr/lib/python3/dist-packages"; "/opt/lib"])
    as [Hat _].
  apply (Hat 1 "/usr/lib/python3/dist-packages"); [reflexivity|reflexivity|].
  intros [|j] q Hj; [|lia]. by intros [= <-].
Defined.

Lemma extend_python_path_run pathsep (environ : gmap string string) additional_paths :
  extend_python_path pathsep environ additional_paths
  = Ok (<["PYTHONPATH" :=
            Str.join (String pathsep "")
              (dedup_first (python_path_entries pathsep environ ++ additional_paths))]>
          environ).
Proof.
  unfold extend_python_path. fold (python_path_entries pathsep environ).
  rewrite py_sorted_by_index; [reflexivity| |].
  - unfold py_set. apply NoDup_elements.
  - intros x. unfold py_set. rewrite elem_of_elements. apply elem_of_list_to_set.
Qed.

Lemma dedup_first_NoDup {A} `{EqDecision A} (l : list A) : NoDup l -> dedup_first l = l.
Proof.
  induction l as [|x l IH]; [reflexivity|]. intros [Hx Hl]%NoDup_cons. simpl.
  rewrite IH by exact Hl. f_equal. apply filter_all. intros y Hy ->. done.
Qed.

(** X22: exporting the same entries a second time changes nothing,
    provided none of them holds the path separator (one that did would be
    read back as several entries). *)
Theorem extend_python_path_idempotent pathsep (environ environ' : gmap string string)
    additional_paths :
  (forall x, x ∈ additional_paths -> Str.split pathsep x = [x]) ->
  extend_python_path pathsep environ additional_paths = Ok environ' ->
  extend_python_path pathsep environ' additional_paths = Ok environ'.
Proof.
  intros Hsep. rewrite !extend_python_path_run. intros [= <-].
  set (exported := dedup_first (python_path_entries pathsep environ ++ additional_paths)).
  rewrite insert_insert_eq.
  unfold python_path_entries at 1. rewrite lookup_insert_eq.
  assert (Str.join (String pathsep "")
            (dedup_first (Str.split pathsep (Str.join (String pathsep "") exported)
                          ++ additional_paths))
          = Str.join (String pathsep "") exported) as ->; [|reflexivity].
  destruct exported as [|x l] eqn:Hexp.
  - assert (additional_paths = []) as ->; [|reflexivity].
    destruct additional_paths as [|y ys]; [reflexivity|].
    assert (y ∈ exported) as Hy.
    { apply elem_of_dedup_first, elem_of_app. right. left. }
    rewrite Hexp in Hy. by apply not_elem_of_nil in Hy.
  - rewrite <- Hexp. f_equal. rewrite split_join; cycle 1.
    { by rewrite Hexp. }
    { intros y [Hy|Hy]%elem_of_dedup_first%elem_of_app; [|by apply Hsep].
      unfold python_path_entries in Hy.
      destruct (environ !! "PYTHONPATH") as [v|]; [|by apply not_elem_of_nil in Hy].
      by eapply split_pieces_single. }
    rewrite dedup_first_app.
    assert (Hnd : NoDup exported) by apply NoDup_dedup_first.
    rewrite (dedup_first_NoDup exported Hnd).
    rewrite filter_none; [by rewrite app_nil_r|].
    intros y Hy Hn. apply Hn. rewrite elem_of_dedup_first in Hy.
    unfold exported. rewrite elem_of_dedup_first, elem_of_app. by right.
Qed.

Lemma extend_python_path_idempotent_witness :
  extend_python_path ":" {[ "PYTHONPATH" := "/z:/a:/n:/m" ]} ["/n"; "/a"; "/m"; "/n"]
  = Ok {[ "PYTHONPATH" := "/z:/a:/n:/m" ]}.
Proof.
  apply (extend_python_path_idempotent ":" {[ "PYTHONPATH" := "/z:/a:/z" ]}).
  - intros x Hx. rewrite !elem_of_cons in Hx.
    destruct Hx as [->|[->|[->|[->|Hx]]]]; try reflexivity.
    by apply not_elem_of_nil in Hx.
  - vm_compute. reflexivity.
Defined.

(** ** What a target holds after an extraction *)

Section TargetContent.

Variable compile_outcome : FS -> Path -> Z -> bool * list (list string).

Lemma extract_members_fs_inv archive tmp d d' :
  extract_members archive tmp d = (Ok tt, d') ->
  forall q, q ∈ d_fs d' ->
    q ∈ d_fs d \/ (exists fileinfo, fileinfo ∈ namespace_members archive
                     /\ q = extracted_to tmp fileinfo).
Proof.
  revert d. induction archive as [|fileinfo rest IH]; intros d.
  - intros [= <-] q Hq. by left.
  - cbn [extract_members namespace_members List.filter].
    fold (namespace_members rest).
    destruct (Str.startswith "site-packages" (filename fileinfo)).
    + unfold mbind at 1. unfold mbind at 1. unfold zip_extract, did, mbind, mret.
      cbn [fst snd d_fs d_ops]. intros Hrun q Hq.
      destruct (IH _ Hrun q Hq) as [Hq'|(f & Hf & ->)].
      * cbn [d_fs] in Hq'. apply elem_of_cons in Hq' as [->|Hq'']; [|by left].
        right. exists fileinfo. split; [left|reflexivity].
      * right. exists f. split; [by right|reflexivity].
    + unfold mbind at 1. unfold mret at 1. apply IH.
Qed.

Lemma ancestor_or_self_trans p q r :
  ancestor_or_self p q -> ancestor_or_self q r -> ancestor_or_self p r.
Proof. intros [Hr Hp] [Hr' Hp']. split; [congruence|by etrans]. Qed.

(** Without compilation, the disk before the move holds nothing under the
    target, and under the temporary directory only what was there and
    what the loop extracted. *)
Lemma extract_site_packages_final_only archive target_path compile_workers force d d' :
  PathLib.wf target_path = true -> p_parts target_path <> [] ->
  fs_exists (d_fs d) target_path = false \/ force = true ->
  extract_site_packages compile_outcome archive target_path
    false compile_workers force d = (Ok tt, d') ->
  exists fs1,
    d_fs d' = fs_rename (tmp_of target_path) target_path fs1
    /\ forall q, q ∈ fs1 ->
         ~ ancestor_or_self target_path q
         /\ (q = PathLib.parent target_path \/ q ∈ d_fs d
             \/ exists fileinfo, fileinfo ∈ namespace_members archive
                  /\ q = extracted_to (tmp_of target_path) fileinfo).
Proof.
  intros Hwf Hne Hwork. unfold extract_site_packages.
  fold (tmp_of target_path). fold (lock_of target_path).
  intros (u0 & d0 & Hmk & Hlock)%mbind_ok. revert Hlock.
  assert (Hd0 : forall q, q ∈ d_fs d0 -> q = PathLib.parent target_path \/ q ∈ d_fs d).
  { destruct (negb (fs_exists (d_fs d) (PathLib.parent target_path))).
    - unfold mkdir_parents, did in Hmk. injection Hmk as _ <-.
      intros q [->|Hq]%elem_of_cons; [by left|by right].
    - unfold mret in Hmk. injection Hmk as _ <-. by right. }
  assert (Hex0 : fs_exists (d_fs d) target_path = false ->
                 fs_exists (d_fs d0) target_path = false).
  { destruct (negb (fs_exists (d_fs d) (PathLib.parent target_path))).
    - unfold mkdir_parents, did in Hmk. injection Hmk as _ <-. intros Hex.
      unfold fs_exists. simpl. rewrite (parent_not_under _ Hne). exact Hex.
    - unfold mret in Hmk. by injection Hmk as _ <-. }
  unfold with_FileLock.
  set (d1 := mkDisk (d_fs d0) (d_ops d0 ++ [LockAcquire _])).
  assert (negb (fs_exists (d_fs d1) target_path) || force = true) as ->.
  { destruct Hwork as [Hex| ->]; [|apply orb_true_r].
    simpl. by rewrite (Hex0 Hex). }
  destruct (mbind _ _ d1) as [r d2] eqn:Hbody. intros [= -> <-]. simpl.
  apply mbind_ok in Hbody as (ua & da & Hloop & Hbody).
  apply mbind_ok in Hbody as (ub & db & Hcomp & Hbody).
  apply mbind_ok in Hbody as (uc & dc & Hrm & Hmove).
  destruct ua, ub, uc. unfold mret in Hcomp. injection Hcomp as <-.
  assert (Hda : forall q, q ∈ d_fs da ->
            q = PathLib.parent target_path \/ q ∈ d_fs d
            \/ exists fileinfo, fileinfo ∈ namespace_members archive
                 /\ q = extracted_to (tmp_of target_path) fileinfo).
  { intros q Hq. destruct (extract_members_fs_inv _ _ _ _ Hloop q Hq) as [Hq0|Hq0].
    - destruct (Hd0 q Hq0); tauto.
    - tauto. }
  assert (Hdc : fs_exists (d_fs dc) target_path = false
                /\ forall q, q ∈ d_fs dc ->
                     ~ ancestor_or_self target_path q
                     /\ (q = PathLib.parent target_path \/ q ∈ d_fs da)).
  { destruct (fs_exists (d_fs da) target_path) eqn:Hex.
    - unfold shutil_rmtree, did in Hrm. injection Hrm as <-. simpl. split.
      + by apply fs_rmtree_gone.
      + unfold fs_rmtree. intros q [->|Hq]%elem_of_cons.
        * split; [|by left]. rewrite <- is_relative_to_spec.
          by rewrite (parent_not_under _ Hne).
        * apply list_elem_of_In, filter_In in Hq as [Hq Hout].
          apply negb_true_iff in Hout. split.
          -- rewrite <- is_relative_to_spec. by rewrite Hout.
          -- right. by apply list_elem_of_In.
    - unfold mret in Hrm. injection Hrm as <-. split; [exact Hex|].
      intros q Hq. split; [|by right]. intros Hanc.
      apply not_true_iff_false in Hex. apply Hex, fs_exists_spec. eauto. }
  destruct Hdc as [Hgone Hdc].
  unfold shutil_move in Hmove. rewrite Hgone in Hmove.
  destruct (fs_exists (d_fs dc) (tmp_of target_path)); simpl in Hmove; [|discriminate].
  injection Hmove as <-. simpl. exists (d_fs dc). split; [reflexivity|].
  intros q Hq. destruct (Hdc q Hq) as [Hout [->|Hq']]; [split; [exact Hout|by left]|].
  split; [exact Hout|by apply Hda].
Qed.

Lemma extract_site_packages_members archive target_path compile_pyc compile_workers
    force d d' fileinfo :
  PathLib.wf target_path = true -> p_parts target_path <> [] ->
  fs_exists (d_fs d) target_path = false \/ force = true ->
  extract_site_packages compile_outcome archive target_path
    compile_pyc compile_workers force d = (Ok tt, d') ->
  fileinfo ∈ namespace_members archive ->
  fs_exists (d_fs d') (extracted_to target_path fileinfo) = true.
Proof.
  intros Hwf Hne Hwork Hrun Hin.
  destruct (extract_site_packages_final _ _ _ _ _ _ _ _ Hwf Hne Hwork Hrun)
    as (fs1 & -> & Hfs1).
  assert (Hanc : ancestor_or_self (tmp_of target_path)
                   (extracted_to (tmp_of target_path) fileinfo)).
  { split; [reflexivity|]. simpl. by apply prefix_app_r. }
  pose proof (fs_rename_moved (tmp_of target_path) target_path fs1 _
                (Hfs1 _ Hanc (or_intror (ex_intro _ fileinfo (conj Hin eq_refl)))) Hanc)
    as Hmoved.
  unfold extracted_to in Hmoved at 1. cbn [p_parts] in Hmoved.
  by rewrite drop_app_length in Hmoved.
Qed.

End TargetContent.

(** X23: what the target holds after an extraction without compilation
    into an empty temporary directory: the members of the archive whose
    name starts with [site-packages], the directories on the way to them,
    and nothing else. Nothing of a target that a forced extraction
    replaced is left. *)
Theorem extract_site_packages_target_content compile_outcome archive target_path
    compile_workers force d d' r :
  PathLib.wf target_path = true -> p_parts target_path <> [] ->
  fs_exists (d_fs d) target_path = false \/ force = true ->
  fs_exists (d_fs d) (tmp_of target_path) = false ->
  extract_site_packages compile_outcome archive target_path
    false compile_workers force d = (Ok tt, d') ->
  ancestor_or_self target_path r ->
  fs_exists (d_fs d') r = true
  <-> exists fileinfo, fileinfo ∈ namespace_members archive
        /\ ancestor_or_self r (extracted_to target_path fileinfo).
Proof.
  intros Hwf Hne Hwork Htmp Hrun Hr. split.
  - destruct (extract_site_packages_final_only _ _ _ _ _ _ _ Hwf Hne Hwork Hrun)
      as (fs1 & -> & Hfs1).
    rewrite fs_exists_spec. intros (q & Hq & Hrq). unfold fs_rename in Hq.
    apply elem_of_cons in Hq as [->|Hq].
    + exfalso. rewrite parent_tmp_of in Hrq by assumption.
      pose proof (ancestor_or_self_trans _ _ _ Hr Hrq) as Hbad.
      apply is_relative_to_spec in Hbad. by rewrite (parent_not_under _ Hne) in Hbad.
    + apply list_elem_of_fmap in Hq as (x & -> & Hx).
      destruct (Hfs1 x Hx) as [Hout Hfrom]. unfold rebase in Hrq.
      destruct (PathLib.is_relative_to x (tmp_of target_path)) eqn:Hrel.
      * apply is_relative_to_spec in Hrel.
        destruct Hfrom as [->|[Hold|(fileinfo & Hin & ->)]].
        -- exfalso. rewrite <- (parent_tmp_of _ Hwf Hne) in Hrel.
           apply is_relative_to_spec in Hrel. rewrite parent_not_under in Hrel; [done|].
           rewrite tmp_of_parts by assumption. simpl. by destruct (removelast _).
        -- exfalso. apply not_true_iff_false in Htmp. apply Htmp, fs_exists_spec. eauto.
        -- exists fileinfo. split; [exact Hin|].
           unfold extracted_to in Hrq at 1. cbn [p_parts] in Hrq.
           by rewrite drop_app_length in Hrq.
      * exfalso. apply Hout. by eapply ancestor_or_self_trans.
  - intros (fileinfo & Hin & Hanc).
    pose proof (extract_site_packages_members _ _ _ _ _ _ _ _ _ Hwf Hne Hwork Hrun Hin)
      as Hm.
    apply fs_exists_spec in Hm as (q & Hq & Hmq). apply fs_exists_spec.
    exists q. split; [exact Hq|]. by eapply ancestor_or_self_trans.
Qed.

Lemma extract_site_packages_target_content_witness :
  fs_exists
    (d_fs (extract_site_packages ExtractExamples.failing_compile ExtractExamples.archive
             ExtractExamples.target_path false 0 true
             (mkDisk [ExtractExamples.target_path // "site-packages" // "old.py"] [])).2)
    (ExtractExamples.target_path // "site-packages" // "old.py") = true
  <-> exists fileinfo, fileinfo ∈ namespace_members ExtractExamples.archive
        /\ ancestor_or_self (ExtractExamples.target_path // "site-packages" // "old.py")
             (extracted_to ExtractExamples.target_path fileinfo).
Proof.
  apply (extract_site_packages_target_content ExtractExamples.failing_compile
           ExtractExamples.archive ExtractExamples.target_path 0%Z true
           (mkDisk [ExtractExamples.target_path // "site-packages" // "old.py"] []));
    [reflexivity|discriminate|by right|reflexivity|reflexivity|].
  split; [reflexivity|]. by exists ["site-packages"; "old.py"].
Defined.

(** ** The end of [bootstrap] *)

Lemma not_import_event_interpreter imports :
  Forall is_import_event imports -> ExecuteInterpreter ∉ imports.
Proof.
  intros Hall Hin. rewrite Forall_forall in Hall. exact (Hall _ Hin).
Qed.

(** X24: the dispatcher ends in the interactive interpreter exactly when
    the interpreter is asked for or neither an entry point nor a script is
    set, and then nothing else is run and the environment is left as it
    is; in every other case it does not return, and the interpreter is
    never started. *)
Theorem bootstrap_dispatch_interpreter names X env site_packages w :
  (env_interpreter env = true
   \/ (env_entry_point env = None /\ env_script env = None) ->
   bootstrap_dispatch names X env site_packages w
   = (Ok tt, mkWorld (w_environ w) (w_trace w ++ [ExecuteInterpreter])))
  /\ (env_interpreter env = false ->
      env_entry_point env <> None \/ env_script env <> None ->
      exists e w' events,
        bootstrap_dispatch names X env site_packages w = (Raise e, w')
        /\ w_trace w' = (w_trace w ++ events)%list
        /\ ExecuteInterpreter ∉ events).
Proof.
  split.
  - intros [Hint|[Hep Hscript]]; unfold bootstrap_dispatch.
    + rewrite Hint. reflexivity.
    + rewrite Hep, Hscript. by destruct (env_interpreter env).
  - intros Hint Hset. unfold bootstrap_dispatch. rewrite Hint.
    change (negb false) with true. cbv iota.
    assert (Hscript : forall script,
      exists e w' events,
        (run names (run_path X (PathLib.to_str (site_packages // "bin" // script)) false)
         ;;; execute_interpreter)%M w = (Raise e, w')
        /\ w_trace w' = (w_trace w ++ events)%list /\ ExecuteInterpreter ∉ events).
    { intros script. unfold mbind at 1. rewrite run_run_path.
      eexists _, _, _. split; [reflexivity|]. split; [reflexivity|].
      intros [Hin|Hin]%elem_of_cons; [discriminate|by apply not_elem_of_nil in Hin]. }
    destruct (env_entry_point env) as [entry_point|] eqn:Hep.
    + destruct (truthy_str (env_script env)) eqn:Ht.
      * destruct (env_script env) as [script|]; [|discriminate].
        change (negb true) with false. cbv iota. apply Hscript.
      * change (negb false) with true. cbv iota.
        destruct (import_string_trace X entry_point w) as (imports & Himp & Hw).
        unfold mbind at 1. unfold mbind at 1.
        destruct (import_string X entry_point w) as [[callee|e] w1]; simpl in Hw; subst w1.
        -- rewrite run_call. eexists _, _, _. split; [reflexivity|]. simpl.
           rewrite <- app_assoc. split; [reflexivity|].
           intros [Hin|Hin]%elem_of_app.
           ++ by apply (not_import_event_interpreter imports).
           ++ apply elem_of_cons in Hin as [Hin|Hin]; [discriminate|].
              by apply not_elem_of_nil in Hin.
        -- eexists _, _, _. split; [reflexivity|]. split; [reflexivity|].
           by apply not_import_event_interpreter.
    + destruct (env_script env) as [script|]; [apply Hscript|].
      destruct Hset as [Hset|Hset]; done.
Qed.

Lemma bootstrap_dispatch_interpreter_witness :
  bootstrap_dispatch DispatchExamples.names (DispatchExamples.externals 0)
    (DispatchExamples.env None None None) DispatchExamples.site_packages
    DispatchExamples.start
  = (Ok tt, mkWorld (w_environ DispatchExamples.start)
              (w_trace DispatchExamples.start ++ [ExecuteInterpreter])).
Proof.
  apply (bootstrap_dispatch_interpreter DispatchExamples.names
           (DispatchExamples.externals 0) (DispatchExamples.env None None None)).
  right. by split.
Defined.



Lemma scrubbed_lookup_other names (environ : gmap string string) key :
  key <> name_MODULE names -> key <> name_ENTRY_POINT names ->
  key <> name_CONSOLE_SCRIPT names ->
  scrubbed names environ !! key = environ !! key.
Proof.
  intros H1 H2 H3. unfold scrubbed.
  rewrite !lookup_delete_ne by congruence. reflexivity.
Qed.

(** X26: the whole way to an entry point. With the export asked for, no
    preamble, no script, and the verifier off or passing, [bootstrap]
    splices the registered entries into the search path, exports the new
    ones, imports the entry point, scrubs the routing variables, calls the
    entry point and leaves with what the call gave; the exported
    [PYTHONPATH] is what the entry point finds, the scrub leaving it. *)
Theorem bootstrap_after_extract_entry_point names X sha256_hexdigest pathsep env
    site_packages appended (tree : Tree) sys_path w entry_point callee :
  let exported :=
    Str.join (String pathsep "")
      (dedup_first (python_path_entries pathsep (w_environ w)
                    ++ filter (fun p => p ∉ sys_path) appended)) in
  let w1 := mkWorld (<["PYTHONPATH" := exported]> (w_environ w)) (w_trace w) in
  env_no_modify env = false
  \/ (ensure_no_modify sha256_hexdigest site_packages (env_hashes env) tree).1 = Ok tt ->
  env_extend_pythonpath env = true -> env_preamble env = None ->
  env_interpreter env = false -> env_entry_point env = Some entry_point ->
  env_script env = None ->
  (import_string X entry_point w1).1 = Ok callee ->
  "PYTHONPATH" <> name_MODULE names -> "PYTHONPATH" <> name_ENTRY_POINT names ->
  "PYTHONPATH" <> name_CONSOLE_SCRIPT names ->
  exists imports environ,
    Forall is_import_event imports
    /\ bootstrap_after_extract names X sha256_hexdigest pathsep env site_packages
         appended tree sys_path w
       = ((bootstrap_sys_path appended sys_path).1,
          (Raise (exit_with (x_call X callee)),
           mkWorld environ (w_trace w ++ imports ++ [Call callee])))
    /\ environ !! "PYTHONPATH" = Some exported
    /\ environ !! name_ENTRY_POINT names = None.
Proof.
  intros exported w1 Hverify Hexport Hpre Hint Hep Hscript Himport Hn1 Hn2 Hn3.
  destruct (import_string_trace X entry_point w1) as (imports & Himp & Hw).
  exists imports, (scrubbed names (w_environ w1)).
  split; [exact Himp|]. split; [|split].
  - unfold bootstrap_after_extract.
    pose proof (bootstrap_sys_path_new_paths appended sys_path) as Hnew.
    destruct (bootstrap_sys_path appended sys_path) as [sys_path' new_paths].
    cbn [fst snd] in *. subst new_paths. f_equal.
    assert ((if env_no_modify env
             then mlift (ensure_no_modify sha256_hexdigest site_packages
                           (env_hashes env) tree).1
             else mret tt) w = (Ok tt, w)) as Hv.
    { destruct Hverify as [-> | Hok]; [reflexivity|].
      rewrite Hok. by destruct (env_no_modify env). }
    unfold mbind at 1. rewrite Hv. rewrite Hexport.
    unfold mbind at 1. unfold export_python_path at 1.
    rewrite extend_python_path_run. fold exported. fold w1.
    unfold bootstrap_run, bootstrap_preamble. rewrite Hpre.
    unfold mbind at 1. unfold mret at 1.
    unfold bootstrap_dispatch. rewrite Hint, Hep, Hscript.
    change (negb false) with true. cbv iota. cbn [truthy_str negb].
    unfold mbind at 1. unfold mbind at 1.
    destruct (import_string X entry_point w1) as [r w2]. simpl in Himport, Hw.
    subst r w2. rewrite run_call. simpl. by rewrite app_assoc.
  - rewrite scrubbed_lookup_other by assumption. apply lookup_insert_eq.
  - unfold scrubbed. rewrite !lookup_delete. repeat case_decide; done.
Qed.

Lemma bootstrap_after_extract_entry_point_witness :
  let env := mkEnvironment None false "abc" false false 0 false ∅ true None false
               (Some "pkg.cli:main") None in
  let callee := Attr (Module "pkg.cli") "main" in
  exists imports environ,
    Forall is_import_event imports
    /\ bootstrap_after_extract DispatchExamples.names (DispatchExamples.externals 0)
         VerifierExamples.digest ":" env VerifierExamples.root
         ["/cache/app.pyz_abc/site-packages"] VerifierExamples.tree
         ["/usr/lib/python3.11"] DispatchExamples.start
       = (["/usr/lib/python3.11"; "/cache/app.pyz_abc/site-packages"],
          (Raise (SystemExit (PyInt 0)),
           mkWorld environ (imports ++ [Call callee])))
    /\ environ !! "PYTHONPATH" = Some "/cache/app.pyz_abc/site-packages"
    /\ environ !! "SHIV_ENTRY_POINT" = None.
Proof.
  intros env callee.
  apply (bootstrap_after_extract_entry_point DispatchExamples.names
           (DispatchExamples.externals 0) VerifierExamples.digest ":" env
           VerifierExamples.root ["/cache/app.pyz_abc/site-packages"]
           VerifierExamples.tree ["/usr/lib/python3.11"] DispatchExamples.start
           "pkg.cli:main" callee);
    try reflexivity; try discriminate.
  by left.
Defined.

(** ** What can go wrong in the resolver *)

Lemma expanduser_raises H p e :
  expanduser H p = Raise e -> home_unknown H e.
Proof.
  unfold expanduser. destruct (p_root p); [|discriminate].
  destruct (p_parts p) as [|first rest]; [discriminate|].
  destruct (Str.startswith "~" first); [|discriminate].
  destruct (gethomedir H _) eqn:Hhome; [discriminate|]. intros [= <-].
  split; [reflexivity|eauto].
Qed.

Lemma user_root_raises H e :
  user_root H = Raise e -> home_unknown H e.
Proof.
  unfold user_root.
  destruct (if String.eqb (sys_platform H) "win32" then _ else _) as [r|]; [|discriminate].
  destruct (expanduser H (PathLib.parse r)) eqn:Hx; simpl; [discriminate|].
  intros [= <-]. by eapply expanduser_raises.
Qed.



(** ** The extraction step of [bootstrap] *)

(** X28: once the extraction step of [bootstrap] has returned for an
    archive with a member at or under [site-packages/], the dependency
    directory is there, and a later run without [force] does nothing at
    all, the lock not even being taken. The cache directory must not have
    been there without its [site-packages], unless [force] is set: such a
    directory is left as it is. *)
Theorem bootstrap_extract_settles compile_outcome env env' archive target_path
    d0 d1 fileinfo rest :
  let site_packages := target_path // "site-packages" in
  PathLib.wf target_path = true -> p_parts target_path <> [] ->
  fileinfo ∈ namespace_members archive ->
  member_parts (filename fileinfo) = "site-packages" :: rest ->
  (fs_exists (d_fs d0) target_path = true ->
   fs_exists (d_fs d0) site_packages = true \/ env_force_extract env = true) ->
  bootstrap_extract compile_outcome env archive site_packages d0 = (Ok tt, d1) ->
  fs_exists (d_fs d1) site_packages = true
  /\ (env_force_extract env' = false ->
      bootstrap_extract compile_outcome env' archive site_packages d1 = (Ok tt, d1)).
Proof.
  intros site_packages Hwf Hne Hin Hmember Hstate Hrun.
  assert (Hsp : site_packages
                = mkPath (p_root target_path) (p_parts target_path ++ ["site-packages"])).
  { unfold site_packages. by rewrite joinpath_single. }
  assert (Hparent : PathLib.parent site_packages = target_path).
  { rewrite Hsp. unfold PathLib.parent. simpl. rewrite removelast_last.
    by destruct target_path. }
  assert (Hextracted : forall force,
            fs_exists (d_fs d0) target_path = false \/ force = true ->
            extract_site_packages compile_outcome archive target_path
              (env_compile_pyc env) (env_compile_workers env) force d0 = (Ok tt, d1) ->
            fs_exists (d_fs d1) site_packages = true).
  { intros force Hwork Hextract. apply fs_exists_spec.
    pose proof (extract_site_packages_members _ _ _ _ _ _ _ _ _ Hwf Hne
                  Hwork Hextract Hin) as Hm.
    apply fs_exists_spec in Hm as (q & Hq & Hanc). exists q. split; [exact Hq|].
    eapply ancestor_or_self_trans; [|exact Hanc].
    rewrite Hsp. unfold extracted_to. rewrite Hmember.
    split; [reflexivity|]. simpl. apply prefix_app, prefix_cons, prefix_nil. }
  assert (Hthere : fs_exists (d_fs d1) site_packages = true).
  { unfold bootstrap_extract in Hrun. rewrite Hparent in Hrun.
    destruct (fs_exists (d_fs d0) site_packages) eqn:Hex0;
      destruct (env_force_extract env) eqn:Hforce; simpl in Hrun.
    - apply (Hextracted true); [by right|exact Hrun].
    - unfold mret in Hrun. by injection Hrun as <-.
    - apply (Hextracted true); [by right|exact Hrun].
    - apply (Hextracted false); [left|exact Hrun].
      destruct (fs_exists (d_fs d0) target_path); [|reflexivity].
      destruct (Hstate eq_refl); discriminate. }
  split; [exact Hthere|].
  intros Hforce. unfold bootstrap_extract. rewrite Hthere, Hforce. reflexivity.
Qed.

Lemma bootstrap_extract_settles_witness :
  let site_packages := ExtractExamples.target_path // "site-packages" in
  let d1 := (bootstrap_extract ExtractExamples.failing_compile
               (DispatchExamples.env None None None) ExtractExamples.archive
               site_packages (mkDisk [] [])).2 in
  fs_exists (d_fs d1) site_packages = true
  /\ bootstrap_extract ExtractExamples.failing_compile
       (DispatchExamples.env None None None) ExtractExamples.archive site_packages d1
     = (Ok tt, d1).
Proof.
  intros site_packages d1.
  destruct (bootstrap_extract_settles ExtractExamples.failing_compile
              (DispatchExamples.env None None None) (DispatchExamples.env None None None)
              ExtractExamples.archive ExtractExamples.target_path (mkDisk [] []) d1
              (mkZipInfo "site-packages/pkg/a.py" (Z.shiftl 33188 16)) ["pkg"; "a.py"])
    as [Hthere Hagain].
  - reflexivity.
  - discriminate.
  - vm_compute. by left.
  - reflexivity.
  - discriminate.
  - reflexivity.
  - split; [exact Hthere|]. apply Hagain. reflexivity.
Defined.
